(** * Inventory manager: the stock ledger and its read side

    A shallow embedding of the product controller
    ([controllers/productController.js]), the Sequelize models it
    uses ([models/Product.js], [models/Transaction.js]), the route
    validation chains ([routes/products.js]), the helpers
    ([utils/helpers.js]) and the dashboard code of the front end
    ([frontend/src/js/app.js]).

    Conventions of the embedding.
    - An INTEGER column holds a [Z] and a DECIMAL(10,2) column a
      rational [Q] with two decimals; the 32-bit range of the one and
      the ten digits of the other are not modelled.  A field that may
      be [undefined] is an [option].
    - A body field that a validation chain checks with [isInt] reaches
      the handler as it was sent, number or text ([Value]): no chain
      converts.  The stock fields of a product form are modelled so.
      For the quantity of a stock adjustment both views are given:
      [Adjust] and [adjustStock] for a quantity sent as a number, as
      the page sends it, and [Wire] for a quantity sent as either;
      on numbers the two are proved to agree.
    - A string is the sequence of its UTF-16 code units, those below
      256: [trim], [toLowerCase] and [toUpperCase] are the JavaScript
      functions on such strings, but for two units that [toUpperCase]
      sends above 255 (see there).
    - A number of the front end is an IEEE double ([float]).
    - A table is the list of its rows in insertion order, with the
      sequence behind its key next to it.  A sequence value is used up
      by every INSERT that reaches the database, stored or not.
    - Every awaited Sequelize call may reject.  A handler runs in the
      monad [M]: state is the database, and an exception keeps the
      writes made before it, exactly as the [try]/[catch] of the
      handlers does (no handler opens a database transaction).
    - Two handlers that run at once interleave at their [await]s; the
      module [Concurrent] gives [adjustStock] as a step machine. *)

From Stdlib Require Import ZArith QArith Qround List String Ascii Bool Lia.
From Stdlib Require Import DecimalString Sorted Floats.
Import ListNotations.
Local Open Scope Z_scope.

(** ** Data model *)

(** [DataTypes.ENUM('in', 'out', 'adjustment')] *)
Inductive TransactionType := type_in | type_out | type_adjustment.

(** [models/Transaction.js], with the two foreign keys of
    [models/index.js]. *)
Record Transaction := {
  tx_id : Z;
  productId : Z;
  userId : Z;
  type : TransactionType;
  quantity : Z;
  previousStock : Z;
  newStock : Z;
  reason : string;
  notes : option string;
  reference : option string
}.

(** [models/Product.js] *)
Record Product := {
  id : Z;
  name : string;
  description : option string;
  sku : string;
  barcode : option string;
  categoryId : Z;
  supplierId : option Z;
  price : Q;
  cost : Q;
  stockQuantity : Z;
  minStockLevel : Z;
  maxStockLevel : option Z;
  unit : string;
  location : option string;
  isActive : bool
}.

Record Category := {
  cat_id : Z;
  cat_name : string
}.

(** The database: the tables of products, movements and categories,
    the keys of the suppliers, and the two sequences behind the
    auto-increment keys. *)
Record Store := {
  products : list Product;
  transactions : list Transaction;
  categories : list Category;
  suppliers : list Z;
  nextProductId : Z;
  nextTransactionId : Z
}.

Definition empty_store : Store :=
  {| products := []; transactions := []; categories := [];
     suppliers := [];
     nextProductId := 1; nextTransactionId := 1 |}.

(** The database after [utils/seed.js]: the four default categories
    and the default supplier. *)
Definition seeded : Store :=
  {| products := []; transactions := [];
     categories :=
       [ {| cat_id := 1; cat_name := "Electronics" |};
         {| cat_id := 2; cat_name := "Office Supplies" |};
         {| cat_id := 3; cat_name := "Hardware" |};
         {| cat_id := 4; cat_name := "Software" |} ];
     suppliers := [1];
     nextProductId := 1; nextTransactionId := 1 |}.

(** ** Exceptions and the handler monad *)

Inductive ErrorName :=
| SequelizeValidationError
| SequelizeUniqueConstraintError
| SequelizeForeignKeyConstraintError
| SequelizeDatabaseError.

Record Exn := { error_name : ErrorName; message : string }.

(** [outage = Some n]: the database answers [n] more queries and
    rejects every later one; [None]: it answers all of them. *)
Record World := { db : Store; outage : option nat }.

Definition M (A : Type) : Type := World -> (Exn + A) * World.

Definition ret {A} (a : A) : M A := fun w => (inr a, w).

Definition bind {A B} (m : M A) (k : A -> M B) : M B :=
  fun w =>
    match m w with
    | (inl e, w') => (inl e, w')
    | (inr a, w') => k a w'
    end.

(** [try { body } catch (error) { handler }], for the handlers of the
    controller: their [catch] only sends a response. *)
Definition try_catch {A} (body : M A) (handler : Exn -> A)
  : World -> A * World :=
  fun w =>
    match body w with
    | (inl e, w') => (handler e, w')
    | (inr a, w') => (a, w')
    end.

Notation "x <- m ;; k" := (bind m (fun x => k))
  (at level 61, m at next level, right associativity).
Notation "'await' m ;; k" := (bind m (fun _ => k))
  (at level 61, m at next level, right associativity).

Definition connection_error : Exn :=
  {| error_name := SequelizeDatabaseError;
     message := "connection terminated" |}.

(** One awaited query [q] against the database. *)
Definition query {A} (q : Store -> (Exn + A) * Store) : M A :=
  fun w =>
    match outage w with
    | Some O => (inl connection_error, w)
    | _ =>
        (fst (q (db w)),
         {| db := snd (q (db w)); outage := option_map Nat.pred (outage w) |})
    end.


(** ** JavaScript values *)

(** What a body field holds that a chain checks with [isInt]: a JSON
    number that is an integer, or a JSON string.  The chain refuses
    every other value. *)
Inductive Value :=
| Num (n : Z)
| Str (s : string).

Definition isEmpty (s : string) : bool := String.eqb s "".

Definition is_digit (c : ascii) : bool :=
  let n := nat_of_ascii c in (Nat.leb 48 n && Nat.leb n 57)%bool.

Fixpoint all_digits (s : string) : bool :=
  match s with
  | EmptyString => true
  | String c s' => is_digit c && all_digits s'
  end.

Definition is_sign (c : ascii) : bool :=
  (Ascii.eqb c "+" || Ascii.eqb c "-")%bool.

(** The regular expression of validator.js [isInt]:
    [/^[-+]?[0-9]+$/]. *)
Definition int_literal (s : string) : bool :=
  match s with
  | EmptyString => false
  | String c s' =>
      if is_sign c then negb (isEmpty s') && all_digits s'
      else all_digits s
  end.

Fixpoint read_digits (acc : Z) (s : string) : Z :=
  match s with
  | EmptyString => acc
  | String c s' =>
      read_digits (10 * acc + Z.of_nat (nat_of_ascii c - 48)) s'
  end.

(** The integer that an integer literal denotes. *)
Definition read_int (s : string) : Z :=
  match s with
  | EmptyString => 0
  | String c s' =>
      if Ascii.eqb c "-" then - read_digits 0 s'
      else if Ascii.eqb c "+" then read_digits 0 s'
      else read_digits 0 s
  end.

(** [Number(v)], with [None] for NaN.  The texts that reach it are
    made of signs and digits, and on those it is exact. *)
Definition toNumber (v : Value) : option Z :=
  match v with
  | Num n => Some n
  | Str s =>
      if isEmpty s then Some 0
      else if int_literal s then Some (read_int s)
      else None
  end.

Fixpoint leading_digits (s : string) : string :=
  match s with
  | EmptyString => EmptyString
  | String c s' =>
      if is_digit c then String c (leading_digits s') else EmptyString
  end.

(** [parseFloat(String(v))], with [None] for NaN, on numbers and on
    texts made of signs and digits: the longest prefix that is an
    integer literal. *)
Definition parseFloat (v : Value) : option Z :=
  match v with
  | Num n => Some n
  | Str EmptyString => None
  | Str (String c s' as s) =>
      if is_sign c then
        if isEmpty (leading_digits s') then None
        else Some (read_int (String c (leading_digits s')))
      else
        if isEmpty (leading_digits s) then None
        else Some (read_int (leading_digits s))
  end.

(** [String(n)] *)
Definition toString (n : Z) : string :=
  NilZero.string_of_int (Z.to_int n).

(** [a + v] for a number [a]: the sum, or the concatenation when [v]
    is text. *)
Definition plus (a : Z) (v : Value) : Value :=
  match v with
  | Num n => Num (a + n)
  | Str s => Str (toString a ++ s)
  end.

(** [v < n] and [v > n] for a number [n]: false on NaN. *)
Definition lessThan (v : Value) (n : Z) : bool :=
  match toNumber v with Some m => m <? n | None => false end.

Definition greaterThan (v : Value) (n : Z) : bool :=
  match toNumber v with Some m => n <? m | None => false end.

(** [Math.abs(v)] *)
Definition Math_abs (v : Value) : option Z :=
  option_map Z.abs (toNumber v).

(** A value in a condition: [0] and the empty text are falsy. *)
Definition truthy (v : Value) : bool :=
  match v with
  | Num n => negb (n =? 0)
  | Str s => negb (isEmpty s)
  end.

(** [v || d] on a field that may be [undefined]. *)
Definition or_value (v : option Value) (d : Z) : Value :=
  match v with
  | Some x => if truthy x then x else Num d
  | None => Num d
  end.

(** [v === 0] *)
Definition is_zero (v : Value) : bool :=
  match v with Num n => n =? 0 | Str _ => false end.

(** validator.js [isInt(String(v), { min })]. *)
Definition isInt (min : option Z) (v : Value) : bool :=
  match v with
  | Num n => match min with Some m => m <=? n | None => true end
  | Str s =>
      int_literal s
      && match min with Some m => m <=? read_int s | None => true end
  end.

(** ** Sequelize model operations *)

(** The error of a model validator that fails with [msg]. *)
Definition validation_error (msg : string) : Exn :=
  {| error_name := SequelizeValidationError;
     message := "Validation error: " ++ msg |}.

(** The integer that PostgreSQL reads from a value bound to an INTEGER
    column; [None] when it refuses the text. *)
Definition integer_in (v : Value) : option Z :=
  match v with
  | Num n => Some n
  | Str s => if int_literal s then Some (read_int s) else None
  end.

(** The messages of the database are given without the value, table
    and constraint that they quote. *)
Definition invalid_integer : Exn :=
  {| error_name := SequelizeDatabaseError;
     message := "invalid input syntax for type integer" |}.

(** The validator [min: 0] of a model: Sequelize compares
    [parseFloat] of the value and lets NaN through. *)
Definition fails_min_0 (v : Value) : bool :=
  match parseFloat v with Some n => n <? 0 | None => false end.

Definition set_stockQuantity (p : Product) (v : Z) : Product :=
  {| id := id p; name := name p; description := description p;
     sku := sku p; barcode := barcode p; categoryId := categoryId p;
     supplierId := supplierId p; price := price p; cost := cost p;
     stockQuantity := v; minStockLevel := minStockLevel p;
     maxStockLevel := maxStockLevel p; unit := unit p;
     location := location p; isActive := isActive p |}.

(** [Product.findByPk(pk)] *)
Definition Product_findByPk (pk : Z) (s : Store) : option Product :=
  find (fun row => id row =? pk) (products s).

(** [product.update({ stockQuantity: v })]: the model validator
    [min: 0], then [UPDATE ... SET stockQuantity = v WHERE id =
    product.id].  Returns the instance with the new value. *)
Definition Product_update_stockQuantity (product : Product) (v : Z)
  (s : Store) : (Exn + Product) * Store :=
  if v <? 0 then
    (inl (validation_error "Validation min on stockQuantity failed"), s)
  else
    (inr (set_stockQuantity product v),
     {| products :=
          map (fun row =>
                 if id row =? id product then set_stockQuantity row v
                 else row) (products s);
        transactions := transactions s;
        categories := categories s;
        suppliers := suppliers s;
        nextProductId := nextProductId s;
        nextTransactionId := nextTransactionId s |}).

(** [Transaction.create({...})]: the model validator [notZero] on
    [quantity], then the INSERT under a fresh key. *)
Definition Transaction_create (productId_ userId_ : Z)
  (type_ : TransactionType) (quantity_ previousStock_ newStock_ : Z)
  (reason_ : string) (notes_ : option string)
  (s : Store) : (Exn + Transaction) * Store :=
  if quantity_ =? 0 then
    (inl (validation_error "Quantity cannot be zero"), s)
  else
    let row :=
      {| tx_id := nextTransactionId s;
         productId := productId_;
         userId := userId_;
         type := type_;
         quantity := quantity_;
         previousStock := previousStock_;
         newStock := newStock_;
         reason := reason_;
         notes := notes_;
         reference := None |} in
    (inr row,
     {| products := products s;
        transactions := transactions s ++ [row];
        categories := categories s;
        suppliers := suppliers s;
        nextProductId := nextProductId s;
        nextTransactionId := nextTransactionId s + 1 |}).

(** [product.update({ stockQuantity: v })] for a value as it came:
    the validator, then the UPDATE, where the database reads the
    integer. *)
Definition Product_update_stock (product : Product) (v : Value)
  (s : Store) : (Exn + Product) * Store :=
  if fails_min_0 v then
    (inl (validation_error "Validation min on stockQuantity failed"), s)
  else
    match integer_in v with
    | Some n =>
        (inr (set_stockQuantity product n),
         {| products :=
              map (fun row =>
                     if id row =? id product then set_stockQuantity row n
                     else row) (products s);
            transactions := transactions s;
            categories := categories s;
            suppliers := suppliers s;
            nextProductId := nextProductId s;
            nextTransactionId := nextTransactionId s |})
    | None => (inl invalid_integer, s)
    end.

(** The INSERT of [Transaction.create], under a fresh key. *)
Definition Transaction_insert (productId_ userId_ : Z)
  (type_ : TransactionType) (quantity_ previousStock_ newStock_ : Z)
  (reason_ : string) (notes_ : option string)
  (s : Store) : (Exn + Transaction) * Store :=
  let row :=
    {| tx_id := nextTransactionId s;
       productId := productId_;
       userId := userId_;
       type := type_;
       quantity := quantity_;
       previousStock := previousStock_;
       newStock := newStock_;
       reason := reason_;
       notes := notes_;
       reference := None |} in
  (inr row,
   {| products := products s;
      transactions := transactions s ++ [row];
      categories := categories s;
      suppliers := suppliers s;
      nextProductId := nextProductId s;
      nextTransactionId := nextTransactionId s + 1 |}).

(** [Transaction.create({...})] for a quantity and a new stock as they
    came: [notZero] compares with [===], so it stops the number 0
    only; the database reads the integers. *)
Definition Transaction_create_values (productId_ userId_ : Z)
  (type_ : TransactionType) (quantity_ : Value) (previousStock_ : Z)
  (newStock_ : Value) (reason_ : string) (notes_ : option string)
  (s : Store) : (Exn + Transaction) * Store :=
  if is_zero quantity_ then
    (inl (validation_error "Quantity cannot be zero"), s)
  else
    match integer_in quantity_, integer_in newStock_ with
    | Some q, Some n =>
        Transaction_insert productId_ userId_ type_ q previousStock_ n
          reason_ notes_ s
    | _, _ => (inl invalid_integer, s)
    end.

(** [Category.findByPk(pk)] *)
Definition Category_findByPk (pk : Z) (s : Store) : option Category :=
  find (fun row => cat_id row =? pk) (categories s).

Definition opt_eqb (a b : option string) : bool :=
  match a, b with
  | Some x, Some y => String.eqb x y
  | _, _ => false
  end.

Definition below_zero (v : option Z) : bool :=
  match v with Some n => n <? 0 | None => false end.

(** The attributes handed to [Product.create]. *)
Module Values.
Record t := {
  name : string;
  description : option string;
  sku : string;
  barcode : option string;
  categoryId : Z;
  supplierId : option Z;
  price : Q;
  cost : Q;
  stockQuantity : Value;
  minStockLevel : Value;
  maxStockLevel : option Z;
  unit : string;
  location : option string
}.
End Values.

(** What a DECIMAL(10,2) column keeps of a non-negative amount: two
    decimals, the half rounded up. *)
Definition round2 (q : Q) : Q := Qfloor (q * 100 + (1 # 2)) # 100.

(** The foreign keys of a product row point to stored rows. *)
Definition references_exist (categoryId_ : Z) (supplierId_ : option Z)
  (s : Store) : bool :=
  existsb (fun row => cat_id row =? categoryId_) (categories s)
  && match supplierId_ with
     | Some k => existsb (Z.eqb k) (suppliers s)
     | None => true
     end.

Definition unique_violation : Exn :=
  {| error_name := SequelizeUniqueConstraintError;
     message := "Validation error" |}.

Definition foreign_key_violation : Exn :=
  {| error_name := SequelizeForeignKeyConstraintError;
     message := "insert or update on table violates foreign key constraint" |}.

(** The database after an INSERT into the products that it rejected:
    the key drawn for the row is gone. *)
Definition skip_key (s : Store) : Store :=
  {| products := products s;
     transactions := transactions s;
     categories := categories s;
     suppliers := suppliers s;
     nextProductId := nextProductId s + 1;
     nextTransactionId := nextTransactionId s |}.

(** [Product.create(values)].  Sequelize runs the [min: 0] validators
    of the model and sends the INSERT.  The database reads the two
    integers, draws the key, rounds the two amounts, and rejects the
    row when its SKU or barcode is taken or when its category or
    supplier does not exist; the row gets [isActive] at its default. *)
Definition Product_create (v : Values.t) (s : Store)
  : (Exn + Product) * Store :=
  if negb (Qle_bool 0 (Values.price v)) then
    (inl (validation_error "Validation min on price failed"), s)
  else if negb (Qle_bool 0 (Values.cost v)) then
    (inl (validation_error "Validation min on cost failed"), s)
  else if fails_min_0 (Values.stockQuantity v) then
    (inl (validation_error "Validation min on stockQuantity failed"), s)
  else if fails_min_0 (Values.minStockLevel v) then
    (inl (validation_error "Validation min on minStockLevel failed"), s)
  else if below_zero (Values.maxStockLevel v) then
    (inl (validation_error "Validation min on maxStockLevel failed"), s)
  else
    match integer_in (Values.stockQuantity v),
          integer_in (Values.minStockLevel v) with
    | Some stockQuantity_, Some minStockLevel_ =>
        if existsb (fun row => String.eqb (sku row) (Values.sku v)
                               || opt_eqb (barcode row) (Values.barcode v))
                   (products s) then
          (inl unique_violation, skip_key s)
        else if negb (references_exist (Values.categoryId v)
                        (Values.supplierId v) s) then
          (inl foreign_key_violation, skip_key s)
        else
          let row :=
            {| id := nextProductId s;
               name := Values.name v;
               description := Values.description v;
               sku := Values.sku v;
               barcode := Values.barcode v;
               categoryId := Values.categoryId v;
               supplierId := Values.supplierId v;
               price := round2 (Values.price v);
               cost := round2 (Values.cost v);
               stockQuantity := stockQuantity_;
               minStockLevel := minStockLevel_;
               maxStockLevel := Values.maxStockLevel v;
               unit := Values.unit v;
               location := Values.location v;
               isActive := true |} in
          (inr row,
           {| products := products s ++ [row];
              transactions := transactions s;
              categories := categories s;
              suppliers := suppliers s;
              nextProductId := nextProductId s + 1;
              nextTransactionId := nextTransactionId s |})
    | _, _ => (inl invalid_integer, s)
    end.

(** ** [utils/helpers.js] *)

(** A string is the sequence of its UTF-16 code units, and the
    embedding has the units below 256 (ISO 8859-1).  [toUpperCase]
    maps a unit to a string: the capital of the sharp s is "SS".  The
    capitals of the micro sign (181) and of the y with diaeresis (255)
    lie above 255; the two are kept as they are, which is not what
    JavaScript does, and what depends on the mapped text is stated
    for ASCII strings. *)
Definition upper (c : ascii) : string :=
  let n := nat_of_ascii c in
  if (Nat.leb 97 n && Nat.leb n 122)%bool then
    String (ascii_of_nat (n - 32)) EmptyString
  else if Nat.eqb n 223 then "SS"
  else if (Nat.leb 224 n && Nat.leb n 254 && negb (Nat.eqb n 247))%bool then
    String (ascii_of_nat (n - 32)) EmptyString
  else String c EmptyString.

Fixpoint toUpperCase (s : string) : string :=
  match s with
  | EmptyString => EmptyString
  | String c s' => (upper c ++ toUpperCase s')%string
  end.

Definition is_ascii (s : string) : bool :=
  forallb (fun c => Nat.ltb (nat_of_ascii c) 128) (list_ascii_of_string s).

(** [str.slice(-n)] *)
Definition slice_last (n : nat) (s : string) : string :=
  substring (String.length s - n) n s.

(** [generateSKU(categoryName, productName)] when [Date.now()] is
    [now]. *)
Definition generateSKU (now : Z) (categoryName productName : string)
  : string :=
  let catPrefix := toUpperCase (substring 0 3 categoryName) in
  let prodPrefix := toUpperCase (substring 0 3 productName) in
  let timestamp := slice_last 6 (toString now) in
  (catPrefix ++ "-" ++ prodPrefix ++ "-" ++ timestamp)%string.

(** [paginate(page = 1, limit = 10)], as [(limit, offset)]. *)
Definition paginate (page limit : option Z) : Z * Z :=
  let page := match page with Some p => p | None => 1 end in
  let limit := match limit with Some l => l | None => 10 end in
  let offset := (page - 1) * limit in
  (limit, offset).

(** ** [routes/products.js]: the validation chains *)

(** White space for [trim]: the units below 256 that [\s] matches. *)
Definition is_space (c : ascii) : bool :=
  let n := nat_of_ascii c in
  (Nat.eqb n 32 || (Nat.leb 9 n && Nat.leb n 13) || Nat.eqb n 160)%bool.

Fixpoint ltrim (s : string) : string :=
  match s with
  | String c s' => if is_space c then ltrim s' else s
  | EmptyString => EmptyString
  end.

Definition rtrim (s : string) : string :=
  string_of_list_ascii
    (rev (list_ascii_of_string
            (ltrim (string_of_list_ascii (rev (list_ascii_of_string s)))))).

Definition trim (s : string) : string := rtrim (ltrim s).

(** The body of [POST /products/:id/adjust-stock] when the quantity is
    sent as a JSON number, as [adjustStock] of the page sends it
    ([parseInt], [JSON.stringify]). *)
Module Adjust.
Record body := {
  quantity : Z;
  reason : string;
  notes : option string
}.
Record req := {
  params_id : Z;
  user_id : Z;
  body_ : body
}.
End Adjust.

(** [stockAdjustmentValidation] on such a body: the fields in error,
    in chain order.  [isInt()] holds of every integer number and
    [value !== 0] of every one but 0.  [Wire.stockAdjustmentValidation]
    is the chain on a quantity sent as a number or as text. *)
Definition stockAdjustmentValidation (b : Adjust.body) : list string :=
  (if Adjust.quantity b =? 0 then ["quantity"%string] else [])
  ++ (if isEmpty (Adjust.reason b) then ["reason"%string] else []).

(** The body of [POST /products]. *)
Module Create.
Record body := {
  name : string;
  description : option string;
  sku : option string;
  barcode : option string;
  categoryId : Z;
  supplierId : option Z;
  price : Q;
  cost : Q;
  stockQuantity : option Value;
  minStockLevel : option Value;
  maxStockLevel : option Z;
  unit : option string;
  location : option string
}.
Record req := {
  user_id : Z;
  body_ : body
}.
End Create.

(** [.optional().isInt({ min: m })], on a field that the database
    stores alike as number and as text, and on one given as it came. *)
Definition optional_isInt_min (m : Z) (v : option Z) : bool :=
  match v with Some n => m <=? n | None => true end.

Definition optional_isInt (m : Z) (v : option Value) : bool :=
  match v with Some x => isInt (Some m) x | None => true end.

Definition check (field : string) (ok : bool) : list string :=
  if ok then [] else [field].

(** [productValidation] *)
Definition productValidation (b : Create.body) : list string :=
  check "name" (negb (isEmpty (Create.name b)))
  ++ check "price" (Qle_bool 0 (Create.price b))
  ++ check "cost" (Qle_bool 0 (Create.cost b))
  ++ check "categoryId" (1 <=? Create.categoryId b)
  ++ check "supplierId" (optional_isInt_min 1 (Create.supplierId b))
  ++ check "stockQuantity" (optional_isInt 0 (Create.stockQuantity b))
  ++ check "minStockLevel" (optional_isInt 0 (Create.minStockLevel b))
  ++ check "maxStockLevel" (optional_isInt_min 0 (Create.maxStockLevel b)).

(** ** Responses *)

Inductive Body :=
| errors_body (errors : list string)
| error_body (error : string)
| products_body (rows : list Product) (total page limit : Z)
                (pages : option Z)
| created_body (message_ : string) (product : option Product)
| adjusted_body (message_ : string) (id_ : Z) (name_ : string)
                (previousStock_ newStock_ adjustment : Z)
| adjusted_values_body (message_ : string) (id_ : Z) (name_ : string)
                       (previousStock_ : Z) (newStock_ adjustment : Value).

Record Response := { status : Z; body : Body }.

(** [res.status(code).json(b)]; [res.json(b)] is [json 200 b]. *)
Definition json (code : Z) (b : Body) : Response :=
  {| status := code; body := b |}.

(** [parseInt(page) || 1] of the listing, for a query parameter that
    is absent or not a number ([None]) or parses to an integer: NaN
    and 0 are falsy. *)
Definition parseInt_or (a : option Z) (b : Z) : Z :=
  match a with
  | Some n => if n =? 0 then b else n
  | None => b
  end.

(** JavaScript's [a || b] on an optional string: [undefined] and the
    empty string are falsy. *)
Definition or_string (a : option string) (b : string) : string :=
  match a with
  | Some s => if isEmpty s then b else s
  | None => b
  end.

(** [!a] on an optional string. *)
Definition falsy (a : option string) : bool :=
  match a with Some s => isEmpty s | None => true end.

(** ** [controllers/productController.js] *)

(** A request handler, and the response and database it leaves when
    the database starts with [s] and outage [o]. *)
Definition Handler : Type := World -> Response * World.

Definition serve (h : Handler) (o : option nat) (s : Store)
  : Response * Store :=
  let '(res, w) := h {| db := s; outage := o |} in (res, db w).

Definition is_nil {A} (l : list A) : bool :=
  match l with [] => true | _ => false end.

Definition findByPk (pk : Z) : M (option Product) :=
  query (fun s => (inr (Product_findByPk pk s), s)).

Definition adjustStock (req : Adjust.req) : Handler :=
  try_catch
    (let errors := stockAdjustmentValidation (Adjust.body_ req) in
     if negb (is_nil errors) then ret (json 400 (errors_body errors))
     else
       let quantity := Adjust.quantity (Adjust.body_ req) in
       let reason := trim (Adjust.reason (Adjust.body_ req)) in
       let notes := Adjust.notes (Adjust.body_ req) in
       product <- findByPk (Adjust.params_id req) ;;
       match product with
       | None => ret (json 404 (error_body "Product not found"))
       | Some product =>
           let previousStock := stockQuantity product in
           let newStock := previousStock + quantity in
           if newStock <? 0 then
             ret (json 400 (error_body "Insufficient stock"))
           else
             await query (Product_update_stockQuantity product newStock) ;;
             await query (Transaction_create
                            (id product) (Adjust.user_id req)
                            (if 0 <? quantity then type_in else type_out)
                            (Z.abs quantity) previousStock newStock
                            reason notes) ;;
             ret (json 200
                    (adjusted_body "Stock adjusted successfully"
                       (id product) (name product)
                       previousStock newStock quantity))
       end)
    (fun error => json 500 (error_body (message error))).

(** The request as it comes off the wire: the quantity is any value
    that JSON can carry where an integer is expected. *)
Module Wire.

Record body := {
  quantity : Value;
  reason : string;
  notes : option string
}.
Record req := {
  params_id : Z;
  user_id : Z;
  body_ : body
}.

(** [body('quantity').isInt().custom(value => value !== 0)] and
    [body('reason').notEmpty().trim()]: no [toInt()], so a quantity
    sent as text stays text. *)
Definition stockAdjustmentValidation (b : body) : list string :=
  check "quantity" (isInt None (quantity b))
  ++ check "quantity" (negb (is_zero (quantity b)))
  ++ check "reason" (negb (isEmpty (reason b))).

(** [Math.abs(quantity)] as handed to [Transaction.create]; NaN is
    kept as a text that no integer column reads. *)
Definition magnitude (quantity_ : Value) : Value :=
  match Math_abs quantity_ with
  | Some n => Num n
  | None => Str "NaN"
  end.

Definition adjustStock (req : req) : Handler :=
  try_catch
    (let errors := stockAdjustmentValidation (body_ req) in
     if negb (is_nil errors) then ret (json 400 (errors_body errors))
     else
       let quantity := quantity (body_ req) in
       let reason := trim (reason (body_ req)) in
       let notes := notes (body_ req) in
       product <- findByPk (params_id req) ;;
       match product with
       | None => ret (json 404 (error_body "Product not found"))
       | Some product =>
           let previousStock := stockQuantity product in
           let newStock := plus previousStock quantity in
           if lessThan newStock 0 then
             ret (json 400 (error_body "Insufficient stock"))
           else
             await query (Product_update_stock product newStock) ;;
             await query (Transaction_create_values
                            (id product) (user_id req)
                            (if greaterThan quantity 0 then type_in
                             else type_out)
                            (magnitude quantity) previousStock newStock
                            reason notes) ;;
             ret (json 200
                    (adjusted_values_body "Stock adjusted successfully"
                       (id product) (name product)
                       previousStock newStock quantity))
       end)
    (fun error => json 500 (error_body (message error))).

(** A request of [Adjust], on the wire. *)
Definition number (r : Adjust.req) : req :=
  {| params_id := Adjust.params_id r;
     user_id := Adjust.user_id r;
     body_ :=
       {| quantity := Num (Adjust.quantity (Adjust.body_ r));
          reason := Adjust.reason (Adjust.body_ r);
          notes := Adjust.notes (Adjust.body_ r) |} |}.

End Wire.

(** A response of [Wire.adjustStock], with the numbers of a success
    read as integers. *)
Definition as_numbers (res : Response) : Response :=
  match body res with
  | adjusted_values_body m i n p (Num new_) (Num adjustment) =>
      json (status res) (adjusted_body m i n p new_ adjustment)
  | _ => res
  end.

Definition createProduct (now : Z) (req : Create.req) : Handler :=
  let b := Create.body_ req in
  try_catch
    (let errors := productValidation b in
     if negb (is_nil errors) then ret (json 400 (errors_body errors))
     else
       let name := trim (Create.name b) in
       let stockQuantity := Create.stockQuantity b in
       let minStockLevel := Create.minStockLevel b in
       sku <- (if falsy (Create.sku b) then
                 category <- query (fun s =>
                   (inr (Category_findByPk (Create.categoryId b) s), s)) ;;
                 ret (generateSKU now
                        (or_string (option_map cat_name category) "GEN")
                        name)
               else ret (or_string (Create.sku b) "")) ;;
       product <- query (Product_create
         {| Values.name := name;
            Values.description := Create.description b;
            Values.sku := sku;
            Values.barcode := Create.barcode b;
            Values.categoryId := Create.categoryId b;
            Values.supplierId := Create.supplierId b;
            Values.price := Create.price b;
            Values.cost := Create.cost b;
            Values.stockQuantity := or_value stockQuantity 0;
            Values.minStockLevel := or_value minStockLevel 10;
            Values.maxStockLevel := Create.maxStockLevel b;
            Values.unit := or_string (Create.unit b) "piece";
            Values.location := Create.location b |}) ;;
       await (match stockQuantity with
              | Some stockQuantity =>
                  if greaterThan stockQuantity 0 then
                    await query (Transaction_create_values
                                   (id product) (Create.user_id req)
                                   type_in stockQuantity 0 stockQuantity
                                   "Initial stock"
                                   (Some "Product creation"%string)) ;;
                    ret tt
                  else ret tt
              | None => ret tt
              end) ;;
       createdProduct <- findByPk (id product) ;;
       ret (json 201
              (created_body "Product created successfully" createdProduct)))
    (fun error =>
       match error_name error with
       | SequelizeUniqueConstraintError =>
           json 400 (error_body "SKU or barcode already exists")
       | _ => json 500 (error_body (message error))
       end).

(** [getAllProducts].  The ILIKE operator belongs to the database and
    is a parameter: [iLike text pattern]. *)
Module Listing.
Record query_ := {
  page : option Z;
  limit : option Z;
  search : option string;
  category : option Z;
  lowStock : option string
}.
End Listing.

Section GetAllProducts.

Variable iLike : string -> string -> bool.

Definition iLike_opt (text : option string) (pattern : string) : bool :=
  match text with Some t => iLike t pattern | None => false end.

(** The [where] clause built from the query, as a predicate on rows. *)
Definition whereClause (q : Listing.query_) (row : Product) : bool :=
  Bool.eqb (isActive row) true
  && (if falsy (Listing.search q) then true
      else
        let pattern := ("%" ++ or_string (Listing.search q) "" ++ "%")%string in
        iLike (name row) pattern
        || iLike (sku row) pattern
        || iLike_opt (barcode row) pattern)
  && (match Listing.category q with
      | Some category => categoryId row =? category
      | None => true
      end)
  && (if opt_eqb (Listing.lowStock q) (Some "true"%string) then
        stockQuantity row <? minStockLevel row
      else true).

(** [Product.findAndCountAll({ where, limit, offset, order:
    [['createdAt', 'DESC']] })]: the number of matching rows and one
    page of them, newest first.  A negative LIMIT or OFFSET is an
    error of the database. *)
Definition Product_findAndCountAll (where_ : Product -> bool)
  (limit offset : Z) (s : Store) : (Exn + (Z * list Product)) * Store :=
  if (limit <? 0) || (offset <? 0) then
    (inl {| error_name := SequelizeDatabaseError;
            message := "LIMIT and OFFSET must not be negative" |}, s)
  else
    let matching := rev (filter where_ (products s)) in
    (inr (Z.of_nat (List.length matching),
          firstn (Z.to_nat limit) (skipn (Z.to_nat offset) matching)), s).

(** [Math.ceil(count / pageLimit)]; [None] when the quotient is not a
    number or is infinite. *)
Definition ceil_div (count pageLimit : Z) : option Z :=
  if pageLimit <=? 0 then None
  else Some ((count + pageLimit - 1) / pageLimit).

Definition getAllProducts (q : Listing.query_) : Handler :=
  try_catch
    (let '(pageLimit, offset) := paginate (Listing.page q) (Listing.limit q) in
     found <- query (Product_findAndCountAll (whereClause q) pageLimit offset) ;;
     let '(count, rows) := found in
     ret (json 200
            (products_body rows count (parseInt_or (Listing.page q) 1) pageLimit
               (ceil_div count pageLimit))))
    (fun error => json 500 (error_body (message error))).

End GetAllProducts.

(** ** [frontend/src/js/app.js]: the dashboard *)

(** The test [p.stockQuantity <= p.minStockLevel] of
    [updateDashboardStats], [renderProducts] and [applyFilters]. *)
Definition isLowStock (p : Product) : bool :=
  stockQuantity p <=? minStockLevel p.

(** The double nearest to an integer, and the double that JavaScript
    reads from the text of a DECIMAL column in a response. *)
Definition double_of_Z (n : Z) : float :=
  SF2Prim (binary_normalize prec emax n 0 false).

Definition double_of_Q (q : Q) : float :=
  PrimFloat.div (double_of_Z (Qnum q)) (double_of_Z (Zpos (Qden q))).

(** The page: the globals [products] and [categories], and the four
    counters of the dashboard in the document.  [totalValue] is the
    number that the document shows with two decimals. *)
Record App := {
  app_products : list Product;
  app_categories : list Category;
  totalProducts : Z;
  lowStockItems : Z;
  totalCategories : Z;
  totalValue : float
}.

(** [updateDashboardStats()]: no argument and no result; it reads the
    two globals and writes the four counters. *)
Definition updateDashboardStats (a : App) : App :=
  let totalProducts := Z.of_nat (List.length (app_products a)) in
  let lowStockProducts :=
    Z.of_nat (List.length (filter isLowStock (app_products a))) in
  let totalCategories := Z.of_nat (List.length (app_categories a)) in
  let totalValue :=
    fold_left (fun sum p =>
                 PrimFloat.add sum
                   (PrimFloat.mul (double_of_Z (stockQuantity p))
                                  (double_of_Q (price p))))
              (app_products a) (double_of_Z 0) in
  {| app_products := app_products a;
     app_categories := app_categories a;
     totalProducts := totalProducts;
     lowStockItems := lowStockProducts;
     totalCategories := totalCategories;
     totalValue := totalValue |}.

(** [loadProducts]: the page keeps the rows of the response to
    [GET /products]; on any other answer [apiRequest] throws and the
    global stays. *)
Definition loadProducts (res : Response) (a : App) : App :=
  match status res =? 200, body res with
  | true, products_body rows _ _ _ _ =>
      {| app_products := rows;
         app_categories := app_categories a;
         totalProducts := totalProducts a;
         lowStockItems := lowStockItems a;
         totalCategories := totalCategories a;
         totalValue := totalValue a |}
  | _, _ => a
  end.

(** [loadCategories]: the page keeps the categories of the response to
    [GET /categories]. *)
Definition loadCategories (categories_ : list Category) (a : App) : App :=
  {| app_products := app_products a;
     app_categories := categories_;
     totalProducts := totalProducts a;
     lowStockItems := lowStockItems a;
     totalCategories := totalCategories a;
     totalValue := totalValue a |}.

(** [GET /products] as the page asks for it: without a query. *)
Definition no_query : Listing.query_ :=
  {| Listing.page := None; Listing.limit := None; Listing.search := None;
     Listing.category := None; Listing.lowStock := None |}.

(** What happens to the page: [loadProducts] gets the answer of a
    database, [loadCategories] gets categories, the dashboard is
    refreshed. *)
Inductive Event :=
| products_loaded (iLike : string -> string -> bool) (o : option nat)
                  (s : Store)
| categories_loaded (categories_ : list Category)
| stats_updated.

Definition handle (e : Event) (a : App) : App :=
  match e with
  | products_loaded iLike o s =>
      loadProducts (fst (serve (getAllProducts iLike no_query) o s)) a
  | categories_loaded categories_ => loadCategories categories_ a
  | stats_updated => updateDashboardStats a
  end.

Fixpoint page_after (events : list Event) (a : App) : App :=
  match events with
  | [] => a
  | e :: events' => page_after events' (handle e a)
  end.

(** The page when the script starts: both globals empty, and the
    counters as the document has them. *)
Definition opened (total low cats : Z) (value : float) : App :=
  {| app_products := []; app_categories := [];
     totalProducts := total; lowStockItems := low;
     totalCategories := cats; totalValue := value |}.

(** ** Sequences of calls *)

Inductive Call :=
| call_createProduct (o : option nat) (now : Z) (req : Create.req)
| call_adjustStock (o : option nat) (req : Adjust.req).

Definition perform (c : Call) (s : Store) : Response * Store :=
  match c with
  | call_createProduct o now req => serve (createProduct now req) o s
  | call_adjustStock o req => serve (adjustStock req) o s
  end.

(** The database before the first call and after each call. *)
Fixpoint history (calls : list Call) (s : Store) : list Store :=
  s :: match calls with
       | [] => []
       | c :: calls' => history calls' (snd (perform c s))
       end.

Fixpoint final (calls : list Call) (s : Store) : Store :=
  match calls with
  | [] => s
  | c :: calls' => final calls' (snd (perform c s))
  end.

(** The most recent movement of product [pid]. *)
Definition lastMovement (pid : Z) (s : Store) : option Transaction :=
  find (fun t => productId t =? pid) (rev (transactions s)).

Definition exists_in (pid : Z) (s : Store) : bool :=
  match Product_findByPk pid s with Some _ => true | None => false end.

(** The stock of product [pid] in the first database of [hist] that
    has it: the stock it was created with. *)
Definition initialStock (pid : Z) (hist : list Store) : option Z :=
  match find (exists_in pid) hist with
  | Some s => option_map stockQuantity (Product_findByPk pid s)
  | None => None
  end.

(** What the ledger asks of one stored movement. *)
Definition movement_ok (m : Transaction) : Prop :=
  match type m with
  | type_in => newStock m = previousStock m + quantity m
  | type_out => newStock m = previousStock m - quantity m
  | type_adjustment => False
  end
  /\ 0 <= newStock m
  /\ 0 < quantity m
  /\ quantity m <> 0.

(** An [adjustStock] call is torn when the database answers its SELECT
    and its UPDATE and rejects its INSERT. *)
Definition torn (o : option nat) : Prop := o = Some 2%nat.

Definition whole (c : Call) : Prop :=
  match c with
  | call_adjustStock o _ => ~ torn o
  | call_createProduct _ _ _ => True
  end.

(** Keys are distinct and stay below their sequence, and a product
    that has movements carries the stock of the latest one. *)
Record ledger_ok (s : Store) : Prop := {
  ids_distinct : NoDup (map id (products s));
  products_below :
    forall p, In p (products s) -> id p < nextProductId s;
  movements_below :
    forall t, In t (transactions s) -> productId t < nextProductId s;
  stock_is_latest :
    forall p m,
      In p (products s) ->
      lastMovement (id p) s = Some m ->
      stockQuantity p = newStock m
}.

(** The stock of every product is the [newStock] of its latest
    movement, or the stock it started with when it has none. *)
Definition explained (hist : list Store) (s : Store) : Prop :=
  forall p,
    In p (products s) ->
    match lastMovement (id p) s with
    | Some m => stockQuantity p = newStock m
    | None => initialStock (id p) hist = Some (stockQuantity p)
    end.

(** ** Two calls at once *)

Module Concurrent.

(** Where a running [adjustStock] stands: before its SELECT, between
    SELECT and UPDATE, between UPDATE and INSERT, or finished. *)
Inductive Task :=
| Pending (req : Adjust.req)
| Found (req : Adjust.req) (product : option Product)
| Updated (req : Adjust.req) (product : Product)
          (previousStock_ newStock_ : Z)
| Done (res : Response).

Definition failed (e : Exn) : Task :=
  Done (json 500 (error_body (message e))).

(** One turn of the event loop for one call: the code up to its next
    [await], with the awaited query done at once. *)
Definition step (t : Task) (s : Store) : Task * Store :=
  match t with
  | Pending req =>
      let errors := stockAdjustmentValidation (Adjust.body_ req) in
      if negb (is_nil errors) then (Done (json 400 (errors_body errors)), s)
      else (Found req (Product_findByPk (Adjust.params_id req) s), s)
  | Found req None =>
      (Done (json 404 (error_body "Product not found")), s)
  | Found req (Some product) =>
      let previousStock := stockQuantity product in
      let newStock := previousStock + Adjust.quantity (Adjust.body_ req) in
      if newStock <? 0 then
        (Done (json 400 (error_body "Insufficient stock")), s)
      else
        match Product_update_stockQuantity product newStock s with
        | (inl e, s') => (failed e, s')
        | (inr _, s') => (Updated req product previousStock newStock, s')
        end
  | Updated req product previousStock newStock =>
      let quantity := Adjust.quantity (Adjust.body_ req) in
      match Transaction_create
              (id product) (Adjust.user_id req)
              (if 0 <? quantity then type_in else type_out)
              (Z.abs quantity) previousStock newStock
              (trim (Adjust.reason (Adjust.body_ req)))
              (Adjust.notes (Adjust.body_ req)) s with
      | (inl e, s') => (failed e, s')
      | (inr _, s') =>
          (Done (json 200
                   (adjusted_body "Stock adjusted successfully"
                      (id product) (name product)
                      previousStock newStock quantity)), s')
      end
  | Done res => (Done res, s)
  end.

(** Two calls in flight and the database they share. *)
Record Pool := { first : Task; second : Task; shared : Store }.

(** A schedule names, turn by turn, the call that runs next:
    [false] the first, [true] the second. *)
Fixpoint run (schedule : list bool) (p : Pool) : Pool :=
  match schedule with
  | [] => p
  | false :: rest =>
      let '(t, s) := step (first p) (shared p) in
      run rest {| first := t; second := second p; shared := s |}
  | true :: rest =>
      let '(t, s) := step (second p) (shared p) in
      run rest {| first := first p; second := t; shared := s |}
  end.

Definition start (r1 r2 : Adjust.req) (s : Store) : Pool :=
  {| first := Pending r1; second := Pending r2; shared := s |}.

(** The first call runs to its end before the second starts. *)
Definition serial : list bool := [false; false; false; true; true; true].

(** The second call runs to its end before the first starts. *)
Definition serial_rev : list bool := [true; true; true; false; false; false].

(** Both calls read the stock before either writes it. *)
Definition overlapped : list bool := [false; true; false; true; false; true].

(** [n] turns of one call on its own. *)
Fixpoint steps (n : nat) (t : Task) (s : Store) : Task * Store :=
  match n with
  | O => (t, s)
  | S n' => let '(t', s') := step t s in steps n' t' s'
  end.

End Concurrent.

(** The stock of product [pid], if it exists. *)
Definition stock_of (pid : Z) (s : Store) : option Z :=
  option_map stockQuantity (Product_findByPk pid s).

(** Two movements that lead from stock [from] to stock [to]. *)
Definition chained (from : Z) (m1 m2 : Transaction) (to : Z) : Prop :=
  previousStock m1 = from
  /\ newStock m1 = previousStock m2
  /\ newStock m2 = to.

(** No update is lost: after [schedule] the stock of the product has
    moved by both quantities, and exactly two movements were added
    that chain in one order or the other. *)
Definition composes (schedule : list bool) (r1 r2 : Adjust.req) (s : Store)
  : Prop :=
  let s' := Concurrent.shared
              (Concurrent.run schedule (Concurrent.start r1 r2 s)) in
  let pid := Adjust.params_id r1 in
  let q1 := Adjust.quantity (Adjust.body_ r1) in
  let q2 := Adjust.quantity (Adjust.body_ r2) in
  exists from m1 m2,
    stock_of pid s = Some from
    /\ stock_of pid s' = Some (from + q1 + q2)
    /\ (transactions s' = transactions s ++ [m1; m2]
        \/ transactions s' = transactions s ++ [m2; m1])
    /\ chained from m1 m2 (from + q1 + q2).

(** A schedule is complete when each call gets its three turns: its
    SELECT, its UPDATE and its INSERT. *)
Definition complete (schedule : list bool) : Prop :=
  count_occ Bool.bool_dec schedule false = 3%nat
  /\ count_occ Bool.bool_dec schedule true = 3%nat.

(** Both calls read the stock before either writes it: the first two
    turns belong to different calls. *)
Definition overlap (schedule : list bool) : bool :=
  match schedule with
  | a :: b :: _ => xorb a b
  | _ => false
  end.

(** The calls in the order of their second turn, the UPDATE, and the
    call whose UPDATE comes last. *)
Fixpoint writers (turns_first turns_second : nat) (schedule : list bool)
  : list bool :=
  match schedule with
  | [] => []
  | false :: rest =>
      (if Nat.eqb turns_first 1 then [false] else [])
      ++ writers (S turns_first) turns_second rest
  | true :: rest =>
      (if Nat.eqb turns_second 1 then [true] else [])
      ++ writers turns_first (S turns_second) rest
  end.

Definition last_writer (schedule : list bool) : bool :=
  last (writers 0 0 schedule) false.

(** The complete schedules of two calls. *)
Fixpoint interleavings (n m : nat) : list (list bool) :=
  match n with
  | O => [repeat true m]
  | S n' =>
      (fix with_second (m : nat) : list (list bool) :=
         match m with
         | O => [repeat false n]
         | S m' =>
             map (cons false) (interleavings n' m)
             ++ map (cons true) (with_second m')
         end) m
  end.

(** The database in the middle of the two calls on product [p]: the
    stock of the product is [v], the movements are [t] and the next
    movement key is [n]. *)
Definition amid (p : Product) (v : Z) (t : list Transaction) (n : Z)
  (s : Store) : Store :=
  {| products :=
       map (fun row =>
              if id row =? id p then set_stockQuantity row v else row)
           (products s);
     transactions := t;
     categories := categories s;
     suppliers := suppliers s;
     nextProductId := nextProductId s;
     nextTransactionId := n |}.

(** The movement that a call leaves when it read the stock [from]. *)
Definition movement_from (req : Adjust.req) (p : Product) (from key : Z)
  : Transaction :=
  let q := Adjust.quantity (Adjust.body_ req) in
  {| tx_id := key;
     productId := id p;
     userId := Adjust.user_id req;
     type := if 0 <? q then type_in else type_out;
     quantity := Z.abs q;
     previousStock := from;
     newStock := from + q;
     reason := trim (Adjust.reason (Adjust.body_ req));
     notes := Adjust.notes (Adjust.body_ req);
     reference := None |}.

(** What two calls on one product leave, schedule by schedule: two
    movements, one of each call, each adding its quantity to the stock
    it read.  If the calls overlap, both read the stock [from] and the
    product is left with what the last UPDATE wrote; if not, the
    movements chain and the stock has moved by both quantities. *)
Definition outcome_of (schedule : list bool) (r1 r2 : Adjust.req)
  (from : Z) (s s' : Store) : Prop :=
  let pid := Adjust.params_id r1 in
  let q1 := Adjust.quantity (Adjust.body_ r1) in
  let q2 := Adjust.quantity (Adjust.body_ r2) in
  exists m1 m2,
    (transactions s' = transactions s ++ [m1; m2]
     \/ transactions s' = transactions s ++ [m2; m1])
    /\ newStock m1 = previousStock m1 + q1
    /\ newStock m2 = previousStock m2 + q2
    /\ if overlap schedule then
         previousStock m1 = from
         /\ previousStock m2 = from
         /\ stock_of pid s'
            = Some (from + if last_writer schedule then q2 else q1)
       else
         stock_of pid s' = Some (from + q1 + q2)
         /\ (chained from m1 m2 (from + q1 + q2)
             \/ chained from m2 m1 (from + q1 + q2)).

(** ** The spec's words for the dashboard summary *)

(** [summarize(products)]: the count of low-stock items, the valuation
    [sum(currentStock * price)] over active products, and the count of
    active products. *)
Definition summarize_spec (ps : list Product) : Z * Q * Z :=
  (Z.of_nat (List.length (filter isLowStock ps)),
   fold_left (fun sum p => (sum + inject_Z (stockQuantity p) * price p)%Q)
             (filter isActive ps) 0%Q,
   Z.of_nat (List.length (filter isActive ps))).

(** The three figures on the page: low-stock items, total value,
    total products. *)
Definition shown (a : App) : Z * float * Z :=
  (lowStockItems a, totalValue a, totalProducts a).

(** The claim on the dashboard, as the spec words it: the figures of
    [summarize_spec] for the products of the page, the valuation as
    the double nearest to the sum, and nothing changed by the run. *)
Definition summary_claim (a : App) : Prop :=
  let '(low, value, total) := summarize_spec (app_products a) in
  shown (updateDashboardStats a) = (low, double_of_Q (Qred value), total)
  /\ updateDashboardStats a = a.

(** The valuation as the code adds it up: in doubles, row by row. *)
Definition valuation (ps : list Product) : float :=
  fold_left (fun sum p =>
               PrimFloat.add sum
                 (PrimFloat.mul (double_of_Z (stockQuantity p))
                                (double_of_Q (price p))))
            ps (double_of_Z 0).

(** The figures of the claim with that valuation. *)
Definition summarize_active (ps : list Product) : Z * float * Z :=
  (Z.of_nat (List.length (filter isLowStock ps)),
   valuation (filter isActive ps),
   Z.of_nat (List.length (filter isActive ps))).

(** A product list with other [isActive] flags. *)
Definition relabel (flags : Product -> bool) (ps : list Product)
  : list Product :=
  map (fun p =>
         {| id := id p; name := name p; description := description p;
            sku := sku p; barcode := barcode p; categoryId := categoryId p;
            supplierId := supplierId p; price := price p; cost := cost p;
            stockQuantity := stockQuantity p;
            minStockLevel := minStockLevel p;
            maxStockLevel := maxStockLevel p; unit := unit p;
            location := location p; isActive := flags p |}) ps.

(** The page with other products. *)
Definition with_products (ps : list Product) (a : App) : App :=
  {| app_products := ps;
     app_categories := app_categories a;
     totalProducts := totalProducts a;
     lowStockItems := lowStockItems a;
     totalCategories := totalCategories a;
     totalValue := totalValue a |}.

(** ** What a committed adjustment leaves *)

(** The movement that [adjustStock] records for [req] on product [p]
    in database [s]. *)
Definition recorded (req : Adjust.req) (p : Product) (s : Store)
  : Transaction :=
  let q := Adjust.quantity (Adjust.body_ req) in
  {| tx_id := nextTransactionId s;
     productId := id p;
     userId := Adjust.user_id req;
     type := if 0 <? q then type_in else type_out;
     quantity := Z.abs q;
     previousStock := stockQuantity p;
     newStock := stockQuantity p + q;
     reason := trim (Adjust.reason (Adjust.body_ req));
     notes := Adjust.notes (Adjust.body_ req);
     reference := None |}.

(** The row update of [adjustStock], as a function on rows. *)
Definition restock (target v : Z) (row : Product) : Product :=
  if id row =? target then set_stockQuantity row v else row.

(** The database after the UPDATE of [adjustStock] alone. *)
Definition restocked (req : Adjust.req) (p : Product) (s : Store) : Store :=
  let v := stockQuantity p + Adjust.quantity (Adjust.body_ req) in
  {| products :=
       map (fun row =>
              if id row =? id p then set_stockQuantity row v else row)
           (products s);
     transactions := transactions s;
     categories := categories s;
     suppliers := suppliers s;
     nextProductId := nextProductId s;
     nextTransactionId := nextTransactionId s |}.

(** The database after the UPDATE and the INSERT. *)
Definition adjusted (req : Adjust.req) (p : Product) (s : Store) : Store :=
  {| products := products (restocked req p s);
     transactions := transactions s ++ [recorded req p s];
     categories := categories s;
     suppliers := suppliers s;
     nextProductId := nextProductId s;
     nextTransactionId := nextTransactionId s + 1 |}.

(** Both writes or neither. *)
Definition all_or_nothing (o : option nat) (req : Adjust.req) (s : Store)
  : Prop :=
  let '(res, s') := serve (adjustStock req) o s in
  (status res = 200
   /\ exists p, Product_findByPk (Adjust.params_id req) s = Some p
                /\ s' = adjusted req p s)
  \/ (status res <> 200 /\ s' = s).

(** The [adjustment] field of a success response. *)
Definition adjustment_of (res : Response) : option Z :=
  match body res with
  | adjusted_body _ _ _ _ _ a => Some a
  | _ => None
  end.

(** ** A running example: one product, stock 10, threshold 5 *)

(** The requests of the examples are those of user 1, the
    administrator that [utils/seed.js] creates. *)

Definition widget : Create.req :=
  {| Create.user_id := 1;
     Create.body_ :=
       {| Create.name := "Widget";
          Create.description := None;
          Create.sku := Some "WID-001"%string;
          Create.barcode := None;
          Create.categoryId := 1;
          Create.supplierId := None;
          Create.price := 2%Q;
          Create.cost := 1%Q;
          Create.stockQuantity := Some (Num 10);
          Create.minStockLevel := Some (Num 5);
          Create.maxStockLevel := None;
          Create.unit := None;
          Create.location := None |} |}.

Definition shop : Store :=
  snd (serve (createProduct 1700000000123 widget) None seeded).

(** An adjustment of product 1 by [q]. *)
Definition adjust (q : Z) : Adjust.req :=
  {| Adjust.params_id := 1;
     Adjust.user_id := 1;
     Adjust.body_ :=
       {| Adjust.quantity := q;
          Adjust.reason := "stock count";
          Adjust.notes := None |} |}.

(** An adjustment of product 1 whose quantity is sent as the text
    [q]. *)
Definition adjust_text (q : string) : Wire.req :=
  {| Wire.params_id := 1;
     Wire.user_id := 1;
     Wire.body_ :=
       {| Wire.quantity := Str q;
          Wire.reason := "stock count";
          Wire.notes := None |} |}.

(** The outcome of [adjustStock], query by query: the normal form of
    the handler that [adjustStock_unfold] proves equal to it. *)
Definition adjustStock_outcome (o : option nat) (req : Adjust.req) (s : Store)
  : Response * Store :=
  let q := Adjust.quantity (Adjust.body_ req) in
  let down := json 500 (error_body (message connection_error)) in
  match stockAdjustmentValidation (Adjust.body_ req) with
  | (_ :: _) as errors => (json 400 (errors_body errors), s)
  | [] =>
      match o with
      | Some 0%nat => (down, s)
      | _ =>
          match Product_findByPk (Adjust.params_id req) s with
          | None => (json 404 (error_body "Product not found"), s)
          | Some p =>
              if stockQuantity p + q <? 0 then
                (json 400 (error_body "Insufficient stock"), s)
              else
                match o with
                | Some 1%nat => (down, s)
                | Some 2%nat => (down, restocked req p s)
                | _ =>
                    (json 200
                       (adjusted_body "Stock adjusted successfully"
                          (id p) (name p) (stockQuantity p)
                          (stockQuantity p + q) q),
                     adjusted req p s)
                end
          end
      end
  end.

(** ** What a creation leaves *)

(** The database after the INSERT of [row] into the products. *)
Definition with_product (row : Product) (s : Store) : Store :=
  {| products := products s ++ [row];
     transactions := transactions s;
     categories := categories s;
     suppliers := suppliers s;
     nextProductId := nextProductId s + 1;
     nextTransactionId := nextTransactionId s |}.

(** The initial movement that [createProduct] records for [row]. *)
Definition initial_movement (req : Create.req) (row : Product) (s : Store)
  : Transaction :=
  {| tx_id := nextTransactionId s;
     productId := id row;
     userId := Create.user_id req;
     type := type_in;
     quantity := stockQuantity row;
     previousStock := 0;
     newStock := stockQuantity row;
     reason := "Initial stock";
     notes := Some "Product creation"%string;
     reference := None |}.

Definition with_movement (m : Transaction) (s : Store) : Store :=
  {| products := products s;
     transactions := transactions s ++ [m];
     categories := categories s;
     suppliers := suppliers s;
     nextProductId := nextProductId s;
     nextTransactionId := nextTransactionId s + 1 |}.

(** The value [v] stands for the integer [n], at least [m], wherever
    it is read: by the database, by a comparison, by a validator. *)
Record reads (m : Z) (v : Value) (n : Z) : Prop := {
  reads_min : m <= n;
  reads_integer : integer_in v = Some n;
  reads_number : toNumber v = Some n;
  reads_float : parseFloat v = Some n
}.

(** [row] is the row that [createProduct] stores for [req] in [s]. *)
Record is_new_row (req : Create.req) (s : Store) (row : Product) : Prop := {
  new_id : id row = nextProductId s;
  new_stock :
    integer_in (or_value (Create.stockQuantity (Create.body_ req)) 0)
    = Some (stockQuantity row);
  new_threshold :
    integer_in (or_value (Create.minStockLevel (Create.body_ req)) 10)
    = Some (minStockLevel row);
  new_active : isActive row = true;
  new_stock_pos : 0 <= stockQuantity row
}.

(** The database after a successful creation: the product, and its
    initial movement when it starts with stock. *)
Definition stored (req : Create.req) (row : Product) (s : Store) : Store :=
  if 0 <? stockQuantity row then
    with_movement (initial_movement req row (with_product row s))
                  (with_product row s)
  else with_product row s.

(** The databases that a [createProduct] call can leave. *)
Inductive creation (req : Create.req) (s : Store) : Store -> Prop :=
| creation_none : creation req s s
| creation_key : creation req s (skip_key s)
| creation_product row :
    is_new_row req s row -> creation req s (with_product row s)
| creation_both row :
    is_new_row req s row ->
    0 < stockQuantity row ->
    creation req s
      (with_movement (initial_movement req row (with_product row s))
                     (with_product row s)).

Definition created_or_not (req : Create.req) (s : Store)
  (res : Response) (s' : Store) : Prop :=
  (status res = 201
   /\ exists row, is_new_row req s row /\ s' = stored req row s)
  \/ (status res <> 201 /\ creation req s s').

(** The SKU that [createProduct] stores: the one of the request, or a
    generated one. *)
Definition sku_of (now : Z) (req : Create.req) (s : Store) : string :=
  let b := Create.body_ req in
  if falsy (Create.sku b) then
    generateSKU now
      (or_string (option_map cat_name
                    (Category_findByPk (Create.categoryId b) s)) "GEN")
      (trim (Create.name b))
  else or_string (Create.sku b) "".

(** Some stored product has this SKU or this barcode. *)
Definition taken (sku_ : string) (barcode_ : option string) (s : Store)
  : bool :=
  existsb (fun row => String.eqb (sku row) sku_
                      || opt_eqb (barcode row) barcode_)
          (products s).

(** A stock field that the request leaves out or sends as the number
    0. *)
Definition omitted_or_zero (v : option Value) : Prop :=
  v = None \/ v = Some (Num 0).

(** A Hoare triple for the monad, from the database [s]: [Q] on a
    normal return, [E] on an exception, whatever the outage. *)
Definition effect {A} (m : M A) (s : Store)
  (Q : A -> Store -> Prop) (E : Store -> Prop) : Prop :=
  forall o,
    match m {| db := s; outage := o |} with
    | (inr a, w) => Q a (db w)
    | (inl _, w) => E (db w)
    end.

(** The claim on the response of a success, as the spec words it. *)
Definition reports_magnitude (o : option nat) (req : Adjust.req) (s : Store)
  : Prop :=
  adjustment_of (fst (serve (adjustStock req) o s))
  = Some (Z.abs (Adjust.quantity (Adjust.body_ req))).

(** The calls of the running example: the product is created with
    stock 10, then adjusted by -7, by -5 (refused) and by +20. *)
Definition example_calls : list Call :=
  [ call_createProduct None 1700000000123 widget;
    call_adjustStock None (adjust (-7));
    call_adjustStock None (adjust (-5));
    call_adjustStock None (adjust 20) ].

(** The same creation, then an adjustment by -7 whose INSERT the
    database rejects. *)
Definition torn_calls : list Call :=
  [ call_createProduct None 1700000000123 widget;
    call_adjustStock (Some 2%nat) (adjust (-7)) ].

(** A product whose stock equals its threshold. *)
Definition at_threshold : Product :=
  {| id := 1; name := "Bolt"; description := None;
     sku := "BLT-001"; barcode := None; categoryId := 1;
     supplierId := None; price := 100 # 100; cost := 100 # 100;
     stockQuantity := 5; minStockLevel := 5;
     maxStockLevel := None; unit := "piece";
     location := None; isActive := true |}.

Definition bolt_shop : Store :=
  {| products := [at_threshold];
     transactions :=
       [{| tx_id := 1; productId := 1; userId := 1; type := type_in;
           quantity := 5; previousStock := 0; newStock := 5;
           reason := "Initial stock";
           notes := Some "Product creation"%string;
           reference := None |}];
     categories := [{| cat_id := 1; cat_name := "Hardware" |}];
     suppliers := [];
     nextProductId := 2;
     nextTransactionId := 2 |}.

(** [GET /products?lowStock=true] *)
Definition low_stock_query : Listing.query_ :=
  {| Listing.page := None; Listing.limit := None; Listing.search := None;
     Listing.category := None; Listing.lowStock := Some "true"%string |}.

(** A creation request that leaves every optional field out. *)
Definition gadget : Create.req :=
  {| Create.user_id := 1;
     Create.body_ :=
       {| Create.name := "Gadget";
          Create.description := None;
          Create.sku := None;
          Create.barcode := None;
          Create.categoryId := 1;
          Create.supplierId := None;
          Create.price := 2%Q;
          Create.cost := 1%Q;
          Create.stockQuantity := None;
          Create.minStockLevel := None;
          Create.maxStockLevel := None;
          Create.unit := None;
          Create.location := None |} |}.

(** The gadget with both stock fields sent as the text "0", and as
    the number 0. *)
Definition gadget_as_text : Create.req :=
  {| Create.user_id := 1;
     Create.body_ :=
       {| Create.name := "Gadget";
          Create.description := None;
          Create.sku := None;
          Create.barcode := None;
          Create.categoryId := 1;
          Create.supplierId := None;
          Create.price := 2%Q;
          Create.cost := 1%Q;
          Create.stockQuantity := Some (Str "0");
          Create.minStockLevel := Some (Str "0");
          Create.maxStockLevel := None;
          Create.unit := None;
          Create.location := None |} |}.

Definition gadget_zero : Create.req :=
  {| Create.user_id := 1;
     Create.body_ :=
       {| Create.name := "Gadget";
          Create.description := None;
          Create.sku := None;
          Create.barcode := None;
          Create.categoryId := 1;
          Create.supplierId := None;
          Create.price := 2%Q;
          Create.cost := 1%Q;
          Create.stockQuantity := Some (Num 0);
          Create.minStockLevel := Some (Num 0);
          Create.maxStockLevel := None;
          Create.unit := None;
          Create.location := None |} |}.

(** Two products priced 0.10 and 0.20, one piece of each in stock. *)
Definition washer : Create.req :=
  {| Create.user_id := 1;
     Create.body_ :=
       {| Create.name := "Washer";
          Create.description := None;
          Create.sku := Some "WSH-001"%string;
          Create.barcode := None;
          Create.categoryId := 3;
          Create.supplierId := Some 1;
          Create.price := 1 # 10;
          Create.cost := 1 # 20;
          Create.stockQuantity := Some (Num 1);
          Create.minStockLevel := None;
          Create.maxStockLevel := None;
          Create.unit := None;
          Create.location := None |} |}.

Definition nut : Create.req :=
  {| Create.user_id := 1;
     Create.body_ :=
       {| Create.name := "Nut";
          Create.description := None;
          Create.sku := Some "NUT-001"%string;
          Create.barcode := None;
          Create.categoryId := 3;
          Create.supplierId := Some 1;
          Create.price := 2 # 10;
          Create.cost := 1 # 10;
          Create.stockQuantity := Some (Num 1);
          Create.minStockLevel := None;
          Create.maxStockLevel := None;
          Create.unit := None;
          Create.location := None |} |}.

Definition hardware_shop : Store :=
  snd (serve (createProduct 1700000000789 nut) None
         (snd (serve (createProduct 1700000000456 washer) None seeded))).

(** The page of that shop once the script has loaded its categories
    and its products. *)
Definition hardware_page : App :=
  page_after
    [ categories_loaded (categories hardware_shop);
      products_loaded (fun _ _ => false) None hardware_shop ]
    (opened 0 0 0 (double_of_Z 0)).

(** A product sent with a price of 0.125, a cost of 0.0625 and its
    stock as the text "12". *)
Definition rivet : Create.req :=
  {| Create.user_id := 1;
     Create.body_ :=
       {| Create.name := "  Rivet ";
          Create.description := None;
          Create.sku := None;
          Create.barcode := None;
          Create.categoryId := 3;
          Create.supplierId := Some 1;
          Create.price := 1 # 8;
          Create.cost := 1 # 16;
          Create.stockQuantity := Some (Str "12");
          Create.minStockLevel := None;
          Create.maxStockLevel := None;
          Create.unit := None;
          Create.location := None |} |}.

(** A product name that starts with three sharp s (unit 223). *)
Definition sharp_s_name : string :=
  String (ascii_of_nat 223)
    (String (ascii_of_nat 223) (String (ascii_of_nat 223) "en")).

(** The shop with the gadget, the rivet, the washer and the nut next
    to the widget, and the listing of its hardware. *)
Definition full_shop : Store :=
  snd (serve (createProduct 1700000000999 nut) None
    (snd (serve (createProduct 1700000000888 washer) None
      (snd (serve (createProduct 1700000000789 rivet) None
        (snd (serve (createProduct 1700000000456 gadget) None shop))))))).

Definition hardware_query : Listing.query_ :=
  {| Listing.page := None; Listing.limit := None; Listing.search := None;
     Listing.category := Some 3; Listing.lowStock := None |}.

(** A form that files the widget under a category that does not
    exist. *)
Definition misfiled : Create.req :=
  {| Create.user_id := 1;
     Create.body_ :=
       {| Create.name := "Widget";
          Create.description := None;
          Create.sku := None;
          Create.barcode := None;
          Create.categoryId := 9;
          Create.supplierId := None;
          Create.price := 2%Q;
          Create.cost := 1%Q;
          Create.stockQuantity := None;
          Create.minStockLevel := None;
          Create.maxStockLevel := None;
          Create.unit := None;
          Create.location := None |} |}.

(** The row of the running example. *)
Definition widget_row : Product :=
  {| id := 1; name := "Widget"; description := None;
     sku := "WID-001"; barcode := None; categoryId := 1;
     supplierId := None; price := 200 # 100; cost := 100 # 100;
     stockQuantity := 10; minStockLevel := 5;
     maxStockLevel := None; unit := "piece";
     location := None; isActive := true |}.
(** ** The other handlers of the controller *)

(** What [getProduct], [updateProduct] and [deleteProduct] send. *)
Inductive Answer :=
| answer_errors (errors : list string)
| answer_error (error : string)
| answer_message (message_ : string)
| answer_product (product : Product) (transactions_ : list Transaction)
| answer_updated (message_ : string) (product : option Product).

Record Reply := { code : Z; answer : Answer }.

Definition reply (c : Z) (a : Answer) : Reply :=
  {| code := c; answer := a |}.

Definition serve_as {A} (h : World -> A * World) (o : option nat) (s : Store)
  : A * Store :=
  let '(a, w) := h {| db := s; outage := o |} in (a, db w).

(** The movements of product [pid], newest first. *)
Definition movements_of (pid : Z) (s : Store) : list Transaction :=
  rev (filter (fun t => productId t =? pid) (transactions s)).

(** [Product.findByPk(pk, { include: [{ model: Transaction, as:
    'transactions', limit: 10, order: [['createdAt', 'DESC']] }] })] *)
Definition Product_findByPk_include (pk : Z) (s : Store)
  : option (Product * list Transaction) :=
  match Product_findByPk pk s with
  | Some p => Some (p, firstn 10 (movements_of (id p) s))
  | None => None
  end.

Definition getProduct (pk : Z) : World -> Reply * World :=
  try_catch
    (product <- query (fun s => (inr (Product_findByPk_include pk s), s)) ;;
     match product with
     | None => ret (reply 404 (answer_error "Product not found"))
     | Some (product, transactions_) =>
         ret (reply 200 (answer_product product transactions_))
     end)
    (fun error => reply 500 (answer_error (message error))).

Definition set_isActive (p : Product) (v : bool) : Product :=
  {| id := id p; name := name p; description := description p;
     sku := sku p; barcode := barcode p; categoryId := categoryId p;
     supplierId := supplierId p; price := price p; cost := cost p;
     stockQuantity := stockQuantity p; minStockLevel := minStockLevel p;
     maxStockLevel := maxStockLevel p; unit := unit p;
     location := location p; isActive := v |}.

(** [product.update({ isActive: v })] *)
Definition Product_update_isActive (product : Product) (v : bool)
  (s : Store) : (Exn + Product) * Store :=
  (inr (set_isActive product v),
   {| products :=
        map (fun row =>
               if id row =? id product then set_isActive row v else row)
            (products s);
      transactions := transactions s;
      categories := categories s;
      suppliers := suppliers s;
      nextProductId := nextProductId s;
      nextTransactionId := nextTransactionId s |}).

Definition deleteProduct (pk : Z) : World -> Reply * World :=
  try_catch
    (product <- findByPk pk ;;
     match product with
     | None => ret (reply 404 (answer_error "Product not found"))
     | Some product =>
         await query (Product_update_isActive product false) ;;
         ret (reply 200 (answer_message "Product deleted successfully"))
     end)
    (fun error => reply 500 (answer_error (message error))).

Definition or_else {A} (a : option A) (b : A) : A :=
  match a with Some x => x | None => b end.

Definition or_keep {A} (a b : option A) : option A :=
  match a with Some x => Some x | None => b end.

(** The integer that the database reads from a field that is set. *)
Definition read_or (v : option Value) (old : Z) : Z :=
  match v with
  | Some x => match integer_in x with Some n => n | None => old end
  | None => old
  end.

Definition unreadable (v : option Value) : bool :=
  match v with
  | Some x => match integer_in x with Some _ => false | None => true end
  | None => false
  end.

Definition fails_min_0_opt (v : option Value) : bool :=
  match v with Some x => fails_min_0 x | None => false end.

(** The row after [update(body)]: the fields that the body carries
    are set, the others are kept.  The body carries the fields of the
    product form; [name] comes trimmed out of the validation chain. *)
Definition assign (b : Create.body) (row : Product) : Product :=
  {| id := id row;
     name := trim (Create.name b);
     description := or_keep (Create.description b) (description row);
     sku := or_else (Create.sku b) (sku row);
     barcode := or_keep (Create.barcode b) (barcode row);
     categoryId := Create.categoryId b;
     supplierId := or_keep (Create.supplierId b) (supplierId row);
     price := round2 (Create.price b);
     cost := round2 (Create.cost b);
     stockQuantity := read_or (Create.stockQuantity b) (stockQuantity row);
     minStockLevel := read_or (Create.minStockLevel b) (minStockLevel row);
     maxStockLevel := or_keep (Create.maxStockLevel b) (maxStockLevel row);
     unit := or_else (Create.unit b) (unit row);
     location := or_keep (Create.location b) (location row);
     isActive := isActive row |}.

(** Another row has this SKU or this barcode. *)
Definition taken_by_other (self : Z) (sku_ : option string)
  (barcode_ : option string) (s : Store) : bool :=
  existsb (fun row => negb (id row =? self)
                      && (opt_eqb (Some (sku row)) sku_
                          || opt_eqb (barcode row) barcode_))
          (products s).

(** The foreign keys that an UPDATE changes point to stored rows. *)
Definition references_kept (product : Product) (b : Create.body) (s : Store)
  : bool :=
  ((Create.categoryId b =? categoryId product)
   || existsb (fun row => cat_id row =? Create.categoryId b) (categories s))
  && match Create.supplierId b, supplierId product with
     | Some k, Some k' => (k =? k') || existsb (Z.eqb k) (suppliers s)
     | Some k, None => existsb (Z.eqb k) (suppliers s)
     | None, _ => true
     end.

(** [product.update(req.body)]: the [min: 0] validators of the fields
    that are set, then the UPDATE of the row of [product], which the
    database rejects when it cannot read an integer, when the SKU or
    the barcode is taken by another row, or when the new category or
    supplier does not exist. *)
Definition Product_update (product : Product) (b : Create.body) (s : Store)
  : (Exn + Product) * Store :=
  if negb (Qle_bool 0 (Create.price b)) then
    (inl (validation_error "Validation min on price failed"), s)
  else if negb (Qle_bool 0 (Create.cost b)) then
    (inl (validation_error "Validation min on cost failed"), s)
  else if fails_min_0_opt (Create.stockQuantity b) then
    (inl (validation_error "Validation min on stockQuantity failed"), s)
  else if fails_min_0_opt (Create.minStockLevel b) then
    (inl (validation_error "Validation min on minStockLevel failed"), s)
  else if below_zero (Create.maxStockLevel b) then
    (inl (validation_error "Validation min on maxStockLevel failed"), s)
  else if unreadable (Create.stockQuantity b)
          || unreadable (Create.minStockLevel b) then
    (inl invalid_integer, s)
  else if taken_by_other (id product) (Create.sku b) (Create.barcode b) s then
    (inl unique_violation, s)
  else if negb (references_kept product b s) then
    (inl foreign_key_violation, s)
  else
    (inr (assign b product),
     {| products :=
          map (fun row => if id row =? id product then assign b row else row)
              (products s);
        transactions := transactions s;
        categories := categories s;
        suppliers := suppliers s;
        nextProductId := nextProductId s;
        nextTransactionId := nextTransactionId s |}).

Definition updateProduct (pk : Z) (req : Create.req) : World -> Reply * World :=
  try_catch
    (let errors := productValidation (Create.body_ req) in
     if negb (is_nil errors) then ret (reply 400 (answer_errors errors))
     else
       product <- findByPk pk ;;
       match product with
       | None => ret (reply 404 (answer_error "Product not found"))
       | Some product =>
           await query (Product_update product (Create.body_ req)) ;;
           updatedProduct <- findByPk (id product) ;;
           ret (reply 200
                  (answer_updated "Product updated successfully"
                     updatedProduct))
       end)
    (fun error => reply 500 (answer_error (message error))).

(** ** Requests to the product routes *)

(** A request to one of the six routes, with the outage that its
    handler meets.  An adjustment comes with its quantity as a number
    or as it was sent. *)
Inductive Request :=
| GET_products (o : option nat) (q : Listing.query_)
| GET_product (o : option nat) (pk : Z)
| POST_product (o : option nat) (now : Z) (req : Create.req)
| PUT_product (o : option nat) (pk : Z) (req : Create.req)
| DELETE_product (o : option nat) (pk : Z)
| POST_adjust_stock (o : option nat) (req : Adjust.req)
| POST_adjust_stock_wire (o : option nat) (req : Wire.req).

(** The database after one request, and after a list of them. *)
Definition after (iLike : string -> string -> bool) (r : Request) (s : Store)
  : Store :=
  match r with
  | GET_products o q => snd (serve (getAllProducts iLike q) o s)
  | GET_product o pk => snd (serve_as (getProduct pk) o s)
  | POST_product o now req => snd (serve (createProduct now req) o s)
  | PUT_product o pk req => snd (serve_as (updateProduct pk req) o s)
  | DELETE_product o pk => snd (serve_as (deleteProduct pk) o s)
  | POST_adjust_stock o req => snd (serve (adjustStock req) o s)
  | POST_adjust_stock_wire o req => snd (serve (Wire.adjustStock req) o s)
  end.

Fixpoint after_all (iLike : string -> string -> bool) (rs : list Request)
  (s : Store) : Store :=
  match rs with
  | [] => s
  | r :: rs' => after_all iLike rs' (after iLike r s)
  end.

(** A relation between the database before and after that every
    model operation respects. *)
Record respected (R : Store -> Store -> Prop) : Prop := {
  respects_refl : forall s, R s s;
  respects_trans : forall s1 s2 s3, R s1 s2 -> R s2 s3 -> R s1 s3;
  respects_update_stock :
    forall p v s, R s (snd (Product_update_stockQuantity p v s));
  respects_update_active :
    forall p v s, R s (snd (Product_update_isActive p v s));
  respects_update :
    forall p b s, R s (snd (Product_update p b s));
  respects_create :
    forall v s, R s (snd (Product_create v s));
  respects_insert :
    forall pid uid ty q prev new_ rsn nts s,
      R s (snd (Transaction_insert pid uid ty q prev new_ rsn nts s))
}.

(** A monadic computation that keeps [R] between the database it
    starts from and the one it leaves, on return and on exception. *)
Definition keeps (R : Store -> Store -> Prop) {A} (m : M A) : Prop :=
  forall s, effect m s (fun _ s' => R s s') (R s).

(** The three relations of interest. *)
Definition appends_movements (s s' : Store) : Prop :=
  exists l, transactions s' = transactions s ++ l.

Definition keeps_stock_nonneg (s s' : Store) : Prop :=
  Forall (fun p => 0 <= stockQuantity p) (products s) ->
  Forall (fun p => 0 <= stockQuantity p) (products s').

Definition appends_products (s s' : Store) : Prop :=
  exists l, map id (products s') = map id (products s) ++ l.

(** The reply of a handler whose query the database rejects. *)
Definition down : Reply := reply 500 (answer_error (message connection_error)).

(** The database after [deleteProduct] has written. *)
Definition deactivated (p : Product) (s : Store) : Store :=
  snd (Product_update_isActive p false s).

(** The database after [updateProduct] has written. *)
Definition overwritten (p : Product) (b : Create.body) (s : Store) : Store :=
  {| products :=
       map (fun row => if id row =? id p then assign b row else row)
           (products s);
     transactions := transactions s;
     categories := categories s;
     suppliers := suppliers s;
     nextProductId := nextProductId s;
     nextTransactionId := nextTransactionId s |}.

(** The row that [createProduct] hands to [Product.create], under the
    key it will get. *)
Definition new_row (now : Z) (req : Create.req) (s : Store) : Product :=
  let b := Create.body_ req in
  {| id := nextProductId s;
     name := trim (Create.name b);
     description := Create.description b;
     sku := sku_of now req s;
     barcode := Create.barcode b;
     categoryId := Create.categoryId b;
     supplierId := Create.supplierId b;
     price := round2 (Create.price b);
     cost := round2 (Create.cost b);
     stockQuantity := read_or (Some (or_value (Create.stockQuantity b) 0)) 0;
     minStockLevel := read_or (Some (or_value (Create.minStockLevel b) 10)) 10;
     maxStockLevel := Create.maxStockLevel b;
     unit := or_string (Create.unit b) "piece";
     location := Create.location b;
     isActive := true |}.

(** The first three characters of a name, as [generateSKU] reads
    them. *)
Definition prefix3 (s : string) : string := toUpperCase (substring 0 3 s).

(** A form that sets the stock of the widget to 40. *)
Definition recount : Create.req :=
  {| Create.user_id := 1;
     Create.body_ :=
       {| Create.name := "Widget";
          Create.description := None;
          Create.sku := None;
          Create.barcode := None;
          Create.categoryId := 1;
          Create.supplierId := None;
          Create.price := 2%Q;
          Create.cost := 1%Q;
          Create.stockQuantity := Some (Num 40);
          Create.minStockLevel := None;
          Create.maxStockLevel := None;
          Create.unit := None;
          Create.location := None |} |}.

(** A second product whose name starts like the gadget's. *)
Definition gadfly : Create.req :=
  {| Create.user_id := 1;
     Create.body_ :=
       {| Create.name := "gadfly trap";
          Create.description := None;
          Create.sku := None;
          Create.barcode := None;
          Create.categoryId := 1;
          Create.supplierId := None;
          Create.price := 5%Q;
          Create.cost := 3%Q;
          Create.stockQuantity := Some (Num 2);
          Create.minStockLevel := None;
          Create.maxStockLevel := None;
          Create.unit := None;
          Create.location := None |} |}.

(** A day of requests against the shop. *)
Definition busy_day : list Request :=
  [ POST_adjust_stock None (adjust (-7));
    PUT_product None 1 recount;
    POST_adjust_stock (Some 2%nat) (adjust (-50));
    POST_adjust_stock_wire None (adjust_text "5");
    POST_adjust_stock_wire None (adjust_text "-200");
    POST_product (Some 1%nat) 1700000000456 gadget;
    DELETE_product None 1;
    POST_adjust_stock None (adjust (-60));
    GET_product None 1;
    GET_products None low_stock_query ].

(** A string made of white space only. *)
Definition blank (s : string) : bool :=
  forallb is_space (list_ascii_of_string s).

(** An adjustment of product 1 whose reason is three spaces. *)
Definition unexplained : Adjust.req :=
  {| Adjust.params_id := 1;
     Adjust.user_id := 1;
     Adjust.body_ :=
       {| Adjust.quantity := -2;
          Adjust.reason := "   ";
          Adjust.notes := None |} |}.

(** ** Pages of the product listing *)

(** All the rows that match the query, newest first. *)
Definition listing (iLike : string -> string -> bool) (q : Listing.query_)
  (s : Store) : list Product :=
  rev (filter (whereClause iLike q) (products s)).

(** The query [q] asked for page [k] with [l] rows a page. *)
Definition on_page (q : Listing.query_) (k l : Z) : Listing.query_ :=
  {| Listing.page := Some k;
     Listing.limit := Some l;
     Listing.search := Listing.search q;
     Listing.category := Listing.category q;
     Listing.lowStock := Listing.lowStock q |}.

Definition rows_of (res : Response) : list Product :=
  match body res with
  | products_body rows _ _ _ _ => rows
  | _ => []
  end.

Definition total_of (res : Response) : option Z :=
  match body res with
  | products_body _ total _ _ _ => Some total
  | _ => None
  end.

(** The rows of page [k]. *)
Definition page_rows (iLike : string -> string -> bool) (q : Listing.query_)
  (l : Z) (s : Store) (k : nat) : list Product :=
  rows_of (fst (serve (getAllProducts iLike (on_page q (Z.of_nat k) l))
                  None s)).

(** Movement keys grow with insertion and stay below their sequence. *)
Definition movement_keys_ok (s : Store) : Prop :=
  StronglySorted Z.lt (map tx_id (transactions s))
  /\ Forall (fun t => tx_id t < nextTransactionId s) (transactions s).

Definition keeps_movement_keys (s s' : Store) : Prop :=
  movement_keys_ok s -> movement_keys_ok s'.

(** ** [frontend/src/js/app.js]: the products table and its filters *)

(** The class of a table row and of its stock badge in
    [renderProducts]. *)
Definition stockClass (product : Product) : string :=
  if stockQuantity product =? 0 then "out-of-stock"
  else if stockQuantity product <=? minStockLevel product then "low-stock"
  else "".

Definition badgeClass (product : Product) : string :=
  if stockQuantity product =? 0 then "bg-danger"
  else if stockQuantity product <=? minStockLevel product then "bg-warning"
  else "bg-success".

Definition lower (c : ascii) : ascii :=
  let n := nat_of_ascii c in
  if (Nat.leb 65 n && Nat.leb n 90)%bool then ascii_of_nat (n + 32)
  else if (Nat.leb 192 n && Nat.leb n 222 && negb (Nat.eqb n 215))%bool then
    ascii_of_nat (n + 32)
  else c.

Fixpoint toLowerCase (s : string) : string :=
  match s with
  | EmptyString => EmptyString
  | String c s' => String (lower c) (toLowerCase s')
  end.

(** [s.includes(t)] *)
Fixpoint includes (s t : string) : bool :=
  prefix t s
  || match s with
     | String _ s' => includes s' t
     | EmptyString => false
     end.

(** The three controls above the table: the search box, the category
    select ([None] for "All Categories") and the low-stock box. *)
Record Filters := {
  searchInput : string;
  categoryFilter : option Z;
  lowStockFilter : bool
}.

Definition matches_search (searchTerm : string) (product : Product) : bool :=
  includes (toLowerCase (name product)) searchTerm
  || includes (toLowerCase (sku product)) searchTerm
  || match description product with
     | Some d => negb (isEmpty d) && includes (toLowerCase d) searchTerm
     | None => false
     end.

(** [applyFilters]: the rows handed to [renderProducts]. *)
Definition applyFilters (f : Filters) (products_ : list Product)
  : list Product :=
  let filtered := products_ in
  let searchTerm := toLowerCase (searchInput f) in
  let filtered :=
    if isEmpty searchTerm then filtered
    else filter (matches_search searchTerm) filtered in
  let filtered :=
    match categoryFilter f with
    | Some selectedCategory =>
        filter (fun product => categoryId product =? selectedCategory) filtered
    | None => filtered
    end in
  let filtered :=
    if lowStockFilter f then filter isLowStock filtered else filtered in
  filtered.

(** A product meets every control that is set. *)
Definition shown_by (f : Filters) (product : Product) : Prop :=
  (isEmpty (toLowerCase (searchInput f)) = false ->
   matches_search (toLowerCase (searchInput f)) product = true)
  /\ (forall c, categoryFilter f = Some c -> categoryId product = c)
  /\ (lowStockFilter f = true -> isLowStock product = true).

(** A form that renames the gadget and asks for the SKU of the
    widget. *)
Definition takeover : Create.req :=
  {| Create.user_id := 1;
     Create.body_ :=
       {| Create.name := "Gadget";
          Create.description := None;
          Create.sku := Some "WID-001"%string;
          Create.barcode := None;
          Create.categoryId := 1;
          Create.supplierId := None;
          Create.price := 2%Q;
          Create.cost := 1%Q;
          Create.stockQuantity := None;
          Create.minStockLevel := None;
          Create.maxStockLevel := None;
          Create.unit := None;
          Create.location := None |} |}.

(** The shop with the gadget next to the widget. *)
Definition two_products : Store :=
  snd (serve (createProduct 1700000000456 gadget) None shop).

(** * Proofs *)

(** ** Stepping through a handler *)

Lemma bind_query_answers {A B} (q : Store -> (Exn + A) * Store)
  (k : A -> M B) (s : Store) (o : option nat) :
  o <> Some 0%nat ->
  bind (query q) k {| db := s; outage := o |}
  = match fst (q s) with
    | inl e => (inl e, {| db := snd (q s); outage := option_map Nat.pred o |})
    | inr a => k a {| db := snd (q s); outage := option_map Nat.pred o |}
    end.
Proof.
  intros Ho. unfold bind, query. cbn [db outage].
  destruct o as [[|n]|]; [now elim Ho | |]; destruct (fst (q s)); reflexivity.
Qed.

Lemma bind_query_rejects {A B} (q : Store -> (Exn + A) * Store)
  (k : A -> M B) (s : Store) :
  bind (query q) k {| db := s; outage := Some 0%nat |}
  = (inl connection_error, {| db := s; outage := Some 0%nat |}).
Proof. reflexivity. Qed.

Lemma validation_quantity_zero (b : Adjust.body) :
  Adjust.quantity b = 0 -> In "quantity"%string (stockAdjustmentValidation b).
Proof.
  intros Hq. unfold stockAdjustmentValidation. rewrite Hq. simpl. now left.
Qed.

Lemma validation_passes (b : Adjust.body) :
  stockAdjustmentValidation b = [] ->
  Adjust.quantity b <> 0 /\ isEmpty (Adjust.reason b) = false.
Proof.
  unfold stockAdjustmentValidation.
  destruct (Adjust.quantity b =? 0) eqn:Hq; [discriminate|].
  destruct (isEmpty (Adjust.reason b)); [discriminate|].
  intros _. split; [now apply Z.eqb_neq | reflexivity].
Qed.

Lemma abs_eqb_zero (q : Z) : q <> 0 -> (Z.abs q =? 0) = false.
Proof. intros H. apply Z.eqb_neq. lia. Qed.

Lemma adjustStock_unfold (o : option nat) (req : Adjust.req) (s : Store) :
  serve (adjustStock req) o s = adjustStock_outcome o req s.
Proof.
  unfold serve, adjustStock, adjustStock_outcome, try_catch, findByPk.
  destruct (stockAdjustmentValidation (Adjust.body_ req)) eqn:Hv;
    cbn [is_nil negb]; [|reflexivity].
  destruct (validation_passes _ Hv) as [Hq _].

  destruct o as [[|n]|]; [reflexivity | |];
    (rewrite bind_query_answers by discriminate; cbn [fst snd option_map];
     destruct (Product_findByPk (Adjust.params_id req) s) as [p|];
       [|reflexivity];
     destruct (stockQuantity p + Adjust.quantity (Adjust.body_ req) <? 0)
       eqn:Hlt; [reflexivity|]).
  - destruct n as [|n]; [reflexivity|].
    rewrite bind_query_answers by discriminate.
    unfold Product_update_stockQuantity at 1. rewrite Hlt. cbn [fst].
    destruct n as [|n]; cbn [option_map Nat.pred].
    + rewrite bind_query_rejects.
      unfold Product_update_stockQuantity. rewrite Hlt. reflexivity.
    + rewrite bind_query_answers by discriminate.
      unfold Product_update_stockQuantity, Transaction_create.
      rewrite Hlt. cbn [snd fst transactions nextTransactionId].
      rewrite (abs_eqb_zero _ Hq). reflexivity.
  - rewrite bind_query_answers by discriminate.
    unfold Product_update_stockQuantity at 1. rewrite Hlt. cbn [fst].
    rewrite bind_query_answers by discriminate.
    unfold Product_update_stockQuantity, Transaction_create.
    rewrite Hlt. cbn [snd fst transactions nextTransactionId].
    rewrite (abs_eqb_zero _ Hq). reflexivity.
Qed.

(** ** The two views of an adjustment *)

Lemma validation_on_numbers (req : Adjust.req) :
  Wire.stockAdjustmentValidation (Wire.body_ (Wire.number req))
  = stockAdjustmentValidation (Adjust.body_ req).
Proof.
  unfold Wire.stockAdjustmentValidation, stockAdjustmentValidation, check.
  cbn [Wire.number Wire.body_ Wire.quantity Wire.reason isInt is_zero app].
  destruct (Adjust.quantity (Adjust.body_ req) =? 0);
    destruct (isEmpty (Adjust.reason (Adjust.body_ req))); reflexivity.
Qed.

Lemma Product_update_stock_number (p : Product) (n : Z) (s : Store) :
  Product_update_stock p (Num n) s = Product_update_stockQuantity p n s.
Proof.
  unfold Product_update_stock, Product_update_stockQuantity, fails_min_0.
  cbn. destruct (n <? 0); reflexivity.
Qed.

Lemma Transaction_create_numbers (pid uid : Z) (ty : TransactionType)
  (q prev n : Z) (rsn : string) (nts : option string) (s : Store) :
  Transaction_create_values pid uid ty (Num q) prev (Num n) rsn nts s
  = Transaction_create pid uid ty q prev n rsn nts s.
Proof.
  unfold Transaction_create_values, Transaction_create. cbn.
  destruct (q =? 0); reflexivity.
Qed.

(** X27.  On a quantity sent as a number, the handler on the wire is
    the handler of [Adjust]: same database, same response, whatever
    the request, the database and the queries it rejects. *)
Theorem adjustStock_on_numbers (o : option nat) (req : Adjust.req) (s : Store) :
  (as_numbers (fst (serve (Wire.adjustStock (Wire.number req)) o s)),
   snd (serve (Wire.adjustStock (Wire.number req)) o s))
  = serve (adjustStock req) o s.
Proof.
  rewrite adjustStock_unfold.
  unfold serve, Wire.adjustStock, adjustStock_outcome, try_catch, findByPk.
  rewrite validation_on_numbers.
  destruct (stockAdjustmentValidation (Adjust.body_ req)) eqn:Hv;
    cbn [is_nil negb]; [|reflexivity].
  destruct (validation_passes _ Hv) as [Hq _].
  cbn [Wire.number Wire.body_ Wire.quantity Wire.params_id Wire.user_id
       Wire.reason Wire.notes plus lessThan toNumber greaterThan
       Wire.magnitude Math_abs option_map].
  destruct o as [[|n]|]; [reflexivity | |];
    (rewrite bind_query_answers by discriminate; cbn [fst snd option_map];
     destruct (Product_findByPk (Adjust.params_id req) s) as [p|];
       [|reflexivity];
     destruct (stockQuantity p + Adjust.quantity (Adjust.body_ req) <? 0)
       eqn:Hlt; [reflexivity|]).
  - destruct n as [|n]; [reflexivity|].
    rewrite bind_query_answers by discriminate.
    rewrite Product_update_stock_number.
    unfold Product_update_stockQuantity at 1. rewrite Hlt. cbn [fst].
    destruct n as [|n]; cbn [option_map Nat.pred].
    + rewrite bind_query_rejects.
      unfold Product_update_stockQuantity. rewrite Hlt. reflexivity.
    + rewrite bind_query_answers by discriminate.
      rewrite Transaction_create_numbers.
      unfold Product_update_stockQuantity, Transaction_create.
      rewrite Hlt. cbn [snd fst transactions nextTransactionId].
      rewrite (abs_eqb_zero _ Hq). reflexivity.
  - rewrite bind_query_answers by discriminate.
    rewrite Product_update_stock_number.
    unfold Product_update_stockQuantity at 1. rewrite Hlt. cbn [fst].
    rewrite bind_query_answers by discriminate.
    rewrite Transaction_create_numbers.
    unfold Product_update_stockQuantity, Transaction_create.
    rewrite Hlt. cbn [snd fst transactions nextTransactionId].
    rewrite (abs_eqb_zero _ Hq). reflexivity.
Qed.

Ltac adjust_cases o req s :=
  rewrite ?adjustStock_unfold; unfold adjustStock_outcome;
  destruct (stockAdjustmentValidation (Adjust.body_ req)) eqn:?Hv;
  [ destruct o as [[|[|[|?n]]]|];
    destruct (Product_findByPk (Adjust.params_id req) s) as [?p|] eqn:?Hfind;
    try destruct (stockQuantity _ + Adjust.quantity (Adjust.body_ req) <? 0)
      eqn:?Hlt
  | ]; cbn [fst snd status json].

(** ** Rejections *)

(** C4.  A quantity of zero sent as text is not refused.  The chain
    [isInt().custom(value => value !== 0)] passes the text "0"
    unconverted, [previousStock + quantity] is then the text "100",
    which the UPDATE writes as the stock, and only the validator of
    the movement model stops the call: the answer is 500, the stock of
    the widget has gone from 10 to 100, and no movement was
    recorded.  Sent as the number 0, the same quantity is refused
    with 400 and nothing is written. *)
Theorem text_zero_quantity_rewrites_stock :
  let answer := serve (Wire.adjustStock (adjust_text "0")) None shop in
  Wire.stockAdjustmentValidation (Wire.body_ (adjust_text "0")) = []
  /\ status (fst answer) = 500
  /\ serve (Wire.adjustStock (Wire.number (adjust 0))) None shop
     = (json 400 (errors_body ["quantity"%string]), shop)
  /\ stock_of 1 shop = Some 10
  /\ stock_of 1 (snd answer) = Some 100
  /\ transactions (snd answer) = transactions shop.
Proof. vm_compute. repeat split; reflexivity. Qed.

(** X24.  An adjustment whose quantity is the number 0 is answered 400
    with the validation errors, [quantity] among them, and the
    database (stock and movements alike) is left as it was, whatever
    the product, the reason and the state of the database. *)
Theorem zero_quantity_rejected (o : option nat) (req : Adjust.req) (s : Store) :
  Adjust.quantity (Adjust.body_ req) = 0 ->
  exists errors,
    In "quantity"%string errors
    /\ serve (adjustStock req) o s = (json 400 (errors_body errors), s).
Proof.
  intros Hq. exists (stockAdjustmentValidation (Adjust.body_ req)).
  split; [now apply validation_quantity_zero|].
  pose proof (validation_quantity_zero _ Hq) as Hin.
  rewrite adjustStock_unfold. unfold adjustStock_outcome.
  destruct (stockAdjustmentValidation (Adjust.body_ req));
    [contradiction | reflexivity].
Qed.

Lemma zero_quantity_rejected_witness :
  exists errors,
    In "quantity"%string errors
    /\ serve (adjustStock (adjust 0)) None shop
       = (json 400 (errors_body errors), shop).
Proof. apply (zero_quantity_rejected None (adjust 0) shop). reflexivity. Defined.



(** ** Both writes, or neither *)

(** C5, as amended.  Unless the database answers the SELECT and the
    UPDATE of the call and then rejects its INSERT, [adjustStock]
    either answers 200 and leaves the product updated together with
    exactly one new movement, or answers something else and leaves
    the database as it was. *)
Theorem adjustStock_all_or_nothing
  (o : option nat) (req : Adjust.req) (s : Store) :
  ~ torn o -> all_or_nothing o req s.
Proof.
  intros Ho. unfold all_or_nothing.
  adjust_cases o req s;
    try (right; split; [discriminate | reflexivity]);
    try (left; split; [reflexivity | eexists; split; reflexivity]).
  now elim Ho.
Qed.

Lemma adjustStock_all_or_nothing_witness :
  all_or_nothing None (adjust (-7)) shop.
Proof. apply adjustStock_all_or_nothing. unfold torn. discriminate. Defined.

(** C5, the claim as stated fails: the INSERT of the movement is
    rejected after the UPDATE of the product; the call answers 500,
    the stock has gone from 10 to 3 and no movement says so. *)
Lemma adjustStock_partial_commit :
  ~ all_or_nothing (Some 2%nat) (adjust (-7)) shop.
Proof.
  unfold all_or_nothing. rewrite adjustStock_unfold.
  intros [[H _] | [_ H]]; vm_compute in H; discriminate.
Qed.

(** ** The response of an adjustment *)

(** C9, as amended.  For a request that passes validation, with a
    database that answers: on an existing product with enough stock
    the response is 200 and carries the previous stock, the new stock
    and the signed quantity as requested; with too little stock it is
    400; on an unknown product it is 404. *)
Theorem adjustStock_responses
  (o : option nat) (req : Adjust.req) (s : Store) :
  stockAdjustmentValidation (Adjust.body_ req) = [] ->
  (forall n, o = Some n -> (3 <= n)%nat) ->
  let q := Adjust.quantity (Adjust.body_ req) in
  let res := fst (serve (adjustStock req) o s) in
  match Product_findByPk (Adjust.params_id req) s with
  | Some p =>
      if stockQuantity p + q <? 0 then
        res = json 400 (error_body "Insufficient stock")
      else
        res = json 200
                (adjusted_body "Stock adjusted successfully" (id p) (name p)
                   (stockQuantity p) (stockQuantity p + q) q)
  | None => res = json 404 (error_body "Product not found")
  end.
Proof.
  intros Hv Ho q res. subst q res.
  adjust_cases o req s; try discriminate; try reflexivity;
    match goal with
    | H : forall n, Some ?k = Some n -> _ |- _ =>
        specialize (H k eq_refl); lia
    end.
Qed.

Lemma adjustStock_responses_witness :
  fst (serve (adjustStock (adjust (-7))) None shop)
  = json 200 (adjusted_body "Stock adjusted successfully" 1 "Widget" 10 3 (-7)).
Proof.
  apply (adjustStock_responses None (adjust (-7)) shop).
  - reflexivity.
  - discriminate.
Defined.

(** C9, the claim as stated fails: the [adjustment] of the response to
    a request for -5 is -5, not its absolute value 5. *)
Lemma adjustment_is_signed :
  ~ reports_magnitude None (adjust (-5)) shop.
Proof. unfold reports_magnitude. vm_compute. discriminate. Qed.

(** ** Hoare rules for handlers *)

Lemma effect_ret {A} (a : A) (s : Store) (Q : A -> Store -> Prop)
  (E : Store -> Prop) :
  Q a s -> effect (ret a) s Q E.
Proof. intros H o. exact H. Qed.

Lemma effect_bind {A B} (m : M A) (k : A -> M B) (s : Store)
  (Q1 : A -> Store -> Prop) (Q : B -> Store -> Prop) (E : Store -> Prop) :
  effect m s Q1 E ->
  (forall a s1, Q1 a s1 -> effect (k a) s1 Q E) ->
  effect (bind m k) s Q E.
Proof.
  intros Hm Hk o. unfold bind. specialize (Hm o).
  destruct (m {| db := s; outage := o |}) as [[e | a] [s1 o1]];
    cbn [db] in *; [exact Hm|].
  exact (Hk a s1 Hm o1).
Qed.

Lemma effect_query {A} (q : Store -> (Exn + A) * Store) (s : Store)
  (Q : A -> Store -> Prop) (E : Store -> Prop) :
  E s ->
  match fst (q s) with
  | inr a => Q a (snd (q s))
  | inl _ => E (snd (q s))
  end ->
  effect (query q) s Q E.
Proof.
  intros Hdown Hq o. unfold query. cbn [db outage].
  destruct o as [[|n]|]; [exact Hdown | |];
    destruct (fst (q s)); exact Hq.
Qed.

Lemma serve_try_catch {A} (body_ : M A) (h : Exn -> A) (s : Store)
  (Q : A -> Store -> Prop) (E : Store -> Prop) (o : option nat) :
  effect body_ s Q E ->
  let '(a, w) := try_catch body_ h {| db := s; outage := o |} in
  Q a (db w) \/ (exists e, a = h e) /\ E (db w).
Proof.
  intros Hm. unfold try_catch. specialize (Hm o).
  destruct (body_ {| db := s; outage := o |}) as [[e | a] w].
  - right. split; [now exists e | exact Hm].
  - now left.
Qed.

(** ** Values that passed [isInt] *)

Lemma leading_digits_all (s : string) :
  all_digits s = true -> leading_digits s = s.
Proof.
  induction s as [|c s IH]; cbn; [reflexivity|].
  intros H. apply andb_prop in H as [Hc Hs]. rewrite Hc. f_equal. auto.
Qed.

Lemma parseFloat_literal (s : string) :
  int_literal s = true -> parseFloat (Str s) = Some (read_int s).
Proof.
  destruct s as [|c s]; [discriminate|]. cbn [int_literal parseFloat].
  destruct (is_sign c).
  - intros H. apply andb_prop in H as [Hne Hd].
    rewrite (leading_digits_all _ Hd).
    apply negb_true_iff in Hne. now rewrite Hne.
  - intros H. now rewrite (leading_digits_all _ H).
Qed.

Lemma integer_in_parseFloat (v : Value) (n : Z) :
  integer_in v = Some n -> parseFloat v = Some n.
Proof.
  destruct v as [z | s]; cbn [integer_in]; [auto|].
  destruct (int_literal s) eqn:Hl; [|discriminate].
  intros [= <-]. now apply parseFloat_literal.
Qed.

Lemma isInt_reads (m : Z) (v : Value) :
  isInt (Some m) v = true -> exists n, reads m v n.
Proof.
  destruct v as [n | s]; cbn [isInt]; intros H.
  - exists n. apply Z.leb_le in H. now constructor.
  - apply andb_prop in H as [Hl Hm]. apply Z.leb_le in Hm.
    exists (read_int s). constructor.
    + exact Hm.
    + cbn. now rewrite Hl.
    + cbn. rewrite Hl. destruct s; [discriminate | reflexivity].
    + now apply parseFloat_literal.
Qed.

Lemma reads_number_itself (m n : Z) : m <= n -> reads m (Num n) n.
Proof. now constructor. Qed.

Lemma reads_fails_min_0 (v : Value) (n : Z) :
  reads 0 v n -> fails_min_0 v = false.
Proof.
  intros [Hm _ _ Hf]. unfold fails_min_0. rewrite Hf. now apply Z.ltb_ge.
Qed.

(** The stock field of a valid form: the integer stored for it, and
    what the guard of the initial movement sees. *)
Lemma stock_field (v : option Value) :
  optional_isInt 0 v = true ->
  exists n,
    reads 0 (or_value v 0) n
    /\ match v with
       | Some x =>
           greaterThan x 0 = (0 <? n)
           /\ (0 < n -> integer_in x = Some n /\ is_zero x = false)
       | None => n = 0
       end.
Proof.
  destruct v as [x|]; cbn [optional_isInt or_value]; intros H.
  2:{ exists 0. split; [now apply reads_number_itself | reflexivity]. }
  destruct (isInt_reads _ _ H) as [n Hn].
  destruct (truthy x) eqn:Ht.
  - exists n. split; [exact Hn|]. split.
    + unfold greaterThan. now rewrite (reads_number _ _ _ Hn).
    + intros Hpos. split; [exact (reads_integer _ _ _ Hn)|].
      destruct x as [z | s]; [|reflexivity].
      pose proof (reads_integer _ _ _ Hn) as Hz. cbn in Hz.
      injection Hz as ->. cbn. apply Z.eqb_neq. lia.
  - exists 0. split; [now apply reads_number_itself|].
    destruct x as [z | s]; cbn in Ht.
    + apply negb_false_iff, Z.eqb_eq in Ht. subst z.
      split; [reflexivity | lia].
    + apply negb_false_iff in Ht. unfold isEmpty in Ht.
      apply String.eqb_eq in Ht. subst s. discriminate H.
Qed.

Lemma threshold_field (v : option Value) :
  optional_isInt 0 v = true -> exists n, reads 0 (or_value v 10) n.
Proof.
  destruct v as [x|]; cbn [optional_isInt or_value]; intros H.
  2:{ exists 10. now apply reads_number_itself. }
  destruct (isInt_reads _ _ H) as [n Hn].
  destruct (truthy x); [now exists n|].
  exists 10. now apply reads_number_itself.
Qed.

(** ** [createProduct] *)

Lemma productValidation_all (b : Create.body) :
  productValidation b = [] ->
  Qle_bool 0 (Create.price b) = true
  /\ Qle_bool 0 (Create.cost b) = true
  /\ optional_isInt 0 (Create.stockQuantity b) = true
  /\ optional_isInt 0 (Create.minStockLevel b) = true
  /\ optional_isInt_min 0 (Create.maxStockLevel b) = true.
Proof.
  unfold productValidation, check. intros H.
  repeat match type of H with
         | (if ?c then _ else _) ++ _ = [] =>
             destruct c eqn:?; [cbn [app] in H | discriminate H]
         | (if ?c then _ else _) = [] =>
             destruct c eqn:?; [| discriminate H]
         end.
  repeat split; reflexivity.
Qed.

Lemma below_zero_false (v : option Z) :
  optional_isInt_min 0 v = true -> below_zero v = false.
Proof.
  destruct v as [n|]; cbn; [|reflexivity].
  intros H. apply Z.leb_le in H. apply Z.ltb_ge. lia.
Qed.

(** [Product.create] throws before the INSERT and writes nothing, or
    the database rejects the INSERT and the key is gone, or one row is
    stored under the next key with the values it was given. *)
Lemma Product_create_cases (v : Values.t) (s : Store) :
  (exists e, Product_create v s = (inl e, s))
  \/ (exists e, Product_create v s = (inl e, skip_key s))
  \/ (exists row,
        Product_create v s = (inr row, with_product row s)
        /\ id row = nextProductId s
        /\ integer_in (Values.stockQuantity v) = Some (stockQuantity row)
        /\ integer_in (Values.minStockLevel v) = Some (minStockLevel row)
        /\ isActive row = true).
Proof.
  unfold Product_create.
  repeat match goal with
         | |- context [if ?c then (inl ?e, s) else _] =>
             destruct c; [left; now exists e|]
         end.
  destruct (integer_in (Values.stockQuantity v)) as [n|];
    [|left; now eexists].
  destruct (integer_in (Values.minStockLevel v)) as [m|];
    [|left; now eexists].
  repeat match goal with
         | |- context [if ?c then (inl ?e, skip_key s) else _] =>
             destruct c; [right; left; now exists e|]
         end.
  right. right. eexists. split; [reflexivity|]. cbn. repeat split.
Qed.

Lemma createProduct_effect (o : option nat) (now : Z) (req : Create.req)
  (s : Store) :
  let '(res, s') := serve (createProduct now req) o s in
  created_or_not req s res s'.
Proof.
  unfold serve, createProduct.
  match goal with
  | |- context [try_catch ?b ?h _] =>
      pose proof (serve_try_catch b h s
                    (fun res s' => created_or_not req s res s')
                    (creation req s) o) as Hrun;
      destruct (try_catch b h {| db := s; outage := o |}) as [res w]
  end.
  cut (created_or_not req s res (db w)); [auto|].
  destruct Hrun as [H | [[e ->] H]]; [ | exact H | ].
  2:{ right. split; [|exact H].
      destruct (error_name e); cbn; discriminate. }
  clear res w o.
  destruct (productValidation (Create.body_ req)) eqn:Hv; cbn [is_nil negb];
    [| apply effect_ret; right; split; [discriminate | constructor]].
  destruct (productValidation_all _ Hv) as (_ & _ & Hsq & Hml & _).
  eapply effect_bind with (Q1 := fun _ s1 => s1 = s).
  { destruct (falsy _).
    - eapply effect_bind with (Q1 := fun _ s1 => s1 = s).
      + apply effect_query; [constructor | reflexivity].
      + intros a s1 ->. now apply effect_ret.
    - now apply effect_ret. }
  intros sku_ s1 ->.
  match goal with
  | |- context [Product_create ?v] =>
      destruct (Product_create_cases v s)
        as [[e He] | [[e He] | (row & Hrow & Hid & Hst & Hmin & Hact)]]
  end.
  { eapply effect_bind with (Q1 := fun _ _ => False).
    - apply effect_query; [constructor | rewrite He; constructor].
    - intros _ _ []. }
  { eapply effect_bind with (Q1 := fun _ _ => False).
    - apply effect_query; [constructor | rewrite He; constructor].
    - intros _ _ []. }
  cbn [Values.stockQuantity Values.minStockLevel] in Hst, Hmin.
  destruct (stock_field _ Hsq) as (n & Hn & Hguard).
  assert (n = stockQuantity row) as ->.
  { pose proof (reads_integer _ _ _ Hn) as H. rewrite Hst in H. congruence. }
  assert (Hnew : is_new_row req s row).
  { constructor; try assumption. exact (reads_min _ _ _ Hn). }
  eapply effect_bind with (Q1 := fun r s1 => r = row /\ s1 = with_product row s).
  { apply effect_query; [constructor | rewrite Hrow; cbn; auto]. }
  intros r s1 [-> ->].
  eapply effect_bind with (Q1 := fun _ s1 => s1 = stored req row s)
                          (E := creation req s).
  { unfold stored.
    destruct (Create.stockQuantity (Create.body_ req)) as [x|].
    - destruct Hguard as [Hgt Hpos]. rewrite Hgt.
      destruct (0 <? stockQuantity row) eqn:Hlt; [|now apply effect_ret].
      apply Z.ltb_lt in Hlt. destruct (Hpos Hlt) as [Hx Hnz].
      eapply effect_bind with (Q1 := fun _ s1 =>
        s1 = with_movement (initial_movement req row (with_product row s))
                           (with_product row s)).
      + apply effect_query; [now constructor|].
        unfold Transaction_create_values. rewrite Hnz, Hx. reflexivity.
      + intros _ s1 ->. now apply effect_ret.
    - rewrite Hguard. cbn [Z.ltb Z.compare]. now apply effect_ret. }
  intros _ s1 ->.
  assert (Hleft : creation req s (stored req row s)).
  { unfold stored. destruct (0 <? stockQuantity row) eqn:Hpos.
    - apply creation_both; [assumption | now apply Z.ltb_lt].
    - now apply creation_product. }
  eapply effect_bind with (Q1 := fun _ s1 => s1 = stored req row s).
  { apply effect_query; [assumption | reflexivity]. }
  intros a s1 ->. apply effect_ret.
  left. split; [reflexivity|]. now exists row.
Qed.

Lemma bind_assoc {A B C} (m : M A) (f : A -> M B) (g : B -> M C) (w : World) :
  bind (bind m f) g w = bind m (fun a => bind (f a) g) w.
Proof. unfold bind. destruct (m w) as [[e | a] w']; reflexivity. Qed.

Lemma bind_ret {A B} (a : A) (k : A -> M B) (w : World) :
  bind (ret a) k w = k a w.
Proof. reflexivity. Qed.

(** The row of a valid form holds the integers of its stock fields. *)
Lemma new_row_reads (now : Z) (req : Create.req) (s : Store) :
  let b := Create.body_ req in
  let row := new_row now req s in
  productValidation b = [] ->
  reads 0 (or_value (Create.stockQuantity b) 0) (stockQuantity row)
  /\ reads 0 (or_value (Create.minStockLevel b) 10) (minStockLevel row).
Proof.
  intros b row Hv.
  destruct (productValidation_all _ Hv) as (_ & _ & Hsq & Hml & _).
  destruct (stock_field _ Hsq) as (n & Hn & _).
  destruct (threshold_field _ Hml) as (m & Hm).
  unfold row, new_row. fold b. cbn [stockQuantity minStockLevel read_or].
  rewrite (reads_integer _ _ _ Hn), (reads_integer _ _ _ Hm). now split.
Qed.

(** [createProduct], query by query, for a valid form on a database
    that answers. *)
Lemma createProduct_unfold (now : Z) (req : Create.req) (s : Store) :
  let b := Create.body_ req in
  let row := new_row now req s in
  productValidation b = [] ->
  serve (createProduct now req) None s
  = if taken (sku_of now req s) (Create.barcode b) s then
      (json 400 (error_body "SKU or barcode already exists"), skip_key s)
    else if negb (references_exist (Create.categoryId b)
                    (Create.supplierId b) s) then
      (json 500 (error_body (message foreign_key_violation)), skip_key s)
    else
      (json 201
         (created_body "Product created successfully"
            (Product_findByPk (id row) (stored req row s))),
       stored req row s).
Proof.
  intros b row Hv.
  destruct (productValidation_all _ Hv) as (Hp & Hc & Hsq & Hml & Hmax).
  destruct (new_row_reads now req s Hv) as [Hrs Hrm]. fold b row in Hrs, Hrm.
  destruct (stock_field _ Hsq) as (n & Hn & Hguard).
  assert (n = stockQuantity row) as ->.
  { pose proof (reads_integer _ _ _ Hn) as H.
    rewrite (reads_integer _ _ _ Hrs) in H. congruence. }
  unfold serve, createProduct, try_catch. fold b. rewrite Hv.
  cbn [is_nil negb].
  assert (Hsku : forall B (k : string -> M B),
             bind (if falsy (Create.sku b) then
                     category <- query (fun s0 =>
                       (inr (Category_findByPk (Create.categoryId b) s0), s0)) ;;
                     ret (generateSKU now
                            (or_string (option_map cat_name category) "GEN")
                            (trim (Create.name b)))
                   else ret (or_string (Create.sku b) ""))
                  k {| db := s; outage := None |}
             = k (sku_of now req s) {| db := s; outage := None |}).
  { intros B k. unfold sku_of. fold b. destruct (falsy _).
    - rewrite bind_assoc, bind_query_answers by discriminate. reflexivity.
    - reflexivity. }
  rewrite Hsku. rewrite bind_query_answers by discriminate.
  unfold Product_create at 1 2 3. cbn [Values.price Values.cost
    Values.stockQuantity Values.minStockLevel Values.maxStockLevel
    Values.sku Values.barcode Values.categoryId Values.supplierId].
  rewrite Hp, Hc, (reads_fails_min_0 _ _ Hrs), (reads_fails_min_0 _ _ Hrm),
    (below_zero_false _ Hmax), (reads_integer _ _ _ Hrs),
    (reads_integer _ _ _ Hrm). cbn [negb].
  fold (taken (sku_of now req s) (Create.barcode b) s).
  destruct (taken _ _ s); [reflexivity|].
  destruct (references_exist _ _ s); cbn [negb]; [|reflexivity].
  cbn [fst snd option_map].
  match goal with
  | |- context [bind _ _ {| db := ?d; outage := _ |}] =>
      change d with (with_product row s)
  end.
  match goal with
  | |- context [id ?r] =>
      match r with
      | {| id := _ |} => change r with row
      end
  end.
  unfold stored.
  destruct (Create.stockQuantity b) as [x|].
  - destruct Hguard as [Hgt Hpos]. rewrite Hgt.
    destruct (0 <? stockQuantity row) eqn:Hlt.
    + apply Z.ltb_lt in Hlt. destruct (Hpos Hlt) as [Hx Hnz].
      rewrite bind_assoc, bind_query_answers by discriminate.
      unfold Transaction_create_values. rewrite Hnz, Hx.
      cbn [fst snd option_map]. rewrite !bind_ret.
      unfold findByPk. rewrite bind_query_answers by discriminate.
      reflexivity.
    + rewrite !bind_ret.
      unfold findByPk. rewrite bind_query_answers by discriminate.
      reflexivity.
  - rewrite Hguard. cbn [Z.ltb Z.compare]. rewrite !bind_ret.
    unfold findByPk. rewrite bind_query_answers by discriminate.
    reflexivity.
Qed.

(** A valid request whose SKU and barcode are free and whose category
    and supplier exist, on a database that answers every query, is
    answered 201. *)
Lemma createProduct_succeeds (now : Z) (req : Create.req) (s : Store) :
  let b := Create.body_ req in
  productValidation b = [] ->
  taken (sku_of now req s) (Create.barcode b) s = false ->
  references_exist (Create.categoryId b) (Create.supplierId b) s = true ->
  status (fst (serve (createProduct now req) None s)) = 201.
Proof.
  intros b Hv Hfree Hrefs.
  rewrite (createProduct_unfold now req s Hv). fold b.
  now rewrite Hfree, Hrefs.
Qed.

(** C10.  The default threshold is lost when 0 arrives as text.  The
    chain [optional().isInt({ min: 0 })] lets the text "0" through
    without converting it, and ["0" || 10] is ["0"]: the gadget sent
    with [minStockLevel: "0"] passes validation, is answered 201 and
    is stored with threshold 0.  Sent with the number 0 it is stored
    with threshold 10. *)
Theorem createProduct_text_zero_threshold :
  let sent_as_text :=
    serve (createProduct 1700000000456 gadget_as_text) None shop in
  let sent_as_number :=
    serve (createProduct 1700000000456 gadget_zero) None shop in
  productValidation (Create.body_ gadget_as_text) = []
  /\ status (fst sent_as_text) = 201
  /\ option_map minStockLevel (Product_findByPk 2 (snd sent_as_text))
     = Some 0
  /\ status (fst sent_as_number) = 201
  /\ option_map minStockLevel (Product_findByPk 2 (snd sent_as_number))
     = Some 10.
Proof. vm_compute. repeat split; reflexivity. Qed.

(** X22.  The defaults of a creation.  A valid [createProduct] request
    with a free SKU and barcode and an existing category and supplier
    is answered 201 when the database answers; and whenever the answer
    is 201 the call has stored one new product such that: if
    [minStockLevel] was omitted or sent as the number 0 its threshold
    is 10, and if it was sent as a text its threshold is the integer
    that the text denotes; if [stockQuantity] was omitted or sent as
    the number 0 its stock is 0 and no movement was recorded; with
    both defaults it is low on stock at once. *)
Theorem createProduct_defaults
  (o : option nat) (now : Z) (req : Create.req) (s : Store) :
  let b := Create.body_ req in
  (productValidation b = [] ->
   taken (sku_of now req s) (Create.barcode b) s = false ->
   references_exist (Create.categoryId b) (Create.supplierId b) s = true ->
   status (fst (serve (createProduct now req) None s)) = 201)
  /\ (status (fst (serve (createProduct now req) o s)) = 201 ->
      exists row,
        products (snd (serve (createProduct now req) o s))
        = products s ++ [row]
        /\ (omitted_or_zero (Create.minStockLevel b) ->
            minStockLevel row = 10)
        /\ (forall text,
              Create.minStockLevel b = Some (Str text) ->
              text <> ""%string ->
              minStockLevel row = read_int text)
        /\ (omitted_or_zero (Create.stockQuantity b) ->
            stockQuantity row = 0
            /\ transactions (snd (serve (createProduct now req) o s))
               = transactions s)
        /\ (omitted_or_zero (Create.minStockLevel b) ->
            omitted_or_zero (Create.stockQuantity b) ->
            isLowStock row = true)).
Proof.
  intros b. split; [apply createProduct_succeeds|].
  pose proof (createProduct_effect o now req s) as Heff.
  destruct (serve (createProduct now req) o s) as [res s']. cbn [fst snd].
  intros Hok. destruct Heff as [[_ (row & Hnew & ->)] | [Hko _]];
    [|contradiction].
  destruct Hnew as [Hid Hst Hmin Hact Hpos]. fold b in Hst, Hmin.
  assert (Hm : omitted_or_zero (Create.minStockLevel b) ->
               minStockLevel row = 10).
  { intros [H | H]; rewrite H in Hmin; cbn in Hmin; congruence. }
  assert (Hs : omitted_or_zero (Create.stockQuantity b) ->
               stockQuantity row = 0).
  { intros [H | H]; rewrite H in Hst; cbn in Hst; congruence. }
  exists row. unfold stored.
  split; [destruct (0 <? stockQuantity row); reflexivity|].
  split; [exact Hm|].
  split.
  { intros text Htext Hne. rewrite Htext in Hmin. cbn in Hmin.
    assert (He : isEmpty text = false).
    { unfold isEmpty. apply String.eqb_neq. exact Hne. }
    rewrite He in Hmin. cbn in Hmin.
    destruct (int_literal text); congruence. }
  split.
  - intros H. split; [now apply Hs|]. rewrite (Hs H). reflexivity.
  - intros H1 H2. unfold isLowStock. rewrite (Hm H1), (Hs H2). reflexivity.
Qed.

(** ** Lookups after a write *)

Lemma findByPk_id (pid : Z) (s : Store) (p : Product) :
  Product_findByPk pid s = Some p -> id p = pid /\ In p (products s).
Proof.
  unfold Product_findByPk. intros H. apply find_some in H.
  destruct H as [Hin Heq]. apply Z.eqb_eq in Heq. now split.
Qed.

Lemma find_distinct (l : list Product) (p : Product) :
  NoDup (map id l) -> In p l ->
  find (fun row => id row =? id p) l = Some p.
Proof.
  induction l as [|r l IH]; cbn; [contradiction|].
  intros Hnd [-> | Hin].
  - now rewrite Z.eqb_refl.
  - inversion Hnd as [|? ? Hnotin Hnd']; subst.
    destruct (id r =? id p) eqn:Heq.
    + apply Z.eqb_eq in Heq. elim Hnotin. rewrite Heq. now apply in_map.
    + now apply IH.
Qed.

Lemma findByPk_distinct (s : Store) (p : Product) :
  NoDup (map id (products s)) -> In p (products s) ->
  Product_findByPk (id p) s = Some p.
Proof. apply find_distinct. Qed.

Lemma find_map_same_id (f : Product -> Product) (pid : Z) (l : list Product) :
  (forall row, id (f row) = id row) ->
  find (fun row => id row =? pid) (map f l)
  = option_map f (find (fun row => id row =? pid) l).
Proof.
  intros Hf. induction l as [|r l IH]; cbn; [reflexivity|].
  rewrite Hf. destruct (id r =? pid); [reflexivity | exact IH].
Qed.

Lemma map_id_same (f : Product -> Product) (l : list Product) :
  (forall row, id (f row) = id row) -> map id (map f l) = map id l.
Proof.
  intros Hf. rewrite map_map. apply map_ext. exact Hf.
Qed.

Lemma restock_id (target v : Z) (row : Product) :
  id (restock target v row) = id row.
Proof. unfold restock. destruct (id row =? target); reflexivity. Qed.

Lemma findByPk_adjusted (pid : Z) (req : Adjust.req) (p : Product) (s : Store) :
  Product_findByPk pid (adjusted req p s)
  = option_map
      (restock (id p) (stockQuantity p + Adjust.quantity (Adjust.body_ req)))
      (Product_findByPk pid s).
Proof.
  unfold Product_findByPk. cbn.
  apply (find_map_same_id (restock (id p) _)). apply restock_id.
Qed.

Lemma findByPk_with_product (pid : Z) (row : Product) (s : Store) :
  Product_findByPk pid (with_product row s)
  = match Product_findByPk pid s with
    | Some p => Some p
    | None => if id row =? pid then Some row else None
    end.
Proof.
  unfold Product_findByPk. cbn.
  induction (products s) as [|r l IH]; cbn; [reflexivity|].
  destruct (id r =? pid); [reflexivity | exact IH].
Qed.

Lemma lastMovement_snoc (pid : Z) (m : Transaction) (s s' : Store) :
  transactions s' = transactions s ++ [m] ->
  lastMovement pid s'
  = if productId m =? pid then Some m else lastMovement pid s.
Proof.
  intros H. unfold lastMovement. rewrite H, rev_app_distr. reflexivity.
Qed.

Lemma lastMovement_same (pid : Z) (s s' : Store) :
  transactions s' = transactions s -> lastMovement pid s' = lastMovement pid s.
Proof. intros H. unfold lastMovement. now rewrite H. Qed.

Lemma lastMovement_fresh (pid : Z) (s : Store) :
  (forall t, In t (transactions s) -> productId t < nextProductId s) ->
  nextProductId s <= pid ->
  lastMovement pid s = None.
Proof.
  intros Hbelow Hpid. unfold lastMovement.
  destruct (find _ _) as [t|] eqn:Hfind; [|reflexivity].
  apply find_some in Hfind. destruct Hfind as [Hin Heq].
  apply in_rev in Hin. apply Hbelow in Hin. apply Z.eqb_eq in Heq. lia.
Qed.

(** ** The ledger invariant, write by write *)

Lemma ledger_ok_adjusted (req : Adjust.req) (p : Product) (s : Store) :
  ledger_ok s ->
  Product_findByPk (Adjust.params_id req) s = Some p ->
  ledger_ok (adjusted req p s).
Proof.
  intros [Hnd Hpb Hmb Hlat] Hfind.
  destruct (findByPk_id _ _ _ Hfind) as [Hid Hin].
  pose (v := stockQuantity p + Adjust.quantity (Adjust.body_ req)).
  assert (Hprods : products (adjusted req p s)
                   = map (restock (id p) v) (products s)) by reflexivity.
  assert (Htx : transactions (adjusted req p s)
                = transactions s ++ [recorded req p s]) by reflexivity.
  constructor.
  - rewrite Hprods, map_id_same; [assumption | apply restock_id].
  - intros p' Hin'. rewrite Hprods in Hin'. apply in_map_iff in Hin'.
    destruct Hin' as (row & <- & Hrow). rewrite restock_id.
    cbn. now apply Hpb.
  - intros t Hin'. rewrite Htx in Hin'. apply in_app_or in Hin'.
    cbn [nextProductId adjusted].
    destruct Hin' as [Hin' | [<- | []]]; [now apply Hmb|].
    cbn. now apply Hpb.
  - intros p' m Hin'. rewrite (lastMovement_snoc _ _ _ _ Htx).
    rewrite Hprods in Hin'. apply in_map_iff in Hin'.
    destruct Hin' as (row & <- & Hrow). rewrite restock_id.
    unfold restock. cbn [productId recorded].
    rewrite (Z.eqb_sym (id p) (id row)).
    destruct (id row =? id p).
    + intros [= <-]. reflexivity.
    + now apply Hlat.
Qed.

Lemma ledger_ok_with_product (req : Create.req) (row : Product) (s : Store) :
  ledger_ok s -> is_new_row req s row -> ledger_ok (with_product row s).
Proof.
  intros [Hnd Hpb Hmb Hlat] [Hid _ _ _ _].
  constructor; cbn [products transactions nextProductId with_product].
  - rewrite map_app. cbn. apply NoDup_app.
    + assumption.
    + constructor; [intros [] | constructor].
    + intros x Hx [<- | []]. apply in_map_iff in Hx.
      destruct Hx as (r & Hr & Hin). apply Hpb in Hin. lia.
  - intros p Hin. apply in_app_or in Hin.
    destruct Hin as [Hin | [<- | []]]; [apply Hpb in Hin|]; lia.
  - intros t Hin. apply Hmb in Hin. lia.
  - intros p m Hin.
    rewrite (lastMovement_same _ s (with_product row s) eq_refl).
    apply in_app_or in Hin. destruct Hin as [Hin | [<- | []]].
    + now apply Hlat.
    + rewrite (lastMovement_fresh _ _ Hmb); [discriminate | lia].
Qed.

Lemma ledger_ok_initial_movement (req : Create.req) (row : Product) (s : Store) :
  ledger_ok s -> is_new_row req s row ->
  ledger_ok (with_movement (initial_movement req row (with_product row s))
                           (with_product row s)).
Proof.
  intros Hok Hnew.
  pose proof (ledger_ok_with_product req row s Hok Hnew) as [Hnd Hpb Hmb Hlat].
  destruct Hok as [Hnd0 Hpb0 _ _]. destruct Hnew as [Hid _ _ _ _].
  set (s1 := with_product row s) in *.
  constructor; cbn [products transactions nextProductId with_movement].
  - assumption.
  - assumption.
  - intros t Hin. apply in_app_or in Hin.
    destruct Hin as [Hin | [<- | []]]; [now apply Hmb|].
    cbn. lia.
  - intros p m Hin.
    rewrite (lastMovement_snoc _ (initial_movement req row s1) s1
               (with_movement (initial_movement req row s1) s1) eq_refl).
    cbn [productId initial_movement].
    destruct (id row =? id p) eqn:Heq; [|now apply Hlat].
    intros [= <-]. cbn. apply Z.eqb_eq in Heq.
    unfold s1 in Hin. cbn in Hin. apply in_app_or in Hin.
    destruct Hin as [Hin | [<- | []]]; [|reflexivity].
    apply Hpb0 in Hin. lia.
Qed.

Lemma ledger_ok_skip_key (s : Store) : ledger_ok s -> ledger_ok (skip_key s).
Proof.
  intros [Hnd Hpb Hmb Hlat].
  constructor; cbn [products transactions nextProductId skip_key].
  - assumption.
  - intros p Hin. apply Hpb in Hin. lia.
  - intros t Hin. apply Hmb in Hin. lia.
  - exact Hlat.
Qed.

Lemma ledger_ok_creation (req : Create.req) (s s' : Store) :
  ledger_ok s -> creation req s s' -> ledger_ok s'.
Proof.
  intros Hok [| | row Hnew | row Hnew _].
  - assumption.
  - now apply ledger_ok_skip_key.
  - now apply (ledger_ok_with_product req).
  - now apply ledger_ok_initial_movement.
Qed.

(** ** One call *)

Lemma createProduct_creation (o : option nat) (now : Z) (req : Create.req)
  (s : Store) :
  creation req s (snd (serve (createProduct now req) o s)).
Proof.
  pose proof (createProduct_effect o now req s) as Heff.
  destruct (serve (createProduct now req) o s) as [res s']. cbn [snd].
  destruct Heff as [[_ (row & Hnew & ->)] | [_ H]]; [|exact H].
  unfold stored. destruct (0 <? stockQuantity row) eqn:Hpos.
  - apply creation_both; [assumption | now apply Z.ltb_lt].
  - now apply creation_product.
Qed.

(** The databases that an [adjustStock] call can leave. *)
Lemma adjustStock_leaves (o : option nat) (req : Adjust.req) (s : Store) :
  let s' := snd (serve (adjustStock req) o s) in
  s' = s
  \/ exists p,
       Product_findByPk (Adjust.params_id req) s = Some p
       /\ stockAdjustmentValidation (Adjust.body_ req) = []
       /\ 0 <= stockQuantity p + Adjust.quantity (Adjust.body_ req)
       /\ (s' = adjusted req p s \/ torn o /\ s' = restocked req p s).
Proof.
  cbn zeta. adjust_cases o req s; try (now left);
    right; eexists; (split; [reflexivity|]); (split; [reflexivity|]);
    apply Z.ltb_ge in Hlt; (split; [exact Hlt|]);
    try (now left); right; split; reflexivity.
Qed.

Lemma perform_ledger_ok (c : Call) (s : Store) :
  whole c -> ledger_ok s -> ledger_ok (snd (perform c s)).
Proof.
  destruct c as [o now req | o req]; cbn [perform whole]; intros Hw Hok.
  - exact (ledger_ok_creation req s _ Hok (createProduct_creation o now req s)).
  - destruct (adjustStock_leaves o req s)
      as [-> | (p & Hfind & _ & _ & [-> | [Ht _]])].
    + assumption.
    + now apply ledger_ok_adjusted.
    + contradiction.
Qed.

Lemma find_app_none {A} (f : A -> bool) (l1 l2 : list A) :
  find f (l1 ++ l2) = None -> find f l2 = None.
Proof.
  induction l1 as [|a l1 IH]; cbn; [auto|].
  destruct (f a); [discriminate | exact IH].
Qed.

Lemma lastMovement_grows (pid : Z) (s s' : Store) (l : list Transaction) :
  transactions s' = transactions s ++ l ->
  lastMovement pid s' = None -> lastMovement pid s = None.
Proof.
  unfold lastMovement. intros ->. rewrite rev_app_distr. apply find_app_none.
Qed.

(** Movements are only ever appended. *)
Lemma perform_appends (c : Call) (s : Store) :
  exists l, transactions (snd (perform c s)) = transactions s ++ l.
Proof.
  destruct c as [o now req | o req]; cbn [perform].
  - destruct (createProduct_creation o now req s) as [| | row _ | row _ _].
    + exists []. now rewrite app_nil_r.
    + exists []. cbn. now rewrite app_nil_r.
    + exists []. cbn. now rewrite app_nil_r.
    + eexists. reflexivity.
  - destruct (adjustStock_leaves o req s)
      as [-> | (p & _ & _ & _ & [-> | [_ ->]])].
    + exists []. now rewrite app_nil_r.
    + eexists. reflexivity.
    + exists []. cbn. now rewrite app_nil_r.
Qed.

(** A product stays, and keeps its stock as long as it has no movement. *)
Lemma perform_keeps (c : Call) (s : Store) (pid : Z) (p : Product) :
  whole c ->
  Product_findByPk pid s = Some p ->
  exists p',
    Product_findByPk pid (snd (perform c s)) = Some p'
    /\ (lastMovement pid (snd (perform c s)) = None ->
        stockQuantity p' = stockQuantity p).
Proof.
  destruct c as [o now req | o req]; cbn [perform whole]; intros Hw Hfind.
  - destruct (createProduct_creation o now req s) as [| | row _ | row _ _].
    + now exists p.
    + exists p. now split.
    + exists p. rewrite findByPk_with_product, Hfind. now split.
    + exists p. split; [|reflexivity].
      change (Product_findByPk pid (with_product row s) = Some p).
      now rewrite findByPk_with_product, Hfind.
  - destruct (adjustStock_leaves o req s)
      as [-> | (p0 & Hfind0 & _ & _ & [-> | [Ht _]])];
      [now exists p | | contradiction].
    rewrite findByPk_adjusted, Hfind. cbn [option_map].
    eexists. split; [reflexivity|].
    rewrite (lastMovement_snoc pid (recorded req p0 s) s (adjusted req p0 s) eq_refl).
    cbn [productId recorded]. unfold restock.
    destruct (findByPk_id _ _ _ Hfind) as [<- _].
    rewrite (Z.eqb_sym (id p0) (id p)).
    destruct (id p =? id p0); [discriminate | reflexivity].
Qed.

(** ** Sequences of calls *)

Lemma final_ledger_ok (calls : list Call) (s : Store) :
  Forall whole calls -> ledger_ok s -> ledger_ok (final calls s).
Proof.
  revert s. induction calls as [|c calls IH]; intros s Hw Hok; [exact Hok|].
  inversion Hw; subst. cbn. apply IH; [assumption|].
  now apply perform_ledger_ok.
Qed.

Lemma final_appends (calls : list Call) (s : Store) :
  exists l, transactions (final calls s) = transactions s ++ l.
Proof.
  revert s. induction calls as [|c calls IH]; intros s; cbn.
  - exists []. now rewrite app_nil_r.
  - destruct (IH (snd (perform c s))) as [l2 H2].
    destruct (perform_appends c s) as [l1 H1].
    exists (l1 ++ l2). now rewrite H2, H1, app_assoc.
Qed.

Lemma final_keeps (calls : list Call) (s : Store) (pid : Z) (p : Product) :
  Forall whole calls ->
  Product_findByPk pid s = Some p ->
  exists p',
    Product_findByPk pid (final calls s) = Some p'
    /\ (lastMovement pid (final calls s) = None ->
        stockQuantity p' = stockQuantity p).
Proof.
  revert s p. induction calls as [|c calls IH]; intros s p Hw Hfind; cbn.
  - now exists p.
  - inversion Hw as [|? ? Hc Hcalls]; subst.
    destruct (perform_keeps c s pid p Hc Hfind) as (p1 & Hfind1 & Hkeep1).
    destruct (IH _ p1 Hcalls Hfind1) as (p' & Hfind' & Hkeep').
    exists p'. split; [assumption|]. intros Hnone.
    rewrite (Hkeep' Hnone). apply Hkeep1.
    destruct (final_appends calls (snd (perform c s))) as [l Hl].
    exact (lastMovement_grows pid _ _ l Hl Hnone).
Qed.

Lemma initialStock_by_key (calls : list Call) (s : Store) (pid : Z)
  (p : Product) :
  Forall whole calls ->
  Product_findByPk pid (final calls s) = Some p ->
  lastMovement pid (final calls s) = None ->
  initialStock pid (history calls s) = Some (stockQuantity p).
Proof.
  revert s. induction calls as [|c calls IH]; intros s Hw Hfind Hnone.
  - cbn in *. unfold initialStock. cbn. unfold exists_in.
    rewrite Hfind. cbn. now rewrite Hfind.
  - destruct (Product_findByPk pid s) as [p0|] eqn:Hfind0.
    + destruct (final_keeps (c :: calls) s pid p0 Hw Hfind0)
        as (p' & Hfind' & Hkeep).
      rewrite Hfind in Hfind'. injection Hfind' as <-.
      unfold initialStock. cbn [history find]. unfold exists_in at 1.
      rewrite Hfind0. cbn. rewrite Hfind0. cbn. now rewrite (Hkeep Hnone).
    + inversion Hw; subst.
      unfold initialStock. cbn [history find]. unfold exists_in at 1.
      rewrite Hfind0. now apply IH.
Qed.

Lemma ledger_ok_seeded : ledger_ok seeded.
Proof.
  constructor; cbn; try contradiction. constructor.
Qed.

(** An [adjustStock] call that is not torn and is not answered 200
    leaves the database as it was. *)
Lemma adjustStock_rejects (o : option nat) (req : Adjust.req) (s : Store) :
  ~ torn o ->
  status (fst (serve (adjustStock req) o s)) <> 200 ->
  snd (serve (adjustStock req) o s) = s.
Proof.
  intros Ho. adjust_cases o req s; try reflexivity.
  all: try (intros H; now elim H).
  now elim Ho.
Qed.

(** ** Stock and latest movement *)

(** C1, as amended.  Start from a database that satisfies the ledger
    invariant and run any sequence of [createProduct] and
    [adjustStock] calls, successful or not, in which no [adjustStock]
    has its INSERT rejected after its UPDATE.  Then the stock of every
    product is the [newStock] of its most recent movement, or the
    stock it was created with if it has no movement.  And an
    [adjustStock] call that is not answered 200 alters no stock and
    creates no movement: it leaves the database as it was. *)
Theorem stock_matches_latest_movement (calls : list Call) (s : Store) :
  ledger_ok s ->
  Forall whole calls ->
  explained (history calls s) (final calls s)
  /\ (forall o req s1,
        ~ torn o ->
        status (fst (serve (adjustStock req) o s1)) <> 200 ->
        snd (serve (adjustStock req) o s1) = s1).
Proof.
  intros Hok Hw. split.
  - pose proof (final_ledger_ok calls s Hw Hok) as Hfinal.
    intros p Hin.
    pose proof (findByPk_distinct _ p (ids_distinct _ Hfinal) Hin) as Hfind.
    destruct (lastMovement (id p) (final calls s)) as [m|] eqn:Hlast.
    + exact (stock_is_latest _ Hfinal p m Hin Hlast).
    + now apply initialStock_by_key.
  - intros o req s1. apply adjustStock_rejects.
Qed.

Lemma stock_matches_latest_movement_witness :
  explained (history example_calls seeded)
            (final example_calls seeded)
  /\ (forall o req s1,
        ~ torn o ->
        status (fst (serve (adjustStock req) o s1)) <> 200 ->
        snd (serve (adjustStock req) o s1) = s1).
Proof.
  apply (stock_matches_latest_movement example_calls seeded).
  - apply ledger_ok_seeded.
  - repeat constructor; unfold torn; discriminate.
Defined.

(** C1, the claim as stated fails: the product is created with stock
    10 and its initial movement; an adjustment by -7 is answered 500
    because its INSERT is rejected, and yet the stock is now 3 while
    the most recent movement still says 10. *)
Lemma failed_call_alters_stock :
  ~ explained (history torn_calls seeded) (final torn_calls seeded).
Proof.
  intros H.
  specialize (H (set_stockQuantity widget_row 3)
                (or_introl eq_refl)).
  vm_compute in H. discriminate.
Qed.

(** ** Stored movements *)

Lemma recorded_ok (req : Adjust.req) (p : Product) (s : Store) :
  stockAdjustmentValidation (Adjust.body_ req) = [] ->
  0 <= stockQuantity p + Adjust.quantity (Adjust.body_ req) ->
  movement_ok (recorded req p s).
Proof.
  intros Hv Hnew. destruct (validation_passes _ Hv) as [Hq _].
  unfold movement_ok, recorded. cbn.
  destruct (0 <? Adjust.quantity (Adjust.body_ req)) eqn:Hpos.
  - apply Z.ltb_lt in Hpos. repeat split; lia.
  - apply Z.ltb_ge in Hpos. repeat split; lia.
Qed.

Lemma perform_movements_ok (c : Call) (s : Store) :
  Forall movement_ok (transactions s) ->
  Forall movement_ok (transactions (snd (perform c s))).
Proof.
  intros Hok. destruct c as [o now req | o req]; cbn [perform].
  - destruct (createProduct_creation o now req s) as [| | row _ | row _ Hpos];
      try assumption.
    cbn. apply Forall_app. split; [assumption|].
    constructor; [|constructor].
    unfold movement_ok. cbn. repeat split; lia.
  - destruct (adjustStock_leaves o req s)
      as [-> | (p & _ & Hv & Hnew & [-> | [_ ->]])]; try assumption.
    cbn. apply Forall_app. split; [assumption|].
    constructor; [|constructor]. now apply recorded_ok.
Qed.

(** C2.  A quantity sent as text breaks the arithmetic of the stored
    movement.  The chain [isInt()] passes the text "5" unconverted and
    [previousStock + quantity] concatenates: on the widget, with stock
    10, the call is answered 200, the stock becomes 105 and the
    movement stored is [in], quantity 5, from 10 to 105, for which
    [newStock = previousStock + quantity] fails. *)
Theorem text_quantity_breaks_movement :
  let answer := serve (Wire.adjustStock (adjust_text "5")) None shop in
  Wire.stockAdjustmentValidation (Wire.body_ (adjust_text "5")) = []
  /\ status (fst answer) = 200
  /\ stock_of 1 shop = Some 10
  /\ stock_of 1 (snd answer) = Some 105
  /\ exists m,
       transactions (snd answer) = transactions shop ++ [m]
       /\ type m = type_in
       /\ quantity m = 5
       /\ previousStock m = 10
       /\ newStock m = 105
       /\ ~ movement_ok m.
Proof.
  cbv zeta. repeat (split; [vm_compute; reflexivity|]).
  eexists. split; [vm_compute; reflexivity|].
  repeat (split; [reflexivity|]).
  intros [H _]. cbn in H. discriminate H.
Qed.

(** X23.  Whatever calls are made with quantities sent as numbers,
    and whatever the database rejects, every stored movement has kind
    [in] with [newStock = previousStock + quantity] or kind [out] with
    [newStock = previousStock - quantity], a [newStock] that is not
    negative and a positive, hence nonzero, quantity.  The movement
    of a successful [adjustStock] stores the absolute value of the
    requested quantity, with kind [in] for a positive request and
    [out] for a negative one. *)
Theorem stored_movements_well_formed (calls : list Call) (s : Store) :
  Forall movement_ok (transactions s) ->
  Forall movement_ok (transactions (final calls s))
  /\ (forall o req s1,
        status (fst (serve (adjustStock req) o s1)) = 200 ->
        exists m,
          transactions (snd (serve (adjustStock req) o s1))
          = transactions s1 ++ [m]
          /\ quantity m = Z.abs (Adjust.quantity (Adjust.body_ req))
          /\ (0 < Adjust.quantity (Adjust.body_ req) -> type m = type_in)
          /\ (Adjust.quantity (Adjust.body_ req) < 0 -> type m = type_out)).
Proof.
  intros Hok. split.
  - revert s Hok. induction calls as [|c calls IH]; intros s Hok; cbn.
    + assumption.
    + apply IH. now apply perform_movements_ok.
  - intros o req s1. adjust_cases o req s1; try discriminate; intros _;
      eexists; (split; [reflexivity|]); cbn; (split; [reflexivity|]);
      split; intros Hq.
    all: try (apply Z.ltb_lt in Hq; now rewrite Hq).
    all: assert (Hn : (0 <? Adjust.quantity (Adjust.body_ req)) = false)
           by (apply Z.ltb_ge; lia); now rewrite Hn.
Qed.

Lemma stored_movements_well_formed_witness :
  Forall movement_ok (transactions (final example_calls seeded))
  /\ (forall o req s1,
        status (fst (serve (adjustStock req) o s1)) = 200 ->
        exists m,
          transactions (snd (serve (adjustStock req) o s1))
          = transactions s1 ++ [m]
          /\ quantity m = Z.abs (Adjust.quantity (Adjust.body_ req))
          /\ (0 < Adjust.quantity (Adjust.body_ req) -> type m = type_in)
          /\ (Adjust.quantity (Adjust.body_ req) < 0 -> type m = type_out)).
Proof.
  apply (stored_movements_well_formed example_calls seeded).
  constructor.
Defined.

(** ** Two calls at once *)

(** Alone, the step machine is the handler: three turns of a pending
    call end where [adjustStock] ends on a database that answers. *)
Lemma steps_alone (req : Adjust.req) (s : Store) :
  Concurrent.steps 3 (Concurrent.Pending req) s
  = (Concurrent.Done (fst (serve (adjustStock req) None s)),
     snd (serve (adjustStock req) None s)).
Proof.
  rewrite adjustStock_unfold. unfold adjustStock_outcome.
  cbn [Concurrent.steps Concurrent.step].
  destruct (stockAdjustmentValidation (Adjust.body_ req)) eqn:Hv;
    cbn [is_nil negb]; [|reflexivity].
  destruct (validation_passes _ Hv) as [Hq _].
  destruct (Product_findByPk (Adjust.params_id req) s) as [p|];
    cbn [Concurrent.step]; [|reflexivity].
  destruct (stockQuantity p + Adjust.quantity (Adjust.body_ req) <? 0) eqn:Hlt;
    [reflexivity|].
  unfold Product_update_stockQuantity. rewrite Hlt.
  cbn [Concurrent.step]. unfold Transaction_create.
  cbn [transactions nextTransactionId].
  rewrite (abs_eqb_zero _ Hq). reflexivity.
Qed.

Lemma run_first_thrice (rest : list bool) (p : Concurrent.Pool) :
  Concurrent.run (false :: false :: false :: rest) p
  = Concurrent.run rest
      {| Concurrent.first :=
           fst (Concurrent.steps 3 (Concurrent.first p) (Concurrent.shared p));
         Concurrent.second := Concurrent.second p;
         Concurrent.shared :=
           snd (Concurrent.steps 3 (Concurrent.first p) (Concurrent.shared p)) |}.
Proof.
  cbn [Concurrent.run Concurrent.steps].
  destruct (Concurrent.step (Concurrent.first p) (Concurrent.shared p))
    as [t1 s1]. cbn [Concurrent.first Concurrent.second Concurrent.shared].
  destruct (Concurrent.step t1 s1) as [t2 s2].
  cbn [Concurrent.first Concurrent.second Concurrent.shared].
  destruct (Concurrent.step t2 s2) as [t3 s3]. reflexivity.
Qed.

Lemma run_second_thrice (rest : list bool) (p : Concurrent.Pool) :
  Concurrent.run (true :: true :: true :: rest) p
  = Concurrent.run rest
      {| Concurrent.first := Concurrent.first p;
         Concurrent.second :=
           fst (Concurrent.steps 3 (Concurrent.second p) (Concurrent.shared p));
         Concurrent.shared :=
           snd (Concurrent.steps 3 (Concurrent.second p) (Concurrent.shared p)) |}.
Proof.
  cbn [Concurrent.run Concurrent.steps].
  destruct (Concurrent.step (Concurrent.second p) (Concurrent.shared p))
    as [t1 s1]. cbn [Concurrent.first Concurrent.second Concurrent.shared].
  destruct (Concurrent.step t1 s1) as [t2 s2].
  cbn [Concurrent.first Concurrent.second Concurrent.shared].
  destruct (Concurrent.step t2 s2) as [t3 s3]. reflexivity.
Qed.

(** A serial schedule is one call after the other. *)
Lemma shared_serial (r1 r2 : Adjust.req) (s : Store) :
  Concurrent.shared (Concurrent.run Concurrent.serial (Concurrent.start r1 r2 s))
  = snd (serve (adjustStock r2) None (snd (serve (adjustStock r1) None s))).
Proof.
  unfold Concurrent.serial, Concurrent.start.
  rewrite run_first_thrice.
  cbn [Concurrent.first Concurrent.second Concurrent.shared].
  rewrite steps_alone. cbn [fst snd].
  rewrite run_second_thrice.
  cbn [Concurrent.first Concurrent.second Concurrent.shared].
  rewrite steps_alone. reflexivity.
Qed.

Lemma shared_serial_rev (r1 r2 : Adjust.req) (s : Store) :
  Concurrent.shared
    (Concurrent.run Concurrent.serial_rev (Concurrent.start r1 r2 s))
  = snd (serve (adjustStock r1) None (snd (serve (adjustStock r2) None s))).
Proof.
  unfold Concurrent.serial_rev, Concurrent.start.
  rewrite run_second_thrice.
  cbn [Concurrent.first Concurrent.second Concurrent.shared].
  rewrite steps_alone. cbn [fst snd].
  rewrite run_first_thrice.
  cbn [Concurrent.first Concurrent.second Concurrent.shared].
  rewrite steps_alone. reflexivity.
Qed.

(** ** Every interleaving of two calls *)

Lemma complete_interleaving (schedule : list bool) :
  complete schedule -> In schedule (interleavings 3 3).
Proof.
  unfold complete. intros [H1 H2].
  repeat (match goal with
          | sch : list bool |- _ => destruct sch as [|[] sch]
          end;
          cbn in H1, H2; try discriminate H1; try discriminate H2).
  all: cbn; tauto.
Qed.

(** One turn of a schedule. *)
Lemma run_turn_first (rest : list bool) (pool : Concurrent.Pool) :
  Concurrent.run (false :: rest) pool
  = Concurrent.run rest
      {| Concurrent.first :=
           fst (Concurrent.step (Concurrent.first pool)
                  (Concurrent.shared pool));
         Concurrent.second := Concurrent.second pool;
         Concurrent.shared :=
           snd (Concurrent.step (Concurrent.first pool)
                  (Concurrent.shared pool)) |}.
Proof.
  cbn [Concurrent.run].
  now destruct (Concurrent.step (Concurrent.first pool)
                  (Concurrent.shared pool)).
Qed.

Lemma run_turn_second (rest : list bool) (pool : Concurrent.Pool) :
  Concurrent.run (true :: rest) pool
  = Concurrent.run rest
      {| Concurrent.first := Concurrent.first pool;
         Concurrent.second :=
           fst (Concurrent.step (Concurrent.second pool)
                  (Concurrent.shared pool));
         Concurrent.shared :=
           snd (Concurrent.step (Concurrent.second pool)
                  (Concurrent.shared pool)) |}.
Proof.
  cbn [Concurrent.run].
  now destruct (Concurrent.step (Concurrent.second pool)
                  (Concurrent.shared pool)).
Qed.

(** The three turns of a call on product [p], on the database as the
    calls found it and on the database in their middle. *)
Lemma select_at_start (r : Adjust.req) (s : Store) (p : Product) :
  stockAdjustmentValidation (Adjust.body_ r) = [] ->
  Product_findByPk (Adjust.params_id r) s = Some p ->
  Concurrent.step (Concurrent.Pending r) s
  = (Concurrent.Found r (Some p), s).
Proof.
  intros Hv Hfind. cbn [Concurrent.step]. rewrite Hv. cbn [is_nil negb].
  now rewrite Hfind.
Qed.

Lemma findByPk_amid (pk : Z) (s : Store) (p : Product) (v : Z)
  (t : list Transaction) (n : Z) :
  Product_findByPk pk s = Some p ->
  Product_findByPk pk (amid p v t n s) = Some (set_stockQuantity p v).
Proof.
  intros Hfind. unfold Product_findByPk, amid. cbn [products].
  rewrite (find_map_same_id
             (fun row => if id row =? id p then set_stockQuantity row v
                         else row)).
  - fold (Product_findByPk pk s). rewrite Hfind. cbn [option_map].
    now rewrite Z.eqb_refl.
  - intros row. destruct (id row =? id p); reflexivity.
Qed.

Lemma select_amid (r : Adjust.req) (s : Store) (p : Product) (v : Z)
  (t : list Transaction) (n : Z) :
  stockAdjustmentValidation (Adjust.body_ r) = [] ->
  Product_findByPk (Adjust.params_id r) s = Some p ->
  Concurrent.step (Concurrent.Pending r) (amid p v t n s)
  = (Concurrent.Found r (Some (set_stockQuantity p v)), amid p v t n s).
Proof.
  intros Hv Hfind. cbn [Concurrent.step]. rewrite Hv. cbn [is_nil negb].
  now rewrite (findByPk_amid _ s p v t n Hfind).
Qed.

Lemma update_at_start (r : Adjust.req) (s : Store) (p p' : Product) :
  id p' = id p ->
  0 <= stockQuantity p' + Adjust.quantity (Adjust.body_ r) ->
  Concurrent.step (Concurrent.Found r (Some p')) s
  = (Concurrent.Updated r p' (stockQuantity p')
       (stockQuantity p' + Adjust.quantity (Adjust.body_ r)),
     amid p (stockQuantity p' + Adjust.quantity (Adjust.body_ r))
       (transactions s) (nextTransactionId s) s).
Proof.
  intros Hid Hnew. apply Z.ltb_ge in Hnew.
  cbn [Concurrent.step]. rewrite Hnew.
  unfold Product_update_stockQuantity. rewrite Hnew, Hid. reflexivity.
Qed.

Lemma update_amid (r : Adjust.req) (s : Store) (p p' : Product) (v : Z)
  (t : list Transaction) (n : Z) :
  id p' = id p ->
  0 <= stockQuantity p' + Adjust.quantity (Adjust.body_ r) ->
  Concurrent.step (Concurrent.Found r (Some p')) (amid p v t n s)
  = (Concurrent.Updated r p' (stockQuantity p')
       (stockQuantity p' + Adjust.quantity (Adjust.body_ r)),
     amid p (stockQuantity p' + Adjust.quantity (Adjust.body_ r)) t n s).
Proof.
  intros Hid Hnew. apply Z.ltb_ge in Hnew.
  cbn [Concurrent.step]. rewrite Hnew.
  unfold Product_update_stockQuantity. rewrite Hnew, Hid.
  unfold amid.
  cbn [products transactions categories suppliers nextProductId
       nextTransactionId].
  rewrite map_map. do 2 f_equal. apply map_ext. intros row.
  destruct (id row =? id p) eqn:Hrow; cbn [id set_stockQuantity];
    now rewrite Hrow.
Qed.

Lemma insert_amid (r : Adjust.req) (s : Store) (p p' : Product)
  (from v : Z) (t : list Transaction) (n : Z) :
  stockAdjustmentValidation (Adjust.body_ r) = [] ->
  id p' = id p ->
  Concurrent.step
    (Concurrent.Updated r p' from (from + Adjust.quantity (Adjust.body_ r)))
    (amid p v t n s)
  = (Concurrent.Done
       (json 200
          (adjusted_body "Stock adjusted successfully" (id p') (name p')
             from (from + Adjust.quantity (Adjust.body_ r))
             (Adjust.quantity (Adjust.body_ r)))),
     amid p v (t ++ [movement_from r p from n]) (n + 1) s).
Proof.
  intros Hv Hid. destruct (validation_passes _ Hv) as [Hq _].
  cbn [Concurrent.step]. unfold Transaction_create.
  rewrite (abs_eqb_zero _ Hq), Hid. reflexivity.
Qed.

Lemma stock_of_amid (pk : Z) (s : Store) (p : Product) (v : Z)
  (t : list Transaction) (n : Z) :
  Product_findByPk pk s = Some p ->
  stock_of pk (amid p v t n s) = Some v.
Proof.
  intros Hfind. unfold stock_of.
  now rewrite (findByPk_amid pk s p v t n Hfind).
Qed.

Section Interleavings.

Variables (r1 r2 : Adjust.req) (s : Store) (p : Product).

Hypothesis Hv1 : stockAdjustmentValidation (Adjust.body_ r1) = [].
Hypothesis Hv2 : stockAdjustmentValidation (Adjust.body_ r2) = [].
Hypothesis Hfind1 : Product_findByPk (Adjust.params_id r1) s = Some p.
Hypothesis Hfind2 : Product_findByPk (Adjust.params_id r2) s = Some p.
Hypothesis Hn1 : 0 <= stockQuantity p + Adjust.quantity (Adjust.body_ r1).
Hypothesis Hn2 : 0 <= stockQuantity p + Adjust.quantity (Adjust.body_ r2).
Hypothesis Hn12 :
  0 <= stockQuantity p + Adjust.quantity (Adjust.body_ r1)
       + Adjust.quantity (Adjust.body_ r2).

Ltac side :=
  first [ assumption
        | reflexivity
        | cbn [stockQuantity set_stockQuantity]; lia ].

Ltac turn :=
  first [rewrite run_turn_first | rewrite run_turn_second];
  cbn [Concurrent.first Concurrent.second Concurrent.shared];
  first [ rewrite (select_at_start _ s p) by side
        | rewrite (select_amid _ s p) by side
        | rewrite (update_at_start _ s p) by side
        | rewrite (update_amid _ s p) by side
        | rewrite (insert_amid _ s p) by side ];
  cbn [fst snd stockQuantity set_stockQuantity].

Lemma interleaving_outcome (schedule : list bool) :
  In schedule (interleavings 3 3) ->
  outcome_of schedule r1 r2 (stockQuantity p) s
    (Concurrent.shared (Concurrent.run schedule (Concurrent.start r1 r2 s))).
Proof.
  intros H. cbv [interleavings repeat map app] in H. cbn [In] in H.
  repeat (destruct H as [<- | H]); [..|contradiction].
  all: unfold outcome_of, Concurrent.start; do 6 turn;
    cbn [Concurrent.run Concurrent.shared];
    match goal with
    | |- context [movement_from r1 p ?f1 ?k1] =>
        match goal with
        | |- context [movement_from r2 p ?f2 ?k2] =>
            exists (movement_from r1 p f1 k1), (movement_from r2 p f2 k2)
        end
    end;
    cbn [transactions amid]; rewrite <- app_assoc; cbn [app];
    (split; [first [left; reflexivity | right; reflexivity]|]);
    (split; [reflexivity|]); (split; [reflexivity|]);
    cbn [overlap xorb last_writer writers Nat.eqb app last];
    rewrite (stock_of_amid _ s p) by assumption;
    unfold chained; cbn [previousStock newStock movement_from];
    first [ split; [f_equal; lia | left; repeat split; lia]
          | split; [f_equal; lia | right; repeat split; lia]
          | repeat split; f_equal; lia ].
Qed.

End Interleavings.

(** C6, as amended.  Two valid adjustments of the same product, each
    of which and both of which together leave the stock non-negative
    (as -5 and +3 do from 10), run at once: each makes its three
    turns, SELECT, UPDATE and INSERT, and the turns interleave in any
    of the twenty ways.  Every time, two movements are stored, one of
    each call, each adding its quantity to the stock that its call
    read.  When one call writes before the other reads, the movements
    chain and the stock moves by both quantities, as if the calls had
    run one after the other.  When both calls read before either
    writes, both movements start from the same stock and the product
    is left with what the later UPDATE wrote: the other update is
    lost.  So the two calls compose exactly when they do not overlap;
    the handler does nothing to make them take turns. *)
Theorem adjustments_compose_unless_overlapped
  (schedule : list bool) (r1 r2 : Adjust.req) (s : Store) (p : Product) :
  let q1 := Adjust.quantity (Adjust.body_ r1) in
  let q2 := Adjust.quantity (Adjust.body_ r2) in
  let s' :=
    Concurrent.shared (Concurrent.run schedule (Concurrent.start r1 r2 s)) in
  stockAdjustmentValidation (Adjust.body_ r1) = [] ->
  stockAdjustmentValidation (Adjust.body_ r2) = [] ->
  Adjust.params_id r2 = Adjust.params_id r1 ->
  Product_findByPk (Adjust.params_id r1) s = Some p ->
  0 <= stockQuantity p + q1 ->
  0 <= stockQuantity p + q2 ->
  0 <= stockQuantity p + q1 + q2 ->
  complete schedule ->
  outcome_of schedule r1 r2 (stockQuantity p) s s'
  /\ (composes schedule r1 r2 s <-> overlap schedule = false).
Proof.
  intros q1 q2 s' Hv1 Hv2 Hsame Hfind Hn1 Hn2 Hn12 Hall.
  assert (Hfind2 : Product_findByPk (Adjust.params_id r2) s = Some p)
    by now rewrite Hsame.
  pose proof (interleaving_outcome r1 r2 s p Hv1 Hv2 Hfind Hfind2
                Hn1 Hn2 Hn12 schedule (complete_interleaving _ Hall)) as Hout.
  fold s' in Hout. split; [exact Hout|].
  destruct (validation_passes _ Hv1) as [Hq1 _].
  destruct (validation_passes _ Hv2) as [Hq2 _].
  destruct Hout as (m1 & m2 & Htx & Hm1 & Hm2 & Hcase).
  unfold composes. fold s' q1 q2 in Hcase |- *.
  destruct (overlap schedule).
  - split; [|discriminate].
    intros (from & ma & mb & Hfrom & Hto & _).
    unfold stock_of in Hfrom. rewrite Hfind in Hfrom.
    injection Hfrom as <-.
    destruct Hcase as (_ & _ & Hlast).
    pose proof (eq_trans (eq_sym Hlast) Hto) as Heq.
    fold q1 q2 in Hq1, Hq2.
    destruct (last_writer schedule); injection Heq as Heq; lia.
  - split; [reflexivity | intros _].
    destruct Hcase as [Hto [Hch | Hch]].
    + exists (stockQuantity p), m1, m2. unfold stock_of at 1. rewrite Hfind.
      repeat split; try apply Hch; assumption.
    + exists (stockQuantity p), m2, m1. unfold stock_of at 1. rewrite Hfind.
      repeat split; try apply Hch; [assumption | tauto].
Qed.

Lemma adjustments_compose_unless_overlapped_witness :
  let schedule := [false; false; true; false; true; true] in
  let s' :=
    Concurrent.shared
      (Concurrent.run schedule
         (Concurrent.start (adjust (-5)) (adjust 3) shop)) in
  outcome_of schedule (adjust (-5)) (adjust 3) 10 shop s'
  /\ (composes schedule (adjust (-5)) (adjust 3) shop
      <-> overlap schedule = false).
Proof.
  apply (adjustments_compose_unless_overlapped
           [false; false; true; false; true; true]
           (adjust (-5)) (adjust 3) shop widget_row).
  - reflexivity.
  - reflexivity.
  - reflexivity.
  - reflexivity.
  - vm_compute. discriminate.
  - vm_compute. discriminate.
  - vm_compute. discriminate.
  - split; reflexivity.
Defined.

(** C6, the claim as stated fails: both calls read stock 10 before
    either writes; the call for -5 writes 5, the call for +3 then
    writes 13, and the product ends at 13 instead of 8. *)
Lemma overlapping_adjustments_lose_update :
  ~ composes Concurrent.overlapped (adjust (-5)) (adjust 3) shop.
Proof.
  intros (from & m1 & m2 & Hfrom & Hto & _).
  vm_compute in Hfrom. injection Hfrom as <-.
  vm_compute in Hto. discriminate.
Qed.

(** ** The low-stock listing and the dashboard *)

Lemma in_firstn {A} (n : nat) (l : list A) (x : A) :
  In x (firstn n l) -> In x l.
Proof.
  intros H. rewrite <- (firstn_skipn n l). apply in_or_app. now left.
Qed.

Lemma in_skipn {A} (n : nat) (l : list A) (x : A) :
  In x (skipn n l) -> In x l.
Proof.
  intros H. rewrite <- (firstn_skipn n l). apply in_or_app. now right.
Qed.

(** Every row of a product listing satisfies the [where] clause of
    its query. *)
Lemma getAllProducts_rows (iLike : string -> string -> bool)
  (q : Listing.query_) (o : option nat) (s : Store)
  (rows : list Product) (total page limit : Z) (pages : option Z) :
  body (fst (serve (getAllProducts iLike q) o s))
  = products_body rows total page limit pages ->
  Forall (fun row => In row (products s) /\ whereClause iLike q row = true)
         rows.
Proof.
  unfold serve, getAllProducts, try_catch.
  destruct (paginate (Listing.page q) (Listing.limit q)) as [pageLimit offset].
  destruct o as [[|n]|]; [discriminate | |];
    (rewrite bind_query_answers by discriminate;
     unfold Product_findAndCountAll;
     destruct ((pageLimit <? 0) || (offset <? 0))%bool; [discriminate|];
     cbn; intros [= <- _ _ _ _]; apply Forall_forall; intros row Hin;
     apply in_firstn, in_skipn, in_rev, filter_In in Hin; exact Hin).
Qed.

(** The listing shows active products only, and with [lowStock=true]
    only products whose stock is strictly below their threshold. *)
Lemma getAllProducts_lowStock_rows (iLike : string -> string -> bool)
  (q : Listing.query_) (o : option nat) (s : Store)
  (rows : list Product) (total page limit : Z) (pages : option Z) :
  body (fst (serve (getAllProducts iLike q) o s))
  = products_body rows total page limit pages ->
  Forall (fun row =>
            isActive row = true
            /\ (Listing.lowStock q = Some "true"%string ->
                stockQuantity row < minStockLevel row))
         rows.
Proof.
  intros H. apply getAllProducts_rows in H.
  eapply Forall_impl; [|exact H]. cbn beta. intros row [_ Hw].
  unfold whereClause in Hw.
  apply andb_prop in Hw. destruct Hw as [Hw Hlow].
  apply andb_prop in Hw. destruct Hw as [Hw _].
  apply andb_prop in Hw. destruct Hw as [Hact _].
  split; [now apply Bool.eqb_prop in Hact|].
  intros Hq. rewrite Hq in Hlow. cbn in Hlow. now apply Z.ltb_lt.
Qed.

(** C7.  The front end calls a product low on stock exactly when
    [stockQuantity <= minStockLevel].  The listing of
    [GET /products?lowStock=true] compares with [<]: the active
    product whose stock 5 equals its threshold 5 is low on stock and
    is missing from the listing, which is empty. *)
Theorem lowStock_listing_misses_boundary (iLike : string -> string -> bool) :
  (forall p, isLowStock p = true <-> stockQuantity p <= minStockLevel p)
  /\ In at_threshold (products bolt_shop)
  /\ isActive at_threshold = true
  /\ isLowStock at_threshold = true
  /\ serve (getAllProducts iLike low_stock_query) None bolt_shop
     = (json 200 (products_body [] 0 1 10 (Some 0)), bolt_shop).
Proof.
  split; [intros p; unfold isLowStock; apply Z.leb_le|].
  split; [now left|].
  repeat split.
Qed.

Lemma filter_all {A} (f : A -> bool) (l : list A) :
  Forall (fun x => f x = true) l -> filter f l = l.
Proof.
  induction 1 as [|x l Hx _ IH]; cbn; [reflexivity|].
  now rewrite Hx, IH.
Qed.

Lemma relabel_length (flags : Product -> bool) (ps : list Product) :
  List.length (relabel flags ps) = List.length ps.
Proof. apply length_map. Qed.

Lemma relabel_low (flags : Product -> bool) (ps : list Product) :
  List.length (filter isLowStock (relabel flags ps))
  = List.length (filter isLowStock ps).
Proof.
  unfold relabel. induction ps as [|p ps IH]; [reflexivity|].
  cbn [map filter].
  match goal with
  | |- context [isLowStock ?r] =>
      lazymatch r with
      | p => fail
      | _ => change (isLowStock r) with (isLowStock p)
      end
  end.
  destruct (isLowStock p); cbn [List.length]; now rewrite IH.
Qed.

Lemma relabel_valuation (flags : Product -> bool) (ps : list Product) :
  valuation (relabel flags ps) = valuation ps.
Proof.
  unfold valuation. generalize (double_of_Z 0).
  induction ps as [|p ps IH]; intros acc; [reflexivity|].
  cbn [relabel map fold_left]. fold (relabel flags ps).
  cbn [stockQuantity price]. apply IH.
Qed.

Lemma relabel_all_active (ps : list Product) :
  filter isActive (relabel (fun _ => true) ps) = relabel (fun _ => true) ps.
Proof.
  apply filter_all. unfold relabel. apply Forall_forall.
  intros p Hin. apply in_map_iff in Hin. now destruct Hin as (r & <- & _).
Qed.

(** What [updateDashboardStats] shows, whatever the page holds: the
    figures of the rows taken as active, every one of them. *)
Lemma shown_as_if_active (a : App) :
  shown (updateDashboardStats a)
  = summarize_active (relabel (fun _ => true) (app_products a)).
Proof.
  unfold shown, summarize_active, updateDashboardStats.
  cbn [lowStockItems totalValue totalProducts app_products].
  rewrite relabel_all_active, relabel_low, relabel_valuation, relabel_length.
  reflexivity.
Qed.

(** The rows that [loadProducts] keeps are active, and at most ten. *)
Lemma loadProducts_rows (iLike : string -> string -> bool) (o : option nat)
  (s : Store) (a : App) :
  let page := handle (products_loaded iLike o s) a in
  app_products page = app_products a
  \/ Forall (fun p => isActive p = true) (app_products page)
     /\ (List.length (app_products page) <= 10)%nat.
Proof.
  cbn [handle]. unfold loadProducts.
  destruct (status _ =? 200); [|now left].
  destruct (body (fst (serve (getAllProducts iLike no_query) o s)))
    as [| | rows total page limit pages | | |] eqn:Hbody; try now left.
  right. cbn [app_products]. split.
  - pose proof (getAllProducts_lowStock_rows iLike no_query o s _ _ _ _ _ Hbody)
      as H.
    eapply Forall_impl; [|exact H]. cbn beta. now intros p [Hp _].
  - revert Hbody. unfold serve, getAllProducts, try_catch.
    cbn [paginate no_query Listing.page Listing.limit].
    destruct o as [[|n]|]; [discriminate | |];
      (rewrite bind_query_answers by discriminate;
       unfold Product_findAndCountAll;
       change ((10 <? 0) || ((1 - 1) * 10 <? 0))%bool with false;
       cbn [fst snd ret json body];
       assert (Hten : (Z.to_nat 10 <= 10)%nat) by (cbn; lia);
       revert Hten; generalize (Z.to_nat 10) as k;
       intros k Hk [= <- _ _ _ _];
       apply Nat.le_trans with k; [apply firstn_le_length | exact Hk]).
Qed.

Lemma page_after_rows (events : list Event) (a : App) :
  Forall (fun p => isActive p = true) (app_products a) ->
  (List.length (app_products a) <= 10)%nat ->
  Forall (fun p => isActive p = true) (app_products (page_after events a))
  /\ (List.length (app_products (page_after events a)) <= 10)%nat.
Proof.
  revert a. induction events as [|e events IH]; intros a Hact Hlen;
    [now split|].
  cbn [page_after]. apply IH.
  - destruct e as [iLike o s | cs |]; [|exact Hact | exact Hact].
    destruct (loadProducts_rows iLike o s a) as [-> | [H _]]; assumption.
  - destruct e as [iLike o s | cs |]; [|exact Hlen | exact Hlen].
    destruct (loadProducts_rows iLike o s a) as [-> | [_ H]]; assumption.
Qed.

(** C8, as amended.  [updateDashboardStats] takes no products and
    returns nothing: it reads the two globals of the page and
    overwrites the four counters of the dashboard.  Whatever the page
    holds, the three figures are those of the rows taken as active,
    every one of them: the count of rows low on stock, the valuation
    added up in doubles row by row, and the count of rows; they do
    not depend on the [isActive] flags.  The two globals stay as they
    are, and a second run changes nothing.  On the page as the script
    fills it, from answers to [GET /products], the rows are active
    and at most ten, so that the figures are the count of low-stock
    rows, the valuation over the active rows and the count of active
    rows. *)
Theorem dashboard_summary (events : list Event) (total low cats : Z)
  (value : float) (flags : Product -> bool) (a : App) :
  let page := page_after events (opened total low cats value) in
  shown (updateDashboardStats a)
  = summarize_active (relabel (fun _ => true) (app_products a))
  /\ shown (updateDashboardStats
              (with_products (relabel flags (app_products a)) a))
     = shown (updateDashboardStats a)
  /\ app_products (updateDashboardStats a) = app_products a
  /\ app_categories (updateDashboardStats a) = app_categories a
  /\ totalCategories (updateDashboardStats a)
     = Z.of_nat (List.length (app_categories a))
  /\ updateDashboardStats (updateDashboardStats a) = updateDashboardStats a
  /\ Forall (fun p => isActive p = true) (app_products page)
  /\ (List.length (app_products page) <= 10)%nat
  /\ shown (updateDashboardStats page) = summarize_active (app_products page).
Proof.
  intros page.
  assert (Hpage : Forall (fun p => isActive p = true) (app_products page)
                  /\ (List.length (app_products page) <= 10)%nat).
  { apply page_after_rows; cbn; [constructor | lia]. }
  destruct Hpage as [Hact Hlen].
  split; [apply shown_as_if_active|].
  split.
  { unfold shown, updateDashboardStats.
    cbn [lowStockItems totalValue totalProducts app_products with_products].
    fold (valuation (relabel flags (app_products a))).
    fold (valuation (app_products a)).
    now rewrite relabel_low, relabel_valuation, relabel_length. }
  repeat (split; [reflexivity|]).
  split; [exact Hact|]. split; [exact Hlen|].
  unfold shown, summarize_active, updateDashboardStats.
  cbn [lowStockItems totalValue totalProducts app_products].
  now rewrite (filter_all isActive _ Hact).
Qed.

(** C8, the claim as stated fails.  On the page of a shop with one
    washer at 0.10 and one nut at 0.20, the run overwrites the
    counters, so it is not pure; and the value it adds up in doubles
    is 0.30000000000000004, which is not the double of 0.3, the sum
    of the claim. *)
Lemma dashboard_writes_and_rounds :
  updateDashboardStats hardware_page <> hardware_page
  /\ totalValue (updateDashboardStats hardware_page) <> double_of_Q (3 # 10)
  /\ ~ summary_claim hardware_page.
Proof.
  assert (Hpure : updateDashboardStats hardware_page <> hardware_page).
  { intros H. apply (f_equal totalProducts) in H. vm_compute in H.
    discriminate H. }
  split; [exact Hpure|]. split.
  - intros H. apply (f_equal Prim2SF) in H. vm_compute in H. discriminate H.
  - unfold summary_claim.
    destruct (summarize_spec (app_products hardware_page)) as [[low v] t].
    intros [_ H]. exact (Hpure H).
Qed.

Lemma createProduct_defaults_witness :
  exists row,
    products (snd (serve (createProduct 1700000000123 gadget) None seeded))
    = products seeded ++ [row]
    /\ minStockLevel row = 10
    /\ stockQuantity row = 0
    /\ transactions
         (snd (serve (createProduct 1700000000123 gadget) None seeded))
       = transactions seeded
    /\ isLowStock row = true.
Proof.
  destruct (createProduct_defaults None 1700000000123 gadget seeded)
    as [Hsucc Hprops].
  destruct (Hprops (Hsucc eq_refl eq_refl eq_refl))
    as (row & Hrow & Hmin & _ & Hst & Hlow).
  exists row.
  split; [exact Hrow|].
  split; [apply Hmin; now left|].
  split; [apply Hst; now left|].
  split; [apply Hst; now left|].
  apply Hlow; now left.
Defined.

(** * The whole controller

    The remaining handlers of the product controller, the pages of
    the listing and the products table of the front end.  The columns
    [createdAt] and [updatedAt] that Sequelize adds to every model
    are not part of the rows: insertion order stands for [createdAt],
    and nothing below speaks of [updatedAt]. *)

(** ** What every handler keeps *)

Section Respected.

Variable R : Store -> Store -> Prop.
Hypothesis HR : respected R.

Lemma keeps_ret {A} (a : A) : keeps R (ret a).
Proof. intros s. apply effect_ret. apply (respects_refl R HR). Qed.

Lemma keeps_bind {A B} (m : M A) (k : A -> M B) :
  keeps R m -> (forall a, keeps R (k a)) -> keeps R (bind m k).
Proof.
  intros Hm Hk s.
  apply effect_bind with (Q1 := fun _ s1 => R s s1); [apply Hm|].
  intros a s1 H1. specialize (Hk a s1). intros o. specialize (Hk o).
  destruct (k a {| db := s1; outage := o |}) as [[e | b] w];
    eapply (respects_trans R HR); eassumption.
Qed.

Lemma keeps_query {A} (q : Store -> (Exn + A) * Store) :
  (forall s, R s (snd (q s))) -> keeps R (query q).
Proof.
  intros Hq s. apply effect_query; [apply (respects_refl R HR)|].
  destruct (fst (q s)); apply Hq.
Qed.

Lemma keeps_read {A} (f : Store -> A) :
  keeps R (query (fun s => (inr (f s), s))).
Proof. apply keeps_query. intros s. apply (respects_refl R HR). Qed.

Lemma try_catch_keeps {A} (body_ : M A) (h : Exn -> A) (o : option nat)
  (s : Store) :
  keeps R body_ ->
  R s (db (snd (try_catch body_ h {| db := s; outage := o |}))).
Proof.
  intros Hb. unfold try_catch. specialize (Hb s o).
  destruct (body_ {| db := s; outage := o |}) as [[e | a] w]; exact Hb.
Qed.

(** The model operations on values as they came write what the
    operations on integers write, or nothing. *)
Lemma respects_update_stock_value (p : Product) (v : Value) (s : Store) :
  R s (snd (Product_update_stock p v s)).
Proof.
  unfold Product_update_stock.
  destruct (fails_min_0 v) eqn:Hmin; [apply (respects_refl R HR)|].
  destruct (integer_in v) as [n|] eqn:Hn; [|apply (respects_refl R HR)].
  assert (Hpos : (n <? 0) = false).
  { unfold fails_min_0 in Hmin.
    now rewrite (integer_in_parseFloat _ _ Hn) in Hmin. }
  pose proof (respects_update_stock R HR p n s) as H.
  unfold Product_update_stockQuantity in H. now rewrite Hpos in H.
Qed.

Lemma respects_movement (pid uid : Z) (ty : TransactionType)
  (q prev new_ : Z) (rsn : string) (nts : option string) (s : Store) :
  R s (snd (Transaction_create pid uid ty q prev new_ rsn nts s)).
Proof.
  unfold Transaction_create.
  destruct (q =? 0); [apply (respects_refl R HR)|].
  apply (respects_insert R HR pid uid ty q prev new_ rsn nts s).
Qed.

Lemma respects_movement_values (pid uid : Z) (ty : TransactionType)
  (q : Value) (prev : Z) (new_ : Value) (rsn : string) (nts : option string)
  (s : Store) :
  R s (snd (Transaction_create_values pid uid ty q prev new_ rsn nts s)).
Proof.
  unfold Transaction_create_values.
  destruct (is_zero q); [apply (respects_refl R HR)|].
  destruct (integer_in q); [|apply (respects_refl R HR)].
  destruct (integer_in new_); [|apply (respects_refl R HR)].
  apply (respects_insert R HR).
Qed.

Ltac keeps_step :=
  match goal with
  | |- keeps _ (ret _) => apply keeps_ret
  | |- keeps _ (findByPk _) => apply keeps_read
  | |- keeps _ (query (fun s => (inr _, s))) => apply keeps_read
  | |- keeps _ (query (Product_update_stockQuantity _ _)) =>
      apply keeps_query; intros; apply (respects_update_stock R HR)
  | |- keeps _ (query (Product_update_isActive _ _)) =>
      apply keeps_query; intros; apply (respects_update_active R HR)
  | |- keeps _ (query (Product_update _ _)) =>
      apply keeps_query; intros; apply (respects_update R HR)
  | |- keeps _ (query (Product_create _)) =>
      apply keeps_query; intros; apply (respects_create R HR)
  | |- keeps _ (query (Transaction_create _ _ _ _ _ _ _ _)) =>
      apply keeps_query; intros; apply respects_movement
  | |- keeps _ (query (Product_update_stock _ _)) =>
      apply keeps_query; intros; apply respects_update_stock_value
  | |- keeps _ (query (Transaction_create_values _ _ _ _ _ _ _ _)) =>
      apply keeps_query; intros; apply respects_movement_values
  | |- keeps _ (bind _ _) => apply keeps_bind; [| intros ?]
  | |- keeps _ (if ?c then _ else _) => destruct c
  | |- keeps _ (match ?x with _ => _ end) => destruct x
  end.

Lemma adjustStock_keeps (o : option nat) (req : Adjust.req) (s : Store) :
  R s (snd (serve (adjustStock req) o s)).
Proof.
  unfold serve, adjustStock.
  match goal with
  | |- context [try_catch ?b ?h _] =>
      pose proof (try_catch_keeps b h o s) as H;
      destruct (try_catch b h {| db := s; outage := o |}) as [res w]
  end.
  apply H. cbv zeta. repeat keeps_step.
Qed.

Lemma adjustStock_wire_keeps (o : option nat) (req : Wire.req) (s : Store) :
  R s (snd (serve (Wire.adjustStock req) o s)).
Proof.
  unfold serve, Wire.adjustStock.
  match goal with
  | |- context [try_catch ?b ?h _] =>
      pose proof (try_catch_keeps b h o s) as H;
      destruct (try_catch b h {| db := s; outage := o |}) as [res w]
  end.
  apply H. cbv zeta. repeat keeps_step.
Qed.

Lemma createProduct_keeps (o : option nat) (now : Z) (req : Create.req)
  (s : Store) :
  R s (snd (serve (createProduct now req) o s)).
Proof.
  unfold serve, createProduct.
  match goal with
  | |- context [try_catch ?b ?h _] =>
      pose proof (try_catch_keeps b h o s) as H;
      destruct (try_catch b h {| db := s; outage := o |}) as [res w]
  end.
  apply H. cbv zeta. repeat keeps_step.
Qed.

Lemma getProduct_keeps (o : option nat) (pk : Z) (s : Store) :
  R s (snd (serve_as (getProduct pk) o s)).
Proof.
  unfold serve_as, getProduct.
  match goal with
  | |- context [try_catch ?b ?h _] =>
      pose proof (try_catch_keeps b h o s) as H;
      destruct (try_catch b h {| db := s; outage := o |}) as [res w]
  end.
  apply H. repeat keeps_step.
Qed.

Lemma deleteProduct_keeps (o : option nat) (pk : Z) (s : Store) :
  R s (snd (serve_as (deleteProduct pk) o s)).
Proof.
  unfold serve_as, deleteProduct.
  match goal with
  | |- context [try_catch ?b ?h _] =>
      pose proof (try_catch_keeps b h o s) as H;
      destruct (try_catch b h {| db := s; outage := o |}) as [res w]
  end.
  apply H. repeat keeps_step.
Qed.

Lemma updateProduct_keeps (o : option nat) (pk : Z) (req : Create.req)
  (s : Store) :
  R s (snd (serve_as (updateProduct pk req) o s)).
Proof.
  unfold serve_as, updateProduct.
  match goal with
  | |- context [try_catch ?b ?h _] =>
      pose proof (try_catch_keeps b h o s) as H;
      destruct (try_catch b h {| db := s; outage := o |}) as [res w]
  end.
  apply H. cbv zeta. repeat keeps_step.
Qed.

Lemma getAllProducts_keeps (iLike : string -> string -> bool)
  (o : option nat) (q : Listing.query_) (s : Store) :
  R s (snd (serve (getAllProducts iLike q) o s)).
Proof.
  unfold serve, getAllProducts.
  match goal with
  | |- context [try_catch ?b ?h _] =>
      pose proof (try_catch_keeps b h o s) as H;
      destruct (try_catch b h {| db := s; outage := o |}) as [res w]
  end.
  apply H. destruct (paginate _ _) as [pageLimit offset].
  apply keeps_bind.
  - apply keeps_query. intros s0. unfold Product_findAndCountAll.
    destruct (_ || _)%bool; apply (respects_refl R HR).
  - intros [count rows]. apply keeps_ret.
Qed.

Lemma after_respects (iLike : string -> string -> bool) (r : Request)
  (s : Store) :
  R s (after iLike r s).
Proof.
  destruct r; cbn [after].
  - apply getAllProducts_keeps.
  - apply getProduct_keeps.
  - apply createProduct_keeps.
  - apply updateProduct_keeps.
  - apply deleteProduct_keeps.
  - apply adjustStock_keeps.
  - apply adjustStock_wire_keeps.
Qed.

Lemma after_all_respects (iLike : string -> string -> bool)
  (rs : list Request) (s : Store) :
  R s (after_all iLike rs s).
Proof.
  revert s. induction rs as [|r rs IH]; intros s; cbn.
  - apply (respects_refl R HR).
  - eapply (respects_trans R HR); [apply after_respects | apply IH].
Qed.

End Respected.

Lemma map_restamp_ids (f : Product -> Product) (target : Z) (l : list Product) :
  (forall row, id (f row) = id row) ->
  map id (map (fun row => if id row =? target then f row else row) l)
  = map id l.
Proof.
  intros Hf. rewrite map_map. apply map_ext. intros row.
  destruct (id row =? target); [apply Hf | reflexivity].
Qed.

Lemma Product_create_effect (v : Values.t) (s : Store) :
  snd (Product_create v s) = s
  \/ snd (Product_create v s) = skip_key s
  \/ exists row,
       snd (Product_create v s) = with_product row s
       /\ id row = nextProductId s
       /\ 0 <= stockQuantity row.
Proof.
  unfold Product_create.
  repeat match goal with
         | |- context [if ?c then (inl ?e, s) else _] =>
             destruct c eqn:?; [now left|]
         end.
  destruct (integer_in (Values.stockQuantity v)) as [n|] eqn:Hn;
    [|now left].
  destruct (integer_in (Values.minStockLevel v)) as [m|]; [|now left].
  repeat match goal with
         | |- context [if ?c then (inl ?e, skip_key s) else _] =>
             destruct c eqn:?; [right; now left|]
         end.
  right. right. eexists. split; [reflexivity|]. cbn. split; [reflexivity|].
  match goal with
  | H : fails_min_0 (Values.stockQuantity v) = false |- _ =>
      unfold fails_min_0 in H;
      rewrite (integer_in_parseFloat _ _ Hn) in H;
      now apply Z.ltb_ge
  end.
Qed.

Lemma read_or_nonneg (v : option Value) (old : Z) :
  fails_min_0_opt v = false -> 0 <= old -> 0 <= read_or v old.
Proof.
  destruct v as [x|]; cbn [fails_min_0_opt read_or]; [|auto].
  intros Hmin Hold. destruct (integer_in x) as [n|] eqn:Hn; [|exact Hold].
  unfold fails_min_0 in Hmin.
  rewrite (integer_in_parseFloat _ _ Hn) in Hmin. now apply Z.ltb_ge.
Qed.

Lemma Product_update_effect (p : Product) (b : Create.body) (s : Store) :
  snd (Product_update p b s) = s
  \/ (fails_min_0_opt (Create.stockQuantity b) = false
      /\ products (snd (Product_update p b s))
         = map (fun row => if id row =? id p then assign b row else row)
               (products s)
      /\ transactions (snd (Product_update p b s)) = transactions s).
Proof.
  unfold Product_update.
  repeat match goal with
         | |- context [if ?c then (inl ?e, s) else _] =>
             destruct c eqn:?; [now left|]
         end.
  right. repeat split.
Qed.

Lemma Transaction_insert_effect (pid uid : Z) (ty : TransactionType)
  (q prev new_ : Z) (rsn : string) (nts : option string) (s : Store) :
  let s' := snd (Transaction_insert pid uid ty q prev new_ rsn nts s) in
  products s' = products s
  /\ exists l, transactions s' = transactions s ++ l.
Proof.
  cbn. split; [reflexivity | eexists; reflexivity].
Qed.

Lemma appends_movements_respected : respected appends_movements.
Proof.
  constructor; unfold appends_movements.
  - intros s. exists []. now rewrite app_nil_r.
  - intros s1 s2 s3 [l1 H1] [l2 H2]. exists (l1 ++ l2).
    now rewrite H2, H1, app_assoc.
  - intros p v s. unfold Product_update_stockQuantity.
    destruct (v <? 0); exists []; cbn; now rewrite app_nil_r.
  - intros p v s. exists []. cbn. now rewrite app_nil_r.
  - intros p b s. exists [].
    destruct (Product_update_effect p b s) as [-> | (_ & _ & ->)];
      now rewrite app_nil_r.
  - intros v s. exists [].
    destruct (Product_create_effect v s) as [-> | [-> | (row & -> & _)]];
      cbn; now rewrite app_nil_r.
  - intros. apply Transaction_insert_effect.
Qed.

Lemma appends_products_respected : respected appends_products.
Proof.
  constructor; unfold appends_products.
  - intros s. exists []. now rewrite app_nil_r.
  - intros s1 s2 s3 [l1 H1] [l2 H2]. exists (l1 ++ l2).
    now rewrite H2, H1, app_assoc.
  - intros p v s. exists []. unfold Product_update_stockQuantity.
    destruct (v <? 0); cbn [snd products]; rewrite app_nil_r;
      [reflexivity|].
    now apply (map_restamp_ids (fun row => set_stockQuantity row v)).
  - intros p v s. exists []. cbn [snd products Product_update_isActive].
    rewrite app_nil_r.
    now apply (map_restamp_ids (fun row => set_isActive row v)).
  - intros p b s. exists []. rewrite app_nil_r.
    destruct (Product_update_effect p b s) as [-> | (_ & -> & _)];
      [reflexivity|].
    now apply (map_restamp_ids (assign b)).
  - intros v s.
    destruct (Product_create_effect v s) as [-> | [-> | (row & -> & _)]].
    + exists []. now rewrite app_nil_r.
    + exists []. cbn. now rewrite app_nil_r.
    + exists [id row]. cbn. now rewrite map_app.
  - intros. exists [].
    destruct (Transaction_insert_effect pid uid ty q prev new_ rsn nts s)
      as [-> _].
    now rewrite app_nil_r.
Qed.

Lemma Forall_restamp (P : Product -> Prop) (f : Product -> Product)
  (target : Z) (l : list Product) :
  (forall row, P row -> P (f row)) ->
  Forall P l ->
  Forall P (map (fun row => if id row =? target then f row else row) l).
Proof.
  intros Hf Hl. apply Forall_map. eapply Forall_impl; [|exact Hl].
  intros row Hrow. cbn beta. destruct (id row =? target); auto.
Qed.

Lemma keeps_stock_nonneg_respected : respected keeps_stock_nonneg.
Proof.
  constructor; unfold keeps_stock_nonneg.
  - auto.
  - auto.
  - intros p v s Hs. unfold Product_update_stockQuantity.
    destruct (v <? 0) eqn:Hv; [exact Hs|]. cbn.
    apply Z.ltb_ge in Hv.
    now apply (Forall_restamp _ (fun row => set_stockQuantity row v)).
  - intros p v s Hs. cbn.
    now apply (Forall_restamp _ (fun row => set_isActive row v)).
  - intros p b s Hs.
    destruct (Product_update_effect p b s) as [-> | (Hb & -> & _)];
      [exact Hs|].
    apply (Forall_restamp _ (assign b)); [|exact Hs].
    intros row Hrow. cbn [stockQuantity assign].
    now apply read_or_nonneg.
  - intros v s Hs.
    destruct (Product_create_effect v s)
      as [-> | [-> | (row & -> & _ & Hrow)]]; [exact Hs | exact Hs |].
    cbn. apply Forall_app. split; [exact Hs | now constructor].
  - intros pid uid ty q prev new_ rsn nts s Hs.
    destruct (Transaction_insert_effect pid uid ty q prev new_ rsn nts s)
      as [-> _].
    exact Hs.
Qed.

(** ** Invariants of the product routes *)

(** X1.  The history is append-only.  Over any requests to the six
    product routes, whatever the database rejects on the way, the
    stored movements are the ones there were, unchanged and in the
    same order, followed by the new ones. *)
Theorem movements_are_append_only (iLike : string -> string -> bool)
  (rs : list Request) (s : Store) :
  exists l, transactions (after_all iLike rs s) = transactions s ++ l.
Proof.
  exact (after_all_respects _ appends_movements_respected iLike rs s).
Qed.

(** X2.  Stock never goes negative.  If no stored product has a
    negative stock, none has after any requests to the six product
    routes, whatever the database rejects on the way. *)
Theorem stock_never_negative (iLike : string -> string -> bool)
  (rs : list Request) (s : Store) :
  Forall (fun p => 0 <= stockQuantity p) (products s) ->
  Forall (fun p => 0 <= stockQuantity p) (products (after_all iLike rs s)).
Proof.
  exact (after_all_respects _ keeps_stock_nonneg_respected iLike rs s).
Qed.

(** X3.  No product is ever removed.  Over any requests to the six
    product routes the keys of the stored products stay, in the same
    order, and new keys only come after them: deletion is soft and an
    update keeps the key. *)
Theorem products_are_never_removed (iLike : string -> string -> bool)
  (rs : list Request) (s : Store) :
  exists l, map id (products (after_all iLike rs s))
            = map id (products s) ++ l.
Proof.
  exact (after_all_respects _ appends_products_respected iLike rs s).
Qed.

(** ** [getProduct], [deleteProduct], [updateProduct] *)

Lemma getProduct_unfold (o : option nat) (pk : Z) (s : Store) :
  serve_as (getProduct pk) o s
  = (match o with
     | Some 0%nat => down
     | _ =>
         match Product_findByPk pk s with
         | None => reply 404 (answer_error "Product not found")
         | Some p =>
             reply 200 (answer_product p (firstn 10 (movements_of (id p) s)))
         end
     end, s).
Proof.
  unfold serve_as, getProduct, try_catch.
  destruct o as [[|n]|]; [reflexivity | |];
    (rewrite bind_query_answers by discriminate;
     unfold Product_findByPk_include; cbn [fst snd];
     destruct (Product_findByPk pk s); reflexivity).
Qed.

Lemma deleteProduct_unfold (o : option nat) (pk : Z) (s : Store) :
  serve_as (deleteProduct pk) o s
  = match o with
    | Some 0%nat => (down, s)
    | _ =>
        match Product_findByPk pk s with
        | None => (reply 404 (answer_error "Product not found"), s)
        | Some p =>
            match o with
            | Some 1%nat => (down, s)
            | _ => (reply 200 (answer_message "Product deleted successfully"),
                    snd (Product_update_isActive p false s))
            end
        end
    end.
Proof.
  unfold serve_as, deleteProduct, try_catch, findByPk.
  destruct o as [[|[|n]]|]; [reflexivity | | |];
    (rewrite bind_query_answers by discriminate; cbn [fst snd option_map];
     destruct (Product_findByPk pk s) as [p|]; [|reflexivity]);
    [reflexivity | |];
    rewrite bind_query_answers by discriminate; reflexivity.
Qed.

Lemma findByPk_deactivated (pid : Z) (p : Product) (s : Store) :
  Product_findByPk pid (snd (Product_update_isActive p false s))
  = option_map (fun row => if id row =? id p then set_isActive row false
                           else row)
               (Product_findByPk pid s).
Proof.
  unfold Product_findByPk. cbn.
  apply (find_map_same_id
           (fun row => if id row =? id p then set_isActive row false else row)).
  intros row. destruct (id row =? id p); reflexivity.
Qed.

Lemma findByPk_found_id (pk : Z) (s : Store) (p : Product) :
  Product_findByPk pk s = Some p -> id p = pk.
Proof. intros H. now destruct (findByPk_id _ _ _ H). Qed.

Lemma deactivated_twice (p : Product) (s : Store) :
  deactivated (set_isActive p false) (deactivated p s) = deactivated p s.
Proof.
  unfold deactivated. cbn. f_equal. rewrite map_map. apply map_ext.
  intros row. destruct (id row =? id p) eqn:H; cbn; rewrite H; reflexivity.
Qed.

(** X5.  Soft delete.  Deleting an existing product is answered 200; the
    row stays under its key with [isActive] false and everything else
    as before, its movements stay, [getProduct] still shows it, and no
    product listing, whatever its query, shows it any more. *)
Theorem deleteProduct_soft_delete (iLike : string -> string -> bool)
  (pk : Z) (s : Store) (p : Product) :
  Product_findByPk pk s = Some p ->
  let s' := snd (serve_as (deleteProduct pk) None s) in
  fst (serve_as (deleteProduct pk) None s)
  = reply 200 (answer_message "Product deleted successfully")
  /\ Product_findByPk pk s' = Some (set_isActive p false)
  /\ transactions s' = transactions s
  /\ fst (serve_as (getProduct pk) None s')
     = reply 200 (answer_product (set_isActive p false)
                    (firstn 10 (movements_of pk s)))
  /\ (forall o q rows total page limit pages,
        body (fst (serve (getAllProducts iLike q) o s'))
        = products_body rows total page limit pages ->
        forall row, In row rows -> id row <> pk).
Proof.
  intros Hfind s'. subst s'. rewrite deleteProduct_unfold, Hfind.
  cbn [fst snd]. pose proof (findByPk_found_id _ _ _ Hfind) as Hid.
  assert (Hfind' : Product_findByPk pk (snd (Product_update_isActive p false s))
                   = Some (set_isActive p false)).
  { rewrite findByPk_deactivated, Hfind. cbn. now rewrite Z.eqb_refl. }
  split; [reflexivity|]. split; [exact Hfind'|]. split; [reflexivity|].
  split.
  - rewrite getProduct_unfold, Hfind'. cbn [fst id set_isActive].
    now rewrite Hid.
  - intros o q rows total page limit pages Hbody row Hin Hrow.
    apply getAllProducts_rows in Hbody.
    rewrite Forall_forall in Hbody. destruct (Hbody row Hin) as [Hst Hw].
    cbn in Hst. apply in_map_iff in Hst. destruct Hst as (r & Hr & _).
    unfold whereClause in Hw.
    apply andb_prop in Hw. destruct Hw as [Hw _].
    apply andb_prop in Hw. destruct Hw as [Hw _].
    apply andb_prop in Hw. destruct Hw as [Hact _].
    apply Bool.eqb_prop in Hact.
    destruct (id r =? id p) eqn:Heq.
    + subst row. cbn in Hact. discriminate.
    + subst row. apply Z.eqb_neq in Heq. congruence.
Qed.

Lemma deleteProduct_soft_delete_witness :
  let s' := snd (serve_as (deleteProduct 1) None shop) in
  fst (serve_as (deleteProduct 1) None shop)
  = reply 200 (answer_message "Product deleted successfully")
  /\ Product_findByPk 1 s' = Some (set_isActive widget_row false)
  /\ transactions s' = transactions shop
  /\ fst (serve_as (getProduct 1) None s')
     = reply 200 (answer_product (set_isActive widget_row false)
                    (firstn 10 (movements_of 1 shop)))
  /\ (forall o q rows total page limit pages,
        body (fst (serve (getAllProducts (fun _ _ => false) q) o s'))
        = products_body rows total page limit pages ->
        forall row, In row rows -> id row <> 1).
Proof.
  apply (deleteProduct_soft_delete (fun _ _ => false) 1 shop widget_row).
  reflexivity.
Defined.

(** X6.  Deleting a product that is already deleted is answered 200 again,
    not 404, and changes nothing. *)
Theorem deleteProduct_twice (pk : Z) (s : Store) (p : Product) :
  Product_findByPk pk s = Some p ->
  let s' := snd (serve_as (deleteProduct pk) None s) in
  serve_as (deleteProduct pk) None s'
  = (reply 200 (answer_message "Product deleted successfully"), s').
Proof.
  intros Hfind s'. subst s'. rewrite (deleteProduct_unfold None pk s), Hfind.
  cbn [snd]. rewrite deleteProduct_unfold.
  rewrite findByPk_deactivated, Hfind. cbn [option_map].
  rewrite Z.eqb_refl. f_equal. apply deactivated_twice.
Qed.

Lemma deleteProduct_twice_witness :
  let s' := snd (serve_as (deleteProduct 1) None shop) in
  serve_as (deleteProduct 1) None s'
  = (reply 200 (answer_message "Product deleted successfully"), s').
Proof. apply (deleteProduct_twice 1 shop widget_row). reflexivity. Defined.

Lemma optional_isInt_readable (v : option Value) :
  optional_isInt 0 v = true ->
  fails_min_0_opt v = false /\ unreadable v = false.
Proof.
  destruct v as [x|]; cbn [optional_isInt fails_min_0_opt unreadable];
    [|now split].
  intros H. destruct (isInt_reads _ _ H) as [n Hn].
  rewrite (reads_fails_min_0 _ _ Hn), (reads_integer _ _ _ Hn). now split.
Qed.

Lemma updateProduct_unfold (pk : Z) (req : Create.req) (s : Store)
  (p : Product) :
  let b := Create.body_ req in
  productValidation b = [] ->
  Product_findByPk pk s = Some p ->
  serve_as (updateProduct pk req) None s
  = if taken_by_other (id p) (Create.sku b) (Create.barcode b) s then
      (reply 500 (answer_error "Validation error"), s)
    else if negb (references_kept p b s) then
      (reply 500 (answer_error (message foreign_key_violation)), s)
    else
      (reply 200 (answer_updated "Product updated successfully"
                    (Product_findByPk (id p) (overwritten p b s))),
       overwritten p b s).
Proof.
  intros b Hv Hfind.
  destruct (productValidation_all _ Hv) as (Hp & Hc & Hsq & Hml & Hmax).
  destruct (optional_isInt_readable _ Hsq) as [Hs1 Hs2].
  destruct (optional_isInt_readable _ Hml) as [Hm1 Hm2].
  unfold serve_as, updateProduct, try_catch, findByPk. fold b.
  rewrite Hv. cbn [is_nil negb].
  rewrite bind_query_answers by discriminate. cbn [fst snd option_map].
  rewrite Hfind. rewrite bind_query_answers by discriminate.
  unfold Product_update. fold b.
  rewrite Hp, Hc, Hs1, Hm1, Hs2, Hm2, (below_zero_false _ Hmax).
  cbn [negb orb].
  destruct (taken_by_other _ _ _ s); cbn [fst snd]; [reflexivity|].
  destruct (references_kept p b s); cbn [negb fst snd]; [|reflexivity].
  rewrite bind_query_answers by discriminate. reflexivity.
Qed.

(** X7.  The three handlers that look a product up answer 404 when there
    is none under the key, and write nothing. *)
Theorem unknown_product_not_found (pk : Z) (req : Create.req) (s : Store) :
  Product_findByPk pk s = None ->
  serve_as (getProduct pk) None s
  = (reply 404 (answer_error "Product not found"), s)
  /\ serve_as (deleteProduct pk) None s
     = (reply 404 (answer_error "Product not found"), s)
  /\ (productValidation (Create.body_ req) = [] ->
      serve_as (updateProduct pk req) None s
      = (reply 404 (answer_error "Product not found"), s)).
Proof.
  intros Hnone. rewrite getProduct_unfold, deleteProduct_unfold, Hnone.
  repeat split. intros Hv.
  unfold serve_as, updateProduct, try_catch, findByPk.
  rewrite Hv. cbn [is_nil negb].
  rewrite bind_query_answers by discriminate. cbn [fst snd option_map].
  now rewrite Hnone.
Qed.

Lemma unknown_product_not_found_witness :
  serve_as (getProduct 9) None shop
  = (reply 404 (answer_error "Product not found"), shop)
  /\ serve_as (deleteProduct 9) None shop
     = (reply 404 (answer_error "Product not found"), shop)
  /\ (productValidation (Create.body_ widget) = [] ->
      serve_as (updateProduct 9 widget) None shop
      = (reply 404 (answer_error "Product not found"), shop)).
Proof. apply (unknown_product_not_found 9 widget shop). reflexivity. Defined.

(** X8.  [updateProduct] writes the stock it is given straight into the
    row and records no movement: after a valid update that the
    database accepts (SKU and barcode not taken by another row,
    category and supplier stored or unchanged) and that carries a
    [stockQuantity] read as [v], the stock of the product is [v] and
    the movements are as before. *)
Theorem updateProduct_overwrites_stock (pk : Z) (req : Create.req)
  (s : Store) (p : Product) (x : Value) (v : Z) :
  let b := Create.body_ req in
  productValidation b = [] ->
  Product_findByPk pk s = Some p ->
  taken_by_other (id p) (Create.sku b) (Create.barcode b) s = false ->
  references_kept p b s = true ->
  Create.stockQuantity b = Some x ->
  integer_in x = Some v ->
  let s' := snd (serve_as (updateProduct pk req) None s) in
  code (fst (serve_as (updateProduct pk req) None s)) = 200
  /\ stock_of pk s' = Some v
  /\ transactions s' = transactions s.
Proof.
  intros b Hv Hfind Hfree Hrefs Hst Hx s'. subst s'.
  rewrite (updateProduct_unfold pk req s p Hv Hfind). fold b.
  rewrite Hfree, Hrefs. cbn [negb fst snd code reply].
  split; [reflexivity|]. split; [|reflexivity].
  unfold stock_of, Product_findByPk, overwritten. cbn [products].
  rewrite (find_map_same_id
             (fun row => if id row =? id p then assign b row else row)).
  - fold (Product_findByPk pk s). rewrite Hfind. cbn [option_map].
    rewrite Z.eqb_refl. cbn [stockQuantity assign].
    now rewrite Hst; cbn [read_or]; rewrite Hx.
  - intros row. destruct (id row =? id p); reflexivity.
Qed.

Lemma updateProduct_overwrites_stock_witness :
  let s' := snd (serve_as (updateProduct 1 recount) None shop) in
  code (fst (serve_as (updateProduct 1 recount) None shop)) = 200
  /\ stock_of 1 s' = Some 40
  /\ transactions s' = transactions shop.
Proof.
  apply (updateProduct_overwrites_stock 1 recount shop widget_row
           (Num 40) 40);
    reflexivity.
Defined.

(** X26.  An update that moves a product to a category or a supplier
    that is not stored is answered 500 and writes nothing. *)
Theorem updateProduct_unknown_category (pk : Z) (req : Create.req)
  (s : Store) (p : Product) :
  let b := Create.body_ req in
  productValidation b = [] ->
  Product_findByPk pk s = Some p ->
  taken_by_other (id p) (Create.sku b) (Create.barcode b) s = false ->
  references_kept p b s = false ->
  code (fst (serve_as (updateProduct pk req) None s)) = 500
  /\ snd (serve_as (updateProduct pk req) None s) = s.
Proof.
  intros b Hv Hfind Hfree Hrefs.
  rewrite (updateProduct_unfold pk req s p Hv Hfind). fold b.
  rewrite Hfree, Hrefs. now split.
Qed.

Lemma updateProduct_unknown_category_witness :
  code (fst (serve_as (updateProduct 1 misfiled) None shop)) = 500
  /\ snd (serve_as (updateProduct 1 misfiled) None shop) = shop.
Proof.
  apply (updateProduct_unknown_category 1 misfiled shop widget_row);
    reflexivity.
Defined.

(** ** [createProduct], seen from outside *)

(** X10.  A SKU that is already stored is refused: the answer is 400
    [SKU or barcode already exists], no product and no movement is
    written, and the key drawn for the refused row is used up. *)
Theorem createProduct_duplicate_sku (now : Z) (req : Create.req) (s : Store)
  (p : Product) (x : string) :
  productValidation (Create.body_ req) = [] ->
  Create.sku (Create.body_ req) = Some x ->
  x <> ""%string ->
  In p (products s) ->
  sku p = x ->
  let s' := snd (serve (createProduct now req) None s) in
  fst (serve (createProduct now req) None s)
  = json 400 (error_body "SKU or barcode already exists")
  /\ products s' = products s
  /\ transactions s' = transactions s
  /\ nextProductId s' = nextProductId s + 1.
Proof.
  intros Hv Hsku Hx Hin Hp s'. subst s'.
  rewrite (createProduct_unfold now req s Hv).
  assert (Hof : sku_of now req s = x).
  { unfold sku_of. rewrite Hsku. cbn. unfold isEmpty.
    destruct (String.eqb x "") eqn:He; [|reflexivity].
    apply String.eqb_eq in He. contradiction. }
  assert (Ht : taken (sku_of now req s)
                 (Create.barcode (Create.body_ req)) s = true).
  { unfold taken. apply existsb_exists. exists p. split; [assumption|].
    rewrite Hof, Hp, String.eqb_refl. reflexivity. }
  rewrite Ht. repeat split.
Qed.

Lemma createProduct_duplicate_sku_witness :
  let s' := snd (serve (createProduct 1700000000999 widget) None shop) in
  fst (serve (createProduct 1700000000999 widget) None shop)
  = json 400 (error_body "SKU or barcode already exists")
  /\ products s' = products shop
  /\ transactions s' = transactions shop
  /\ nextProductId s' = nextProductId shop + 1.
Proof.
  apply (createProduct_duplicate_sku 1700000000999 widget shop widget_row
           "WID-001").
  - reflexivity.
  - reflexivity.
  - discriminate.
  - now left.
  - reflexivity.
Defined.

(** X25.  A creation that names a category or a supplier that is not
    stored is answered 500: no product and no movement is written,
    and the key drawn for the row is used up. *)
Theorem createProduct_unknown_category (now : Z) (req : Create.req)
  (s : Store) :
  let b := Create.body_ req in
  let s' := snd (serve (createProduct now req) None s) in
  productValidation b = [] ->
  taken (sku_of now req s) (Create.barcode b) s = false ->
  references_exist (Create.categoryId b) (Create.supplierId b) s = false ->
  status (fst (serve (createProduct now req) None s)) = 500
  /\ products s' = products s
  /\ transactions s' = transactions s
  /\ nextProductId s' = nextProductId s + 1.
Proof.
  intros b s' Hv Hfree Hrefs. subst s'.
  rewrite (createProduct_unfold now req s Hv). fold b.
  rewrite Hfree, Hrefs. repeat split.
Qed.

Lemma createProduct_unknown_category_witness :
  let s' := snd (serve (createProduct 1700000000123 widget) None empty_store) in
  status (fst (serve (createProduct 1700000000123 widget) None empty_store))
  = 500
  /\ products s' = products empty_store
  /\ transactions s' = transactions empty_store
  /\ nextProductId s' = nextProductId empty_store + 1.
Proof.
  apply (createProduct_unknown_category 1700000000123 widget empty_store);
    reflexivity.
Defined.

Lemma stored_categories (req : Create.req) (row : Product) (s : Store) :
  categories (stored req row s) = categories s.
Proof. unfold stored. destruct (0 <? stockQuantity row); reflexivity. Qed.

Lemma stored_products (req : Create.req) (row : Product) (s : Store) :
  products (stored req row s) = products s ++ [row].
Proof. unfold stored. destruct (0 <? stockQuantity row); reflexivity. Qed.

(** X11.  Generated SKUs collide.  Two valid requests without a SKU,
    for the same category, with ASCII names that agree on their first
    three characters up to case, arriving in the same millisecond: if
    the first is answered 201, the second is answered 400 [SKU or
    barcode already exists]; it writes no product and no movement,
    and uses up a key. *)
Theorem generated_sku_collides (now : Z) (req1 req2 : Create.req) (s : Store) :
  let b1 := Create.body_ req1 in
  let b2 := Create.body_ req2 in
  productValidation b1 = [] ->
  productValidation b2 = [] ->
  falsy (Create.sku b1) = true ->
  falsy (Create.sku b2) = true ->
  Create.categoryId b2 = Create.categoryId b1 ->
  is_ascii (Create.name b1) = true ->
  is_ascii (Create.name b2) = true ->
  prefix3 (trim (Create.name b2)) = prefix3 (trim (Create.name b1)) ->
  status (fst (serve (createProduct now req1) None s)) = 201 ->
  let s1 := snd (serve (createProduct now req1) None s) in
  let s2 := snd (serve (createProduct now req2) None s1) in
  fst (serve (createProduct now req2) None s1)
  = json 400 (error_body "SKU or barcode already exists")
  /\ products s2 = products s1
  /\ transactions s2 = transactions s1
  /\ nextProductId s2 = nextProductId s1 + 1.
Proof.
  intros b1 b2 Hv1 Hv2 Hf1 Hf2 Hcat _ _ Hname H201 s1 s2. subst s2 s1.
  rewrite (createProduct_unfold now req1 s Hv1) in H201 |- *.
  fold b1 in H201 |- *.
  destruct (taken (sku_of now req1 s) (Create.barcode b1) s);
    [discriminate|].
  destruct (references_exist (Create.categoryId b1) (Create.supplierId b1) s);
    [|discriminate].
  cbn [negb snd].
  set (row := new_row now req1 s).
  rewrite (createProduct_unfold now req2 _ Hv2). fold b2.
  assert (Hsame : sku_of now req2 (stored req1 row s) = sku row).
  { cbn [sku row new_row]. unfold sku_of. fold b1 b2. rewrite Hf1, Hf2.
    unfold Category_findByPk. rewrite stored_categories, Hcat.
    unfold generateSKU. fold (prefix3 (trim (Create.name b2))).
    fold (prefix3 (trim (Create.name b1))). now rewrite Hname. }
  assert (Ht : taken (sku_of now req2 (stored req1 row s))
                 (Create.barcode b2) (stored req1 row s) = true).
  { unfold taken. rewrite stored_products, existsb_app. cbn [existsb].
    rewrite Hsame, String.eqb_refl. cbn. now rewrite orb_true_r. }
  rewrite Ht. repeat split.
Qed.

Lemma generated_sku_collides_witness :
  let s1 := snd (serve (createProduct 1700000000123 gadget) None seeded) in
  let s2 := snd (serve (createProduct 1700000000123 gadfly) None s1) in
  fst (serve (createProduct 1700000000123 gadfly) None s1)
  = json 400 (error_body "SKU or barcode already exists")
  /\ products s2 = products s1
  /\ transactions s2 = transactions s1
  /\ nextProductId s2 = nextProductId s1 + 1.
Proof.
  apply (generated_sku_collides 1700000000123 gadget gadfly seeded);
    reflexivity.
Defined.

Lemma findByPk_stored (pid : Z) (req : Create.req) (row : Product)
  (s : Store) :
  Product_findByPk pid (stored req row s)
  = Product_findByPk pid (with_product row s).
Proof. unfold stored. destruct (0 <? stockQuantity row); reflexivity. Qed.

Lemma findByPk_fresh (s : Store) :
  (forall p, In p (products s) -> id p < nextProductId s) ->
  Product_findByPk (nextProductId s) s = None.
Proof.
  intros Hbelow. destruct (Product_findByPk _ s) as [p|] eqn:H; [|reflexivity].
  destruct (findByPk_id _ _ _ H) as [Hid Hin]. apply Hbelow in Hin. lia.
Qed.

Lemma movements_of_fresh (pid : Z) (s : Store) :
  (forall t, In t (transactions s) -> productId t < nextProductId s) ->
  nextProductId s <= pid ->
  movements_of pid s = [].
Proof.
  intros Hbelow Hpid. unfold movements_of.
  replace (filter _ (transactions s)) with (@nil Transaction); [reflexivity|].
  symmetry. induction (transactions s) as [|t l IH]; [reflexivity|].
  cbn. assert (Ht : productId t < nextProductId s) by (apply Hbelow; now left).
  destruct (productId t =? pid) eqn:Heq.
  - apply Z.eqb_eq in Heq. lia.
  - apply IH. intros t' Hin. apply Hbelow. now right.
Qed.

(** X12.  Create, then look up.  Take a database in which the keys of
    the products, and the product keys that the movements carry, are
    below the sequence of the products.  A valid creation with ASCII
    texts, a free SKU and barcode and a stored category and supplier
    is answered 201 with the stored row: the trimmed name, the two
    amounts rounded to two decimals, the stock and the threshold that
    the database reads.  [getProduct] under the new key then shows
    that row with its initial movement, or with no movement when it
    starts without stock. *)
Theorem createProduct_then_getProduct (now : Z) (req : Create.req)
  (s : Store) :
  let b := Create.body_ req in
  let row := new_row now req s in
  let s' := snd (serve (createProduct now req) None s) in
  (forall p, In p (products s) -> id p < nextProductId s) ->
  (forall t, In t (transactions s) -> productId t < nextProductId s) ->
  productValidation b = [] ->
  is_ascii (Create.name b) = true ->
  Forall (fun c => is_ascii (cat_name c) = true) (categories s) ->
  taken (sku_of now req s) (Create.barcode b) s = false ->
  references_exist (Create.categoryId b) (Create.supplierId b) s = true ->
  fst (serve (createProduct now req) None s)
  = json 201 (created_body "Product created successfully" (Some row))
  /\ name row = trim (Create.name b)
  /\ price row = round2 (Create.price b)
  /\ cost row = round2 (Create.cost b)
  /\ integer_in (or_value (Create.stockQuantity b) 0)
     = Some (stockQuantity row)
  /\ integer_in (or_value (Create.minStockLevel b) 10)
     = Some (minStockLevel row)
  /\ fst (serve_as (getProduct (id row)) None s')
     = reply 200
         (answer_product row
            (if 0 <? stockQuantity row
             then [initial_movement req row (with_product row s)]
             else [])).
Proof.
  intros b row s' Hpb Hmb Hv _ _ Hfree Hrefs. subst s'.
  destruct (new_row_reads now req s Hv) as [Hrs Hrm]. fold b row in Hrs, Hrm.
  rewrite (createProduct_unfold now req s Hv). fold b row.
  rewrite Hfree, Hrefs. cbn [negb fst snd].
  assert (Hfind : Product_findByPk (id row) (stored req row s) = Some row).
  { rewrite findByPk_stored, findByPk_with_product.
    change (id row) with (nextProductId s).
    rewrite (findByPk_fresh s Hpb).
    change (nextProductId s) with (id row). now rewrite Z.eqb_refl. }
  rewrite Hfind. split; [reflexivity|].
  do 3 (split; [reflexivity|]).
  split; [exact (reads_integer _ _ _ Hrs)|].
  split; [exact (reads_integer _ _ _ Hrm)|].
  rewrite getProduct_unfold, Hfind. cbn [fst]. do 2 f_equal.
  unfold stored. destruct (0 <? stockQuantity row).
  - unfold movements_of. cbn [transactions with_movement with_product].
    rewrite filter_app, rev_app_distr. cbn [filter initial_movement productId].
    rewrite Z.eqb_refl. cbn [rev app].
    fold (movements_of (id row) s).
    rewrite (movements_of_fresh (id row) s Hmb) by (cbn; lia).
    reflexivity.
  - change (movements_of (id row) (with_product row s))
      with (movements_of (id row) s).
    rewrite (movements_of_fresh (id row) s Hmb) by (cbn; lia).
    reflexivity.
Qed.

Lemma createProduct_then_getProduct_witness :
  let row := new_row 1700000000789 rivet shop in
  let s' := snd (serve (createProduct 1700000000789 rivet) None shop) in
  fst (serve (createProduct 1700000000789 rivet) None shop)
  = json 201 (created_body "Product created successfully" (Some row))
  /\ name row = "Rivet"%string
  /\ price row = 13 # 100
  /\ cost row = 6 # 100
  /\ integer_in (Str "12") = Some (stockQuantity row)
  /\ integer_in (Num 10) = Some (minStockLevel row)
  /\ fst (serve_as (getProduct (id row)) None s')
     = reply 200
         (answer_product row
            (if 0 <? stockQuantity row
             then [initial_movement rivet row (with_product row shop)]
             else [])).
Proof.
  apply (createProduct_then_getProduct 1700000000789 rivet shop).
  - intros p [<- | []]. reflexivity.
  - intros t [<- | []]. reflexivity.
  - reflexivity.
  - reflexivity.
  - repeat constructor.
  - reflexivity.
  - reflexivity.
Defined.

(** ** Adjustments seen from the other handlers *)

Lemma adjustStock_succeeds (req : Adjust.req) (s : Store) (p : Product) :
  stockAdjustmentValidation (Adjust.body_ req) = [] ->
  Product_findByPk (Adjust.params_id req) s = Some p ->
  0 <= stockQuantity p + Adjust.quantity (Adjust.body_ req) ->
  serve (adjustStock req) None s
  = (json 200
       (adjusted_body "Stock adjusted successfully" (id p) (name p)
          (stockQuantity p)
          (stockQuantity p + Adjust.quantity (Adjust.body_ req))
          (Adjust.quantity (Adjust.body_ req))),
     adjusted req p s).
Proof.
  intros Hv Hfind Hnew. rewrite adjustStock_unfold.
  unfold adjustStock_outcome. rewrite Hv, Hfind.
  assert (Hlt : (stockQuantity p + Adjust.quantity (Adjust.body_ req) <? 0)
                = false) by (apply Z.ltb_ge; lia).
  now rewrite Hlt.
Qed.

Lemma findByPk_adjusted_target (req : Adjust.req) (p : Product) (s : Store) :
  Product_findByPk (Adjust.params_id req) s = Some p ->
  Product_findByPk (Adjust.params_id req) (adjusted req p s)
  = Some (set_stockQuantity p
            (stockQuantity p + Adjust.quantity (Adjust.body_ req))).
Proof.
  intros Hfind. rewrite findByPk_adjusted, Hfind. cbn [option_map].
  unfold restock. now rewrite Z.eqb_refl.
Qed.

(** X13.  Adjust, then look up.  After a successful adjustment,
    [getProduct] shows the product with its new stock, and the
    movement just recorded comes first in its history. *)
Theorem adjustStock_then_getProduct (req : Adjust.req) (s : Store)
  (p : Product) :
  let q := Adjust.quantity (Adjust.body_ req) in
  stockAdjustmentValidation (Adjust.body_ req) = [] ->
  Product_findByPk (Adjust.params_id req) s = Some p ->
  0 <= stockQuantity p + q ->
  let s' := snd (serve (adjustStock req) None s) in
  fst (serve_as (getProduct (Adjust.params_id req)) None s')
  = reply 200
      (answer_product (set_stockQuantity p (stockQuantity p + q))
         (recorded req p s :: firstn 9 (movements_of (id p) s))).
Proof.
  intros q Hv Hfind Hnew s'. subst s'.
  rewrite (adjustStock_succeeds req s p Hv Hfind Hnew). cbn [snd].
  rewrite getProduct_unfold, (findByPk_adjusted_target req p s Hfind).
  cbn [fst]. do 2 f_equal.
  unfold movements_of. cbn [id set_stockQuantity transactions adjusted].
  rewrite filter_app, rev_app_distr. cbn [filter recorded productId].
  rewrite Z.eqb_refl. reflexivity.
Qed.

Lemma adjustStock_then_getProduct_witness :
  let s' := snd (serve (adjustStock (adjust (-7))) None shop) in
  fst (serve_as (getProduct 1) None s')
  = reply 200
      (answer_product (set_stockQuantity widget_row 3)
         (recorded (adjust (-7)) widget_row shop
          :: firstn 9 (movements_of 1 shop))).
Proof.
  apply (adjustStock_then_getProduct (adjust (-7)) shop widget_row).
  - reflexivity.
  - reflexivity.
  - discriminate.
Defined.

(** X14.  Undo by a counter-movement.  On a database whose product
    keys are distinct, adjusting a product whose stock is not negative
    by [q] and then by [-q] leaves the products table exactly as it
    was and the history longer by two movements of the same
    magnitude, the second ending at the stock the first started
    from. *)
Theorem adjustStock_round_trip (r1 r2 : Adjust.req) (s : Store) (p : Product) :
  let q := Adjust.quantity (Adjust.body_ r1) in
  NoDup (map id (products s)) ->
  stockAdjustmentValidation (Adjust.body_ r1) = [] ->
  stockAdjustmentValidation (Adjust.body_ r2) = [] ->
  Adjust.params_id r2 = Adjust.params_id r1 ->
  Adjust.quantity (Adjust.body_ r2) = - q ->
  Product_findByPk (Adjust.params_id r1) s = Some p ->
  0 <= stockQuantity p ->
  0 <= stockQuantity p + q ->
  let s' := snd (serve (adjustStock r2) None
                   (snd (serve (adjustStock r1) None s))) in
  products s' = products s
  /\ exists m1 m2,
       transactions s' = transactions s ++ [m1; m2]
       /\ quantity m1 = Z.abs q /\ quantity m2 = Z.abs q
       /\ previousStock m1 = stockQuantity p
       /\ newStock m1 = previousStock m2
       /\ newStock m2 = stockQuantity p.
Proof.
  intros q Hok Hv1 Hv2 Hsame Hq2 Hfind Hpos Hnew s'. subst s'.
  rewrite (adjustStock_succeeds r1 s p Hv1 Hfind Hnew). cbn [snd].
  set (p1 := set_stockQuantity p (stockQuantity p + q)).
  assert (Hfind1 : Product_findByPk (Adjust.params_id r2) (adjusted r1 p s)
                   = Some p1).
  { rewrite Hsame. now apply findByPk_adjusted_target. }
  rewrite (adjustStock_succeeds r2 _ p1 Hv2 Hfind1) by
    (rewrite Hq2; unfold p1; cbn [stockQuantity set_stockQuantity]; lia).
  cbn [snd]. split.
  - cbn [products adjusted restocked transactions]. rewrite map_map.
    rewrite <- (map_id (products s)) at 2. apply map_ext_in.
    intros row Hin. cbn [id set_stockQuantity p1 stockQuantity].
    destruct (id row =? id p) eqn:Heq; cbn [id set_stockQuantity].
    + rewrite Heq. apply Z.eqb_eq in Heq.
      pose proof (findByPk_distinct s row Hok Hin) as Hrow.
      destruct (findByPk_id _ _ _ Hfind) as [Hid _].
      rewrite Heq, Hid, Hfind in Hrow. injection Hrow as <-.
      rewrite Hq2. fold q.
      replace (stockQuantity p + q + - q) with (stockQuantity p) by lia.
      destruct p; reflexivity.
    + now rewrite Heq.
  - exists (recorded r1 p s), (recorded r2 p1 (adjusted r1 p s)).
    split; [cbn; now rewrite <- app_assoc|].
    cbn. rewrite Hq2. fold q. repeat split; lia.
Qed.

Lemma adjustStock_round_trip_witness :
  let s' := snd (serve (adjustStock (adjust 7)) None
                   (snd (serve (adjustStock (adjust (-7))) None shop))) in
  products s' = products shop
  /\ exists m1 m2,
       transactions s' = transactions shop ++ [m1; m2]
       /\ quantity m1 = Z.abs (-7) /\ quantity m2 = Z.abs (-7)
       /\ previousStock m1 = stockQuantity widget_row
       /\ newStock m1 = previousStock m2
       /\ newStock m2 = stockQuantity widget_row.
Proof.
  apply (adjustStock_round_trip (adjust (-7)) (adjust 7) shop widget_row).
  - repeat constructor. intros [].
  - reflexivity.
  - reflexivity.
  - reflexivity.
  - reflexivity.
  - reflexivity.
  - discriminate.
  - discriminate.
Defined.

Lemma ltrim_blank (s : string) : blank s = true -> ltrim s = ""%string.
Proof.
  unfold blank. induction s as [|c s IH]; cbn; [reflexivity|].
  intros H. apply andb_prop in H. destruct H as [Hc Hs].
  rewrite Hc. now apply IH.
Qed.

Lemma trim_blank (s : string) : blank s = true -> trim s = ""%string.
Proof. intros H. unfold trim. now rewrite (ltrim_blank s H). Qed.

(** X16.  A reason made of white space passes the validation chain, which
    tests for emptiness before it trims: the adjustment is carried
    out and the movement is stored with an empty reason. *)
Theorem blank_reason_accepted (req : Adjust.req) (s : Store) (p : Product) :
  let b := Adjust.body_ req in
  Adjust.quantity b <> 0 ->
  Adjust.reason b <> ""%string ->
  blank (Adjust.reason b) = true ->
  Product_findByPk (Adjust.params_id req) s = Some p ->
  0 <= stockQuantity p + Adjust.quantity b ->
  status (fst (serve (adjustStock req) None s)) = 200
  /\ exists m,
       transactions (snd (serve (adjustStock req) None s))
       = transactions s ++ [m]
       /\ reason m = ""%string.
Proof.
  intros b Hq Hr Hblank Hfind Hnew.
  assert (Hv : stockAdjustmentValidation b = []).
  { unfold stockAdjustmentValidation, isEmpty.
    apply Z.eqb_neq in Hq. rewrite Hq.
    destruct (String.eqb (Adjust.reason b) "") eqn:He; [|reflexivity].
    apply String.eqb_eq in He. contradiction. }
  rewrite (adjustStock_succeeds req s p Hv Hfind Hnew). cbn [fst snd].
  split; [reflexivity|].
  exists (recorded req p s). split; [reflexivity|].
  cbn. now apply trim_blank.
Qed.

Lemma blank_reason_accepted_witness :
  status (fst (serve (adjustStock unexplained) None shop)) = 200
  /\ exists m,
       transactions (snd (serve (adjustStock unexplained) None shop))
       = transactions shop ++ [m]
       /\ reason m = ""%string.
Proof.
  apply (blank_reason_accepted unexplained shop widget_row).
  - discriminate.
  - discriminate.
  - reflexivity.
  - reflexivity.
  - discriminate.
Defined.

(** X15.  Stock of a deleted product still moves.  [adjustStock] does not
    look at [isActive]: after a product is deleted, a valid
    adjustment of it is answered 200 and its stock changes, while the
    product stays deleted. *)
Theorem adjustStock_after_delete (req : Adjust.req) (s : Store) (p : Product) :
  let pk := Adjust.params_id req in
  let q := Adjust.quantity (Adjust.body_ req) in
  stockAdjustmentValidation (Adjust.body_ req) = [] ->
  Product_findByPk pk s = Some p ->
  0 <= stockQuantity p + q ->
  let s1 := snd (serve_as (deleteProduct pk) None s) in
  let s2 := snd (serve (adjustStock req) None s1) in
  status (fst (serve (adjustStock req) None s1)) = 200
  /\ Product_findByPk pk s2
     = Some (set_stockQuantity (set_isActive p false) (stockQuantity p + q))
  /\ exists m, transactions s2 = transactions s ++ [m]
               /\ newStock m = stockQuantity p + q.
Proof.
  intros pk q Hv Hfind Hnew s1 s2. subst s1 s2.
  rewrite deleteProduct_unfold. fold pk. rewrite Hfind. cbn [snd].
  assert (Hfind1 : Product_findByPk (Adjust.params_id req)
                     (snd (Product_update_isActive p false s))
                   = Some (set_isActive p false)).
  { fold pk. rewrite findByPk_deactivated, Hfind. cbn.
    now rewrite Z.eqb_refl. }
  rewrite (adjustStock_succeeds req _ (set_isActive p false) Hv Hfind1 Hnew).
  cbn [fst snd status json]. split; [reflexivity|]. split.
  - unfold pk. now rewrite (findByPk_adjusted_target req _ _ Hfind1).
  - eexists. split; reflexivity.
Qed.

Lemma adjustStock_after_delete_witness :
  let s1 := snd (serve_as (deleteProduct 1) None shop) in
  let s2 := snd (serve (adjustStock (adjust (-7))) None s1) in
  status (fst (serve (adjustStock (adjust (-7))) None s1)) = 200
  /\ Product_findByPk 1 s2
     = Some (set_stockQuantity (set_isActive widget_row false) (10 + -7))
  /\ exists m, transactions s2 = transactions shop ++ [m]
               /\ newStock m = 10 + -7.
Proof.
  apply (adjustStock_after_delete (adjust (-7)) shop widget_row).
  - reflexivity.
  - reflexivity.
  - discriminate.
Defined.

(** ** Pages *)

Lemma getAllProducts_page (iLike : string -> string -> bool)
  (q : Listing.query_) (s : Store) (k l : Z) :
  1 <= k -> 0 <= l ->
  serve (getAllProducts iLike (on_page q k l)) None s
  = (json 200
       (products_body
          (firstn (Z.to_nat l)
             (skipn (Z.to_nat ((k - 1) * l)) (listing iLike q s)))
          (Z.of_nat (List.length (listing iLike q s)))
          (parseInt_or (Some k) 1) l (ceil_div (Z.of_nat (List.length (listing iLike q s))) l)),
     s).
Proof.
  intros Hk Hl. unfold serve, getAllProducts, try_catch.
  cbn [paginate on_page Listing.page Listing.limit].
  rewrite bind_query_answers by discriminate.
  unfold Product_findAndCountAll.
  assert (H1 : (l <? 0) = false) by (apply Z.ltb_ge; lia).
  assert (H2 : ((k - 1) * l <? 0) = false) by (apply Z.ltb_ge; nia).
  rewrite H1, H2. reflexivity.
Qed.

Lemma firstn_plus {A} (a b : nat) (l : list A) :
  firstn (a + b) l = firstn a l ++ firstn b (skipn a l).
Proof.
  revert l. induction a as [|a IH]; intros l; [reflexivity|].
  destruct l as [|x l]; cbn.
  - now rewrite firstn_nil.
  - now rewrite IH.
Qed.

(** X18.  Pages tile the listing.  With a positive page size, pages 1 to
    [n] of a query, put end to end, are the first [n] times the page
    size rows of the whole listing, newest first, and each page
    reports the size of the whole listing as its total. *)
Theorem pages_tile (iLike : string -> string -> bool) (q : Listing.query_)
  (s : Store) (l : Z) (n : nat) :
  0 < l ->
  List.concat (map (page_rows iLike q l s) (seq 1 n))
  = firstn (n * Z.to_nat l) (listing iLike q s)
  /\ (forall k, (1 <= k)%nat ->
        total_of (fst (serve (getAllProducts iLike (on_page q (Z.of_nat k) l))
                         None s))
        = Some (Z.of_nat (List.length (listing iLike q s)))).
Proof.
  intros Hl. split.
  - induction n as [|n IH]; [reflexivity|].
    rewrite seq_S, map_app, concat_app, IH. cbn [map List.concat].
    rewrite app_nil_r. unfold page_rows.
    rewrite getAllProducts_page by lia. cbn [fst rows_of body json].
    replace (Z.to_nat ((Z.of_nat (1 + n) - 1) * l)) with (n * Z.to_nat l)%nat.
    + rewrite <- firstn_plus. f_equal. lia.
    + replace (Z.of_nat (1 + n) - 1) with (Z.of_nat n) by lia.
      rewrite Z2Nat.inj_mul by lia. now rewrite Nat2Z.id.
  - intros k Hk. rewrite getAllProducts_page by lia. reflexivity.
Qed.

Lemma pages_tile_witness :
  (List.concat (map (page_rows (fun _ _ => false) hardware_query 2 full_shop)
                  (seq 1 2))
   = firstn (2 * Z.to_nat 2)
       (listing (fun _ _ => false) hardware_query full_shop)
   /\ (forall k, (1 <= k)%nat ->
         total_of (fst (serve (getAllProducts (fun _ _ => false)
                                 (on_page hardware_query (Z.of_nat k) 2))
                          None full_shop))
         = Some (Z.of_nat (List.length
                             (listing (fun _ _ => false) hardware_query
                                full_shop)))))
  /\ map name (listing (fun _ _ => false) hardware_query full_shop)
     = ["Nut"; "Washer"; "Rivet"]%string
  /\ map name (page_rows (fun _ _ => false) hardware_query 2 full_shop 1)
     = ["Nut"; "Washer"]%string
  /\ map name (page_rows (fun _ _ => false) hardware_query 2 full_shop 2)
     = ["Rivet"]%string.
Proof.
  split.
  - apply (pages_tile (fun _ _ => false) hardware_query full_shop 2 2).
    reflexivity.
  - repeat split; reflexivity.
Defined.

(** ** Movement keys *)

Lemma StronglySorted_snoc (l : list Z) (x : Z) :
  StronglySorted Z.lt l -> Forall (fun y => y < x) l ->
  StronglySorted Z.lt (l ++ [x]).
Proof.
  induction 1 as [|y l Hl IH Hy]; intros Hx; cbn.
  - constructor; constructor.
  - inversion Hx; subst. constructor; [now apply IH|].
    apply Forall_app. split; [assumption | now constructor].
Qed.

Lemma keeps_movement_keys_respected : respected keeps_movement_keys.
Proof.
  assert (Hsame : forall s s', transactions s' = transactions s ->
                               nextTransactionId s' = nextTransactionId s ->
                               keeps_movement_keys s s').
  { intros s s' Ht Hn. unfold keeps_movement_keys, movement_keys_ok.
    now rewrite Ht, Hn. }
  constructor.
  - intros s H. exact H.
  - unfold keeps_movement_keys. auto.
  - intros p v s. unfold Product_update_stockQuantity.
    destruct (v <? 0); now apply Hsame.
  - intros p v s. now apply Hsame.
  - intros p b s. unfold Product_update.
    repeat match goal with
           | |- context [if ?c then (inl ?e, s) else _] =>
               destruct c; [now apply Hsame|]
           end.
    now apply Hsame.
  - intros v s.
    destruct (Product_create_effect v s) as [-> | [-> | (row & -> & _)]];
      now apply Hsame.
  - intros pid uid ty q prev new_ rsn nts s. unfold Transaction_insert.
    intros [Hsorted Hbelow]. split; cbn.
    + rewrite map_app. apply StronglySorted_snoc; [assumption|].
      apply Forall_map. exact Hbelow.
    + apply Forall_app. split.
      * eapply Forall_impl; [|exact Hbelow]. cbn. intros; lia.
      * constructor; [cbn; lia | constructor].
Qed.

(** X4.  Movement keys are never reused: over any requests to the product
    routes, the keys of the stored movements stay strictly increasing
    in insertion order and below the sequence that issues them. *)
Theorem movement_keys_increase (iLike : string -> string -> bool)
  (rs : list Request) (s : Store) :
  movement_keys_ok s -> movement_keys_ok (after_all iLike rs s).
Proof.
  exact (after_all_respects _ keeps_movement_keys_respected iLike rs s).
Qed.

Lemma movement_keys_increase_witness :
  movement_keys_ok (after_all (fun _ _ => false) busy_day shop).
Proof.
  apply (movement_keys_increase (fun _ _ => false) busy_day shop).
  split; cbn.
  - repeat constructor.
  - repeat constructor.
Defined.

Lemma stock_never_negative_witness :
  Forall (fun p => 0 <= stockQuantity p)
         (products (after_all (fun _ _ => false) busy_day shop)).
Proof.
  apply (stock_never_negative (fun _ _ => false) busy_day shop).
  repeat constructor. discriminate.
Defined.

(** ** The products table of the front end *)

(** X19.  The table and the dashboard agree.  For a product whose
    threshold is not negative, the row is marked ([out-of-stock] or
    [low-stock], badge not green) exactly when the dashboard counts
    the product as low on stock; so the marked rows of a table are
    the products behind the dashboard's low-stock figure. *)
Theorem table_marks_low_stock (a : App) :
  Forall (fun p => 0 <= minStockLevel p) (app_products a) ->
  (forall p, In p (app_products a) ->
     (stockClass p <> ""%string <-> isLowStock p = true)
     /\ (badgeClass p <> "bg-success"%string <-> isLowStock p = true))
  /\ lowStockItems (updateDashboardStats a)
     = Z.of_nat (List.length
                   (filter (fun p => negb (isEmpty (stockClass p)))
                           (app_products a))).
Proof.
  intros Hmin.
  assert (Hone : forall p, 0 <= minStockLevel p ->
                   negb (isEmpty (stockClass p)) = isLowStock p
                   /\ (stockClass p <> ""%string <-> isLowStock p = true)
                   /\ (badgeClass p <> "bg-success"%string
                       <-> isLowStock p = true)).
  { intros p Hp. unfold stockClass, badgeClass, isLowStock.
    destruct (stockQuantity p =? 0) eqn:H0.
    - apply Z.eqb_eq in H0. rewrite H0.
      assert (Hle : (0 <=? minStockLevel p) = true) by now apply Z.leb_le.
      rewrite Hle. repeat split; intros; try reflexivity; discriminate.
    - destruct (stockQuantity p <=? minStockLevel p);
        repeat split; intros; try reflexivity; try discriminate;
        now exfalso. }
  split.
  - intros p Hin. rewrite Forall_forall in Hmin.
    now destruct (Hone p (Hmin p Hin)) as (_ & H1 & H2).
  - cbn. do 2 f_equal. apply filter_ext_in. intros p Hin.
    rewrite Forall_forall in Hmin.
    now destruct (Hone p (Hmin p Hin)) as (H & _).
Qed.

Lemma table_marks_low_stock_witness :
  let a := {| app_products := [widget_row; at_threshold];
              app_categories := [];
              totalProducts := 0; lowStockItems := 0;
              totalCategories := 0; totalValue := double_of_Z 0 |} in
  (forall p, In p (app_products a) ->
     (stockClass p <> ""%string <-> isLowStock p = true)
     /\ (badgeClass p <> "bg-success"%string <-> isLowStock p = true))
  /\ lowStockItems (updateDashboardStats a)
     = Z.of_nat (List.length
                   (filter (fun p => negb (isEmpty (stockClass p)))
                           (app_products a))).
Proof.
  intros a. apply (table_marks_low_stock a).
  repeat constructor; discriminate.
Defined.

Lemma in_filter_unless {A} (c : bool) (g : A -> bool) (l : list A) (x : A) :
  In x (if c then l else filter g l) <-> In x l /\ (c = false -> g x = true).
Proof.
  destruct c; [|rewrite filter_In]; split.
  - intros H. split; [assumption | discriminate].
  - now intros [H _].
  - intros [H1 H2]. now split.
  - intros [H1 H2]. split; [assumption | now apply H2].
Qed.

Lemma in_filter_when {A} (c : bool) (g : A -> bool) (l : list A) (x : A) :
  In x (if c then filter g l else l) <-> In x l /\ (c = true -> g x = true).
Proof.
  destruct c; [rewrite filter_In|]; split.
  - intros [H1 H2]. now split.
  - intros [H1 H2]. split; [assumption | now apply H2].
  - intros H. split; [assumption | discriminate].
  - now intros [H _].
Qed.

Lemma in_filter_selected {A} (o : option Z) (h : A -> Z) (l : list A) (x : A) :
  In x (match o with
        | Some c => filter (fun y => h y =? c) l
        | None => l
        end)
  <-> In x l /\ (forall c, o = Some c -> h x = c).
Proof.
  destruct o as [c|]; [rewrite filter_In, Z.eqb_eq|]; split.
  - intros [H1 H2]. split; [assumption|]. now intros c' [= <-].
  - intros [H1 H2]. split; [assumption | now apply H2].
  - intros H. split; [assumption | discriminate].
  - now intros [H _].
Qed.

(** X20.  The filters of the table are a conjunction.  A product is among
    the rows that [applyFilters] renders exactly when it is among the
    loaded products and meets every control that is set: the search
    term, if any, occurs in its name, SKU or description whatever the
    case; its category is the selected one; it is low on stock if the
    box is ticked. *)
Theorem applyFilters_shows (f : Filters) (ps : list Product) (p : Product) :
  In p (applyFilters f ps) <-> In p ps /\ shown_by f p.
Proof.
  unfold applyFilters, shown_by. cbv zeta.
  rewrite in_filter_when, in_filter_selected, in_filter_unless.
  tauto.
Qed.

(** ** [generateSKU] *)

Lemma length_append (a b : string) :
  String.length (a ++ b) = (String.length a + String.length b)%nat.
Proof. induction a as [|c a IH]; cbn; [reflexivity | now rewrite IH]. Qed.

Lemma is_ascii_cons (c : ascii) (s : string) :
  is_ascii (String c s) = true ->
  (nat_of_ascii c < 128)%nat /\ is_ascii s = true.
Proof.
  unfold is_ascii. cbn [list_ascii_of_string forallb]. intros H.
  apply andb_prop in H as [Hc Hs]. split; [now apply Nat.ltb_lt | exact Hs].
Qed.

Lemma length_upper (c : ascii) :
  (nat_of_ascii c < 128)%nat -> String.length (upper c) = 1%nat.
Proof.
  intros Hc. unfold upper.
  destruct (Nat.leb 97 (nat_of_ascii c) && Nat.leb (nat_of_ascii c) 122)%bool;
    [reflexivity|].
  destruct (Nat.eqb (nat_of_ascii c) 223) eqn:He.
  - apply Nat.eqb_eq in He. lia.
  - destruct (_ && _ && _)%bool; reflexivity.
Qed.

Lemma length_toUpperCase (s : string) :
  is_ascii s = true -> String.length (toUpperCase s) = String.length s.
Proof.
  induction s as [|c s IH]; [reflexivity|].
  intros H. apply is_ascii_cons in H as [Hc Hs].
  cbn [toUpperCase String.length].
  rewrite length_append, (length_upper c Hc), (IH Hs). reflexivity.
Qed.

Lemma is_ascii_substring (n m : nat) (s : string) :
  is_ascii s = true -> is_ascii (substring n m s) = true.
Proof.
  revert n m. induction s as [|c s IH]; intros n m H.
  - destruct n, m; reflexivity.
  - pose proof H as H'. apply is_ascii_cons in H' as [Hc Hs].
    destruct n as [|n].
    + destruct m as [|m]; [reflexivity|].
      cbn [substring]. unfold is_ascii.
      cbn [list_ascii_of_string forallb].
      apply andb_true_intro. split; [now apply Nat.ltb_lt|].
      apply (IH 0%nat m Hs).
    + cbn [substring]. now apply IH.
Qed.

Lemma length_substring (n m : nat) (s : string) :
  String.length (substring n m s) = Nat.min m (String.length s - n).
Proof.
  revert n m. induction s as [|c s IH]; intros n m.
  - destruct n, m; cbn; lia.
  - destruct n as [|n].
    + destruct m as [|m]; cbn; [reflexivity|].
      rewrite IH. rewrite Nat.sub_0_r. reflexivity.
    + cbn. apply IH.
Qed.

(** X21.  The length of a generated SKU, for ASCII names: up to three
    characters of the category name, up to three of the product name,
    the last six digits at most of the clock, and two hyphens; never
    more than 14 characters.  A name that starts with three sharp s
    gives a prefix of six characters. *)
Theorem generateSKU_length (now : Z) (categoryName productName : string) :
  is_ascii categoryName = true ->
  is_ascii productName = true ->
  String.length (generateSKU now categoryName productName)
  = (Nat.min 3 (String.length categoryName)
     + Nat.min 3 (String.length productName)
     + Nat.min 6 (String.length (toString now)) + 2)%nat
  /\ (String.length (generateSKU now categoryName productName) <= 14)%nat
  /\ generateSKU 1700000000123 "Hardware" sharp_s_name
     = "HAR-SSSSSS-000123"%string.
Proof.
  intros Hc Hp.
  assert (H : String.length (generateSKU now categoryName productName)
              = (Nat.min 3 (String.length categoryName)
                 + Nat.min 3 (String.length productName)
                 + Nat.min 6 (String.length (toString now)) + 2)%nat).
  { unfold generateSKU, slice_last.
    rewrite !length_append.
    rewrite !length_toUpperCase by now apply is_ascii_substring.
    rewrite !length_substring.
    cbn [String.length]. lia. }
  split; [exact H|]. split; [rewrite H; lia | reflexivity].
Qed.

Lemma generateSKU_length_witness :
  String.length (generateSKU 1700000000123 "Hardware" "Rivet")
  = (Nat.min 3 (String.length "Hardware")
     + Nat.min 3 (String.length "Rivet")
     + Nat.min 6 (String.length (toString 1700000000123)) + 2)%nat
  /\ (String.length (generateSKU 1700000000123 "Hardware" "Rivet") <= 14)%nat
  /\ generateSKU 1700000000123 "Hardware" sharp_s_name
     = "HAR-SSSSSS-000123"%string.
Proof.
  apply (generateSKU_length 1700000000123 "Hardware" "Rivet"); reflexivity.
Defined.

(** X9.  A SKU held by another product cannot be taken over by an
    update: the answer is 500, not the 400 that [createProduct] gives
    for the same conflict, and nothing is written. *)
Theorem updateProduct_duplicate_sku (pk : Z) (req : Create.req) (s : Store)
  (p other : Product) (x : string) :
  let b := Create.body_ req in
  productValidation b = [] ->
  Product_findByPk pk s = Some p ->
  In other (products s) ->
  id other <> id p ->
  sku other = x ->
  Create.sku b = Some x ->
  code (fst (serve_as (updateProduct pk req) None s)) = 500
  /\ snd (serve_as (updateProduct pk req) None s) = s.
Proof.
  intros b Hv Hfind Hin Hid Hsku Hb.
  rewrite (updateProduct_unfold pk req s p Hv Hfind). fold b.
  assert (Ht : taken_by_other (id p) (Create.sku b) (Create.barcode b) s
               = true).
  { unfold taken_by_other. apply existsb_exists. exists other.
    split; [assumption|]. apply Z.eqb_neq in Hid. rewrite Hid, Hb, Hsku.
    cbn. now rewrite String.eqb_refl. }
  rewrite Ht. now split.
Qed.

(** X17.  What a product listing can show.  Whatever the query and
    the state of the database, every row of a listing is a stored
    product that is active; it belongs to the category asked for, if
    one was; and with [lowStock=true] its stock is strictly below its
    threshold. *)
Theorem listing_rows (iLike : string -> string -> bool)
  (q : Listing.query_) (o : option nat) (s : Store)
  (rows : list Product) (total page limit : Z) (pages : option Z) :
  body (fst (serve (getAllProducts iLike q) o s))
  = products_body rows total page limit pages ->
  forall row, In row rows ->
    In row (products s)
    /\ isActive row = true
    /\ (forall c, Listing.category q = Some c -> categoryId row = c)
    /\ (Listing.lowStock q = Some "true"%string ->
        stockQuantity row < minStockLevel row).
Proof.
  intros H row Hin. apply getAllProducts_rows in H.
  rewrite Forall_forall in H. destruct (H row Hin) as [Hst Hw].
  split; [exact Hst|].
  unfold whereClause in Hw.
  apply andb_prop in Hw. destruct Hw as [Hw Hlow].
  apply andb_prop in Hw. destruct Hw as [Hw Hcat].
  apply andb_prop in Hw. destruct Hw as [Hact _].
  split; [now apply Bool.eqb_prop in Hact|]. split.
  - intros c Hc. rewrite Hc in Hcat. now apply Z.eqb_eq.
  - intros Hq. rewrite Hq in Hlow. cbn in Hlow. now apply Z.ltb_lt.
Qed.

Lemma listing_rows_witness :
  In widget_row (products shop)
  /\ isActive widget_row = true
  /\ (forall c, Listing.category
                  {| Listing.page := None; Listing.limit := None;
                     Listing.search := None; Listing.category := Some 1;
                     Listing.lowStock := None |} = Some c ->
                categoryId widget_row = c)
  /\ (Listing.lowStock
        {| Listing.page := None; Listing.limit := None;
           Listing.search := None; Listing.category := Some 1;
           Listing.lowStock := None |} = Some "true"%string ->
      stockQuantity widget_row < minStockLevel widget_row).
Proof.
  apply (listing_rows (fun _ _ => false)
           {| Listing.page := None; Listing.limit := None;
              Listing.search := None; Listing.category := Some 1;
              Listing.lowStock := None |}
           None shop [widget_row] 1 1 10 (Some 1) eq_refl widget_row).
  now left.
Defined.

Lemma updateProduct_duplicate_sku_witness :
  code (fst (serve_as (updateProduct 2 takeover) None two_products)) = 500
  /\ snd (serve_as (updateProduct 2 takeover) None two_products)
     = two_products.
Proof.
  apply (updateProduct_duplicate_sku 2 takeover two_products
           (new_row 1700000000456 gadget shop) widget_row "WID-001").
  - reflexivity.
  - reflexivity.
  - now left.
  - discriminate.
  - reflexivity.
  - reflexivity.
Defined.
